(** * Finance analytics server: cache, dispatcher and engines

    A shallow embedding of the request-serving core of the finance server
    ([utils/cache.py], [server.py], [engines/technical_engine.py],
    [engines/fundamental_engine.py]) together with the properties of its
    design document that can be stated over it.

    Conventions.
    - A Python [str] is a Rocq [string]; non-ASCII text is its UTF-8 bytes,
      which preserves equality and code-point order.
    - A Python [dict] used as a keyed store is a [gmap string _]; a [dict]
      whose order is observable (JSON objects) is an association list.
    - A Python [float] is a value of [fl]: a finite value is an exact
      rational ([Qc]), and the IEEE specials [+inf], [-inf] and [nan] are
      constructors.  Rounding, overflow and the sign of zero are not
      modelled.
    - Code that can raise returns an [outcome]. *)

From Stdlib Require Import ZArith QArith Qcanon Qround String Ascii Bool.
From stdpp Require Import gmap strings list fin_maps sorting pretty.

Set Warnings "-register-all".
Local Open Scope string_scope.

(** ** Python objects that travel through the dispatcher *)

(** The JSON-shaped objects of the server: what [json.loads] builds, what the
    handlers return and what the cache stores.  A [float] is carried by a
    decimal literal that denotes it; [PyOpaque] stands for any object that
    [json.dumps] cannot serialise (a [Timestamp], a [numpy] scalar, ...),
    named by its type. *)
Inductive pyobj : Type :=
| PyNone
| PyBool (b : bool)
| PyInt (n : Z)
| PyFloat (literal : string)
| PyStr (s : string)
| PyList (xs : list pyobj)
| PyDict (items : list (string * pyobj))
| PyOpaque (type_name : string).

(** An exception: its class and [str(e)]. *)
Record exn : Type := Exn { exn_class : string; exn_msg : string }.

Inductive outcome (A : Type) : Type :=
| Return (a : A)
| Raise (e : exn).
Arguments Return {A} a.
Arguments Raise {A} e.

#[global] Instance outcome_ret : MRet outcome := λ A a, Return a.
#[global] Instance outcome_bind : MBind outcome :=
  λ A B f m, match m with Return a => f a | Raise e => Raise e end.

(** ** Floating-point numbers *)

Module Float.

Local Open Scope Qc_scope.

(** A [float] is an exact number, an infinity or [nan].  The numbers are
    rationals of any size: the rounding of a result to the nearest double
    and the overflow of a large result to an infinity are not part of the
    model, so nothing here says that a result stays finite. *)
Inductive fl : Type :=
| Fin (q : Qc)
| PInf
| NInf
| NaN.

#[global] Instance fl_eq_dec : EqDecision fl.
Proof. solve_decision. Defined.

Definition of_Z (z : Z) : fl := Fin (Qc_of_Z z).

Definition is_finite (x : fl) : bool :=
  match x with Fin _ => true | _ => false end.

(** [x != x] *)
Definition is_nan (x : fl) : bool :=
  match x with NaN => true | _ => false end.

(** [bool(x)]: everything but zero, [nan] included. *)
Definition truthy (x : fl) : bool :=
  match x with Fin q => bool_decide (q ≠ 0) | _ => true end.

Definition neg (x : fl) : fl :=
  match x with
  | Fin q => Fin (- q)
  | PInf => NInf
  | NInf => PInf
  | NaN => NaN
  end.

Definition add (x y : fl) : fl :=
  match x, y with
  | NaN, _ | _, NaN => NaN
  | Fin a, Fin b => Fin (a + b)
  | PInf, NInf | NInf, PInf => NaN
  | PInf, _ | _, PInf => PInf
  | NInf, _ | _, NInf => NInf
  end.

Definition sub (x y : fl) : fl := add x (neg y).

(** The sign of a number as a comparison with zero. *)
Definition sgn (x : fl) : option comparison :=
  match x with
  | Fin q => Some (q ?= 0)
  | PInf => Some Gt
  | NInf => Some Lt
  | NaN => None
  end.

Definition mul (x y : fl) : fl :=
  match x, y with
  | Fin a, Fin b => Fin (a * b)
  | _, _ =>
      match sgn x, sgn y with
      | Some Eq, _ | _, Some Eq => NaN
      | Some Gt, Some Gt | Some Lt, Some Lt => PInf
      | Some Gt, Some Lt | Some Lt, Some Gt => NInf
      | None, _ | _, None => NaN
      end
  end.

(** Division of [numpy] and [pandas]: dividing by zero gives an infinity of
    the sign of the dividend, or [nan] for [0/0]; nothing is raised. *)
Definition div (x y : fl) : fl :=
  match x, y with
  | NaN, _ | _, NaN => NaN
  | Fin a, Fin b =>
      if bool_decide (b = 0)
      then match a ?= 0 with Gt => PInf | Lt => NInf | Eq => NaN end
      else Fin (a / b)
  | Fin _, _ => Fin 0
  | _, Fin b =>
      match sgn x, (b ?= 0) with
      | Some Gt, Lt | Some Lt, (Gt | Eq) => NInf
      | _, _ => PInf
      end
  | _, _ => NaN
  end.

(** Division of Python numbers: a zero divisor raises. *)
Definition py_div (x y : fl) : outcome fl :=
  match y with
  | Fin b =>
      if bool_decide (b = 0)
      then Raise (Exn "ZeroDivisionError" "float division by zero")
      else Return (div x y)
  | _ => Return (div x y)
  end.

Definition abs (x : fl) : fl :=
  match x with
  | Fin q => Fin (if bool_decide (q < 0) then - q else q)
  | NaN => NaN
  | _ => PInf
  end.

(** [x < y]; false as soon as one side is [nan]. *)
Definition ltb (x y : fl) : bool :=
  match x, y with
  | NaN, _ | _, NaN => false
  | Fin a, Fin b => bool_decide (a < b)
  | PInf, _ | _, NInf => false
  | NInf, _ | _, PInf => true
  end.

Definition gtb (x y : fl) : bool := ltb y x.

(** [numpy.sign] *)
Definition sign (x : fl) : fl :=
  match sgn x with
  | Some Gt => of_Z 1
  | Some Lt => of_Z (-1)
  | Some Eq => of_Z 0
  | None => NaN
  end.

(** [round(x, 2)] on the exact value: to the nearest hundredth, a tie to
    the even one.  Python rounds the double, which lies beside a decimal
    tie more often than on it; the results below state a value of
    [round2] only where its argument is a whole number. *)
Definition round2 (x : fl) : fl :=
  match x with
  | Fin q =>
      let scaled := (q * Qc_of_Z 100) in
      let n := Qfloor scaled in
      let rest := scaled - Qc_of_Z n in
      let half := Q2Qc (1 # 2) in
      let up := if bool_decide (half < rest) then true
                else if bool_decide (rest = half) then Z.odd n else false in
      Fin (Qc_of_Z (if up then n + 1 else n) / Qc_of_Z 100)
  | _ => x
  end.

(** A square root for non-negative rationals, cut after 40 binary digits;
    it stands for the correctly rounded root of the hardware. *)
Definition sqrt (x : fl) : fl :=
  match x with
  | Fin q =>
      if bool_decide (q < 0) then NaN
      else
        let scale := (2 ^ 40)%Z in
        Fin (Qc_of_Z (Z.sqrt (Qfloor (q * Qc_of_Z (scale * scale)))) / Qc_of_Z scale)
  | PInf => PInf
  | _ => NaN
  end.

(** [a or b] *)
Definition or_else (a b : fl) : fl := if truthy a then a else b.

End Float.

(** ** utils/cache.py *)

Module DataCache.

Local Open Scope Qc_scope.

(** The entry dict [{"value": value, "expiry": expiry_time}]. *)
Record cache_entry : Type := { value : pyobj; expiry : Qc }.

(** [self._cache] and [self._default_ttl]. *)
Record t : Type := { _cache : gmap string cache_entry; _default_ttl : Z }.

Definition with_cache (c : t) (m : gmap string cache_entry) : t :=
  {| _cache := m; _default_ttl := _default_ttl c |}.

(** [DataCache(default_ttl=3600)] *)
Definition init (default_ttl : Z) : t :=
  {| _cache := ∅; _default_ttl := default_ttl |}.

(** Truth value of a float: any non-zero number. *)
Definition truthy (x : Qc) : bool := bool_decide (x ≠ 0).

(** [time.time() > expiry_time] *)
Definition past (now expiry_time : Qc) : bool := bool_decide (expiry_time < now).

(** [get]: [None] for a missing key; an entry whose (non-zero) expiry is
    strictly before [now] is deleted and reported as [None]; otherwise the
    stored value. *)
Definition get (c : t) (key : string) (now : Qc) : pyobj * t :=
  match _cache c !! key with
  | None => (PyNone, c)
  | Some cache_entry =>
      let expiry_time := expiry cache_entry in
      if truthy expiry_time && past now expiry_time
      then (PyNone, with_cache c (delete key (_cache c)))
      else (value cache_entry, c)
  end.

(** [set]: the sum [time.time() + ttl] is taken exactly. *)
Definition set (c : t) (key : string) (v : pyobj) (ttl : option Z) (now : Qc) : t :=
  let expiry_time :=
    now + Qc_of_Z (match ttl with Some s => s | None => _default_ttl c end) in
  with_cache c (<[key := {| value := v; expiry := expiry_time |}]> (_cache c)).

Definition delete (c : t) (key : string) : bool * t :=
  match _cache c !! key with
  | Some _ => (true, with_cache c (base.delete key (_cache c)))
  | None => (false, c)
  end.

Definition clear (c : t) : t := with_cache c ∅.

(** The list comprehension of [cleanup]: keys whose expiry is before
    [current_time]. *)
Definition expired_keys (c : t) (current_time : Qc) : list string :=
  (map_to_list (filter (λ kv, past current_time (expiry kv.2) = true) (_cache c))).*1.

Definition cleanup (c : t) (current_time : Qc) : nat * t :=
  let ks := expired_keys c current_time in
  (length ks, with_cache c (foldl (λ m k, base.delete k m) (_cache c) ks)).

(** An entry is live at [now] when it is stored and its expiry has not
    been reached. *)
Definition live (c : t) (key : string) (now : Qc) : Prop :=
  ∃ e, _cache c !! key = Some e ∧ now < expiry e.

End DataCache.

(** ** The [json] library, as far as the server uses it *)

Module Json.

Definition dquote : ascii := "034"%char.
Definition backslash : ascii := "092"%char.
Definition str1 (a : ascii) : string := String a EmptyString.

Definition hex_digit (n : N) : ascii :=
  ascii_of_N (if (n <? 10)%N then 48 + n else 87 + n).

(** ['\\u{0:04x}'.format(n)] *)
Definition u_escape (n : N) : string :=
  String backslash (String "u"%char
    (String (hex_digit (n / 4096 mod 16)) (String (hex_digit (n / 256 mod 16))
    (String (hex_digit (n / 16 mod 16)) (String (hex_digit (n mod 16)) EmptyString))))).

(** The replacement of one code point by [py_encode_basestring_ascii]:
    the short escapes of [ESCAPE_DCT], printable ASCII unchanged, anything
    else as a [\uXXXX] escape (a surrogate pair above the BMP). *)
Definition escape_code_point (n : N) : string :=
  if (n =? 34)%N then String backslash (str1 dquote)
  else if (n =? 92)%N then String backslash (str1 backslash)
  else if (n =? 10)%N then String backslash "n"
  else if (n =? 13)%N then String backslash "r"
  else if (n =? 9)%N then String backslash "t"
  else if (n =? 12)%N then String backslash "f"
  else if (n =? 8)%N then String backslash "b"
  else if ((32 <=? n) && (n <=? 126))%N then str1 (ascii_of_N n)
  else if (n <? 65536)%N then u_escape n
  else
    let v := (n - 65536)%N in
    u_escape (55296 + v / 1024 mod 1024) +:+ u_escape (56320 + v mod 1024).

Definition cont (a : ascii) : N := (N_of_ascii a mod 64)%N.

(** Walks the UTF-8 bytes of a [str], one code point at a time. *)
Fixpoint escape_chars (s : string) : string :=
  match s with
  | EmptyString => EmptyString
  | String a rest =>
      let b := N_of_ascii a in
      if (b <? 192)%N then escape_code_point b +:+ escape_chars rest
      else
        match rest with
        | EmptyString => escape_code_point b
        | String a1 rest1 =>
            if (b <? 224)%N
            then escape_code_point ((b mod 32) * 64 + cont a1) +:+ escape_chars rest1
            else
              match rest1 with
              | EmptyString => escape_code_point b
              | String a2 rest2 =>
                  if (b <? 240)%N
                  then escape_code_point (((b mod 16) * 64 + cont a1) * 64 + cont a2)
                         +:+ escape_chars rest2
                  else
                    match rest2 with
                    | EmptyString => escape_code_point b
                    | String a3 rest3 =>
                        escape_code_point
                          ((((b mod 8) * 64 + cont a1) * 64 + cont a2) * 64 + cont a3)
                          +:+ escape_chars rest3
                    end
              end
        end
  end.

(** [py_encode_basestring_ascii] *)
Definition encode_basestring_ascii (s : string) : string :=
  String dquote (escape_chars s +:+ str1 dquote).

(** [', '.join(chunks)] *)
Fixpoint join (sep : string) (chunks : list string) : string :=
  match chunks with
  | [] => EmptyString
  | [c] => c
  | c :: rest => c +:+ sep +:+ join sep rest
  end.

(** Runs the chunk encoders from left to right; the first exception
    aborts the whole encoding. *)
Fixpoint collect (chunks : list (outcome string)) : outcome (list string) :=
  match chunks with
  | [] => Return []
  | Raise e :: _ => Raise e
  | Return c :: rest =>
      match collect rest with
      | Return cs => Return (c :: cs)
      | Raise e => Raise e
      end
  end.

(** The order of [sorted(dct.items())]: a [dict] has no two equal keys, so
    the tuple comparison is decided by the keys. *)
Definition key_le {A} (x y : string * A) : Prop := String.le x.1 y.1.

Definition sort_items {A} (items : list (string * A)) : list (string * A) :=
  merge_sort key_le items.

Definition not_serializable (type_name : string) : exn :=
  Exn "TypeError" ("Object of type " +:+ type_name +:+ " is not JSON serializable").

(** One [key: value] chunk of a dict, from the key and the encoded value. *)
Definition encode_pair (kc : string * outcome string) : outcome string :=
  match kc.2 with
  | Return c => Return (encode_basestring_ascii kc.1 +:+ ": " +:+ c)
  | Raise e => Raise e
  end.

(** [json.dumps(obj, sort_keys=sort_keys)].  The values of a [dict] are
    encoded before the pairs are put in key order: the order reads the
    keys only, so this is the encoder's "sort, then encode each pair". *)
Fixpoint dumps (sort_keys : bool) (obj : pyobj) : outcome string :=
  match obj with
  | PyNone => Return "null"
  | PyBool true => Return "true"
  | PyBool false => Return "false"
  | PyInt n => Return (pretty n)
  | PyFloat literal => Return literal
  | PyStr s => Return (encode_basestring_ascii s)
  | PyList xs =>
      match collect (map (dumps sort_keys) xs) with
      | Return chunks => Return ("[" +:+ join ", " chunks +:+ "]")
      | Raise e => Raise e
      end
  | PyDict items =>
      let encoded := map (λ kv, (kv.1, dumps sort_keys kv.2)) items in
      let ordered := if sort_keys then sort_items encoded else encoded in
      match collect (map encode_pair ordered) with
      | Return chunks => Return ("{" +:+ join ", " chunks +:+ "}")
      | Raise e => Raise e
      end
  | PyOpaque type_name => Raise (not_serializable type_name)
  end.

(** *** [json.loads] *)

Definition decode_error (msg : string) : exn := Exn "JSONDecodeError" msg.

Definition is_ws (a : ascii) : bool :=
  let n := N_of_ascii a in ((n =? 32) || (n =? 9) || (n =? 10) || (n =? 13))%N.

Definition is_digit (a : ascii) : bool :=
  let n := N_of_ascii a in ((48 <=? n) && (n <=? 57))%N.

Fixpoint skip_ws (s : string) : string :=
  match s with
  | String a rest => if is_ws a then skip_ws rest else s
  | EmptyString => s
  end.

(** [s.startswith(p)], returning what follows the prefix. *)
Fixpoint strip_prefix (p s : string) : option string :=
  match p, s with
  | EmptyString, _ => Some s
  | String a p', String b s' => if Ascii.eqb a b then strip_prefix p' s' else None
  | _, EmptyString => None
  end.

Definition hex_value (a : ascii) : option N :=
  let n := N_of_ascii a in
  if ((48 <=? n) && (n <=? 57))%N then Some (n - 48)%N
  else if ((97 <=? n) && (n <=? 102))%N then Some (n - 87)%N
  else if ((65 <=? n) && (n <=? 70))%N then Some (n - 55)%N
  else None.

(** The UTF-8 bytes of a code point of the basic plane. *)
Definition utf8 (n : N) : string :=
  if (n <? 128)%N then str1 (ascii_of_N n)
  else if (n <? 2048)%N
  then String (ascii_of_N (192 + n / 64)) (str1 (ascii_of_N (128 + n mod 64)))
  else String (ascii_of_N (224 + n / 4096))
         (String (ascii_of_N (128 + n / 64 mod 64)) (str1 (ascii_of_N (128 + n mod 64)))).

(** The body of a string literal, after the opening quote: the decoded
    text and what follows the closing quote.  Control characters are
    refused, as [strict=True] does. *)
Fixpoint scan_string (s : string) : option (string * string) :=
  match s with
  | EmptyString => None
  | String a rest =>
      let n := N_of_ascii a in
      if (n =? 34)%N then Some (EmptyString, rest)
      else if (n <? 32)%N then None
      else if (n =? 92)%N then
        match rest with
        | String e rest1 =>
            let simple (c : N) :=
              match scan_string rest1 with
              | Some (t, r) => Some (String (ascii_of_N c) t, r)
              | None => None
              end in
            let m := N_of_ascii e in
            if (m =? 34)%N then simple 34%N
            else if (m =? 92)%N then simple 92%N
            else if (m =? 47)%N then simple 47%N
            else if (m =? 98)%N then simple 8%N
            else if (m =? 102)%N then simple 12%N
            else if (m =? 110)%N then simple 10%N
            else if (m =? 114)%N then simple 13%N
            else if (m =? 116)%N then simple 9%N
            else if (m =? 117)%N then
              match rest1 with
              | String h1 (String h2 (String h3 (String h4 rest5))) =>
                  match hex_value h1, hex_value h2, hex_value h3, hex_value h4 with
                  | Some d1, Some d2, Some d3, Some d4 =>
                      match scan_string rest5 with
                      | Some (t, r) =>
                          Some (utf8 (((d1 * 16 + d2) * 16 + d3) * 16 + d4) +:+ t, r)
                      | None => None
                      end
                  | _, _, _, _ => None
                  end
              | _ => None
              end
            else None
        | EmptyString => None
        end
      else
        match scan_string rest with
        | Some (t, r) => Some (String a t, r)
        | None => None
        end
  end.

(** The longest run of digits at the head of [s]. *)
Fixpoint span_digits (s : string) : string * string :=
  match s with
  | String a rest =>
      if is_digit a then let '(d, r) := span_digits rest in (String a d, r)
      else (EmptyString, s)
  | EmptyString => (EmptyString, s)
  end.

Fixpoint digits_value (acc : Z) (d : string) : Z :=
  match d with
  | String a rest => digits_value (10 * acc + Z.of_N (N_of_ascii a) - 48)%Z rest
  | EmptyString => acc
  end.

(** [NUMBER_RE]: an optional minus sign, then 0 or a run of digits that
    does not start with 0, then an optional fraction (a dot and digits) and
    an optional exponent (e or E, an optional sign, digits).  An integer
    literal becomes an [int], any other a [float]. *)
Definition scan_number (s : string) : option (pyobj * string) :=
  let '(sign, s1) :=
    match s with
    | String "-" r => ("-", r)
    | _ => (EmptyString, s)
    end in
  let '(int_part, s2) :=
    match s1 with
    | String "0" r => ("0", r)
    | _ => span_digits s1
    end in
  match int_part with
  | EmptyString => None
  | _ =>
      let '(frac, s3) :=
        match s2 with
        | String "." r =>
            match span_digits r with
            | (EmptyString, _) => (EmptyString, s2)
            | (d, r') => (String "." d, r')
            end
        | _ => (EmptyString, s2)
        end in
      let '(exp, s4) :=
        match s3 with
        | String e r =>
            if (Ascii.eqb e "e" || Ascii.eqb e "E")%bool then
              let '(esign, r1) :=
                match r with
                | String "-" r' => ("-", r')
                | String "+" r' => ("+", r')
                | _ => (EmptyString, r)
                end in
              match span_digits r1 with
              | (EmptyString, _) => (EmptyString, s3)
              | (d, r') => (String e (esign +:+ d), r')
              end
            else (EmptyString, s3)
        | EmptyString => (EmptyString, s3)
        end in
      match frac, exp with
      | EmptyString, EmptyString =>
          let v := digits_value 0 int_part in
          Some (PyInt (match sign with EmptyString => v | _ => (- v)%Z end), s4)
      | _, _ => Some (PyFloat (sign +:+ int_part +:+ frac +:+ exp), s4)
      end
  end.

(** [d[k] = v]: a key that is already present keeps its place. *)
Fixpoint dict_set (items : list (string * pyobj)) (k : string) (v : pyobj)
  : list (string * pyobj) :=
  match items with
  | [] => [(k, v)]
  | (k', v') :: rest =>
      if String.eqb k' k then (k, v) :: rest else (k', v') :: dict_set rest k v
  end.

(** [d.get(k, default)] *)
Fixpoint dict_get (items : list (string * pyobj)) (k : string) (default : pyobj) : pyobj :=
  match items with
  | [] => default
  | (k', v) :: rest => if String.eqb k' k then v else dict_get rest k default
  end.

(** The scanner.  [fuel] bounds the nesting and the number of members; a
    text of [n] characters needs less than [2 * n + 2].  [scan_elements]
    and [scan_members] start after the opening bracket and the white space
    that follows an opening bracket or a comma. *)
Fixpoint scan_value (fuel : nat) (s : string) : option (pyobj * string) :=
  match fuel with
  | O => None
  | S fuel =>
      match s with
      | String "{" rest =>
          match skip_ws rest with
          | String "}" r => Some (PyDict [], r)
          | s' => scan_members fuel [] s'
          end
      | String "[" rest =>
          match skip_ws rest with
          | String "]" r => Some (PyList [], r)
          | s' => scan_elements fuel [] s'
          end
      | _ =>
          match strip_prefix (str1 dquote) s,
                strip_prefix "null" s, strip_prefix "true" s, strip_prefix "false" s with
          | Some r, _, _, _ =>
              match scan_string r with
              | Some (t, r') => Some (PyStr t, r')
              | None => None
              end
          | _, Some r, _, _ => Some (PyNone, r)
          | _, _, Some r, _ => Some (PyBool true, r)
          | _, _, _, Some r => Some (PyBool false, r)
          | _, _, _, _ =>
              match strip_prefix "NaN" s, strip_prefix "Infinity" s,
                    strip_prefix "-Infinity" s with
              | Some r, _, _ => Some (PyFloat "NaN", r)
              | _, Some r, _ => Some (PyFloat "Infinity", r)
              | _, _, Some r => Some (PyFloat "-Infinity", r)
              | _, _, _ => scan_number s
              end
          end
      end
  end
with scan_elements (fuel : nat) (acc : list pyobj) (s : string) : option (pyobj * string) :=
  match fuel with
  | O => None
  | S fuel =>
      match scan_value fuel s with
      | Some (v, r) =>
          match skip_ws r with
          | String "," r' => scan_elements fuel (acc ++ [v]) (skip_ws r')
          | String "]" r' => Some (PyList (acc ++ [v]), r')
          | _ => None
          end
      | None => None
      end
  end
with scan_members (fuel : nat) (acc : list (string * pyobj)) (s : string)
  : option (pyobj * string) :=
  match fuel with
  | O => None
  | S fuel =>
      match strip_prefix (str1 dquote) s with
      | Some rest =>
          match scan_string rest with
          | Some (k, r) =>
              match skip_ws r with
              | String ":" r1 =>
                  match scan_value fuel (skip_ws r1) with
                  | Some (v, r2) =>
                      match skip_ws r2 with
                      | String "," r3 => scan_members fuel (dict_set acc k v) (skip_ws r3)
                      | String "}" r3 => Some (PyDict (dict_set acc k v), r3)
                      | _ => None
                      end
                  | None => None
                  end
              | _ => None
              end
          | None => None
          end
      | None => None
      end
  end.

(** [json.loads]: one value, white space around it, nothing else.  This
    is the grammar of the decoder.  The library also gives up, with a
    [RecursionError] or a [ValueError], on a text nested deeper or an
    integer longer than the interpreter allows; what the dispatcher does
    with such an exception is stated for any exception of the decoder. *)
Definition loads (s : string) : outcome pyobj :=
  match scan_value (2 * String.length s + 2) (skip_ws s) with
  | Some (v, rest) =>
      match skip_ws rest with
      | EmptyString => Return v
      | _ => Raise (decode_error "Extra data")
      end
  | None => Raise (decode_error "Expecting value")
  end.

(** The invariant of Python dicts: at every level, no key occurs twice. *)
Fixpoint well_formed (obj : pyobj) : Prop :=
  match obj with
  | PyList xs => foldr (λ x P, well_formed x ∧ P) True xs
  | PyDict items =>
      NoDup items.*1 ∧ foldr (λ kv P, well_formed kv.2 ∧ P) True items
  | _ => True
  end.

(** Python's [==] on JSON-shaped objects of the same types: lists agree
    element by element, dicts hold the same key/value pairs in any
    order. *)
Inductive same_value : pyobj → pyobj → Prop :=
| same_refl v : same_value v v
| same_list xs ys :
    Forall2 same_value xs ys → same_value (PyList xs) (PyList ys)
| same_dict a b b' :
    Forall2 (λ x y, x.1 = y.1 ∧ same_value x.2 y.2) a b' →
    b' ≡ₚ b →
    same_value (PyDict a) (PyDict b).

(** The objects [json.dumps] can encode: no opaque object at any depth. *)
Fixpoint serializable (obj : pyobj) : Prop :=
  match obj with
  | PyList xs => foldr (λ x P, serializable x ∧ P) True xs
  | PyDict items => foldr (λ kv P, serializable kv.2 ∧ P) True items
  | PyOpaque _ => False
  | _ => True
  end.

End Json.

(** ** server.py *)

Module FinanceMCPServer.

(** [_generate_cache_key]: [f"{tool_name}:{json.dumps(params, sort_keys=True)}"] *)
Definition _generate_cache_key (tool_name : string) (params : pyobj) : outcome string :=
  match Json.dumps true params with
  | Return param_str => Return (tool_name +:+ ":" +:+ param_str)
  | Raise e => Raise e
  end.

(** The keys of [self.handlers]. *)
Definition tool_names : list string :=
  ["get_stock_info"; "get_stock_price"; "get_financial_report";
   "calc_technical_indicators"; "get_industry_analysis"; "analyze_financials"].

(** [type(obj).__name__] *)
Definition type_name (obj : pyobj) : string :=
  match obj with
  | PyNone => "NoneType"
  | PyBool _ => "bool"
  | PyInt _ => "int"
  | PyFloat _ => "float"
  | PyStr _ => "str"
  | PyList _ => "list"
  | PyDict _ => "dict"
  | PyOpaque t => t
  end.

(** The outcome of [tool_name not in self.handlers]: the tool is
    registered, or it is not and [shown] is how the f-string prints it. *)
Inductive registry_lookup : Type :=
| Registered (name : string)
| NotRegistered (shown : string).

(** Looking a name up hashes it: a list or a dict raises [TypeError]; any
    other value than a registered string is simply not a key. *)
Definition find_handler (tool_name : pyobj) : outcome registry_lookup :=
  match tool_name with
  | PyStr s =>
      Return (if bool_decide (s ∈ tool_names) then Registered s else NotRegistered s)
  | PyNone => Return (NotRegistered "None")
  | PyBool b => Return (NotRegistered (if b then "True" else "False"))
  | PyInt n => Return (NotRegistered (pretty n))
  | PyFloat literal => Return (NotRegistered literal)
  | PyList _ | PyDict _ =>
      Raise (Exn "TypeError" ("unhashable type: '" +:+ type_name tool_name +:+ "'"))
  | PyOpaque t => Return (NotRegistered ("<" +:+ t +:+ " object>"))
  end.

(** [{"id": request_id, "error": {"message": message, "code": code}}] *)
Definition error_response (request_id : pyobj) (message code : string) : pyobj :=
  PyDict [("id", request_id);
          ("error", PyDict [("message", PyStr message); ("code", PyStr code)])].

(** [{"error": {"message": message, "code": code}}]: the two handlers of
    the outer [try] build their response without an ["id"]. *)
Definition anonymous_error (message code : string) : pyobj :=
  PyDict [("error", PyDict [("message", PyStr message); ("code", PyStr code)])].

(** [{"id": request_id, "result": result}] *)
Definition success_response (request_id result : pyobj) : pyobj :=
  PyDict [("id", request_id); ("result", result)].

Section Dispatch.

(** The state the handlers work on (the cache and the data provider) and
    [await handler(params)] for the handler registered under a name: it
    returns a result or raises an [Exception], and leaves a state. *)
Context {St : Type}.
Variable call_handler : string → pyobj → St → outcome pyobj * St.

(** The body of the outer [try], from [request.get("id")] on. *)
Definition dispatch (request : pyobj) (st : St) : outcome string * St :=
  match request with
  | PyDict items =>
      let request_id := Json.dict_get items "id" PyNone in
      let tool_name := Json.dict_get items "name" PyNone in
      let params := Json.dict_get items "parameters" (PyDict []) in
      match find_handler tool_name with
      | Raise e => (Raise e, st)
      | Return (NotRegistered shown) =>
          (Json.dumps false
             (error_response request_id ("Unknown tool: " +:+ shown) "UNKNOWN_TOOL"), st)
      | Return (Registered name) =>
          let '(result, st') := call_handler name params st in
          let attempt :=
            match result with
            | Return r => Json.dumps false (success_response request_id r)
            | Raise e => Raise e
            end in
          match attempt with
          | Return out => (Return out, st')
          | Raise e =>
              (Json.dumps false
                 (error_response request_id
                    ("Error processing request: " +:+ exn_msg e) "PROCESSING_ERROR"), st')
          end
      end
  | _ =>
      (Raise (Exn "AttributeError"
                ("'" +:+ type_name request +:+ "' object has no attribute 'get'")), st)
  end.

(** The two handlers of the outer [try]: [except json.JSONDecodeError]
    and [except Exception]. *)
Definition outer_except (r : outcome string) : outcome string :=
  match r with
  | Return out => Return out
  | Raise e =>
      if String.eqb (exn_class e) "JSONDecodeError"
      then Json.dumps false (anonymous_error "Invalid JSON" "INVALID_JSON")
      else Json.dumps false
             (anonymous_error ("Unexpected error: " +:+ exn_msg e) "INTERNAL_ERROR")
  end.

(** [handle_request] *)
Definition handle_request (request_str : string) (st : St) : outcome string * St :=
  let '(r, st') :=
    match Json.loads request_str with
    | Return request => dispatch request st
    | Raise e => (Raise e, st)
    end in
  (outer_except r, st').

End Dispatch.

(** What a response can be for a request text: a success or a failure
    that carries the [id] of the decoded request, or a failure built
    without any [id]. *)
Inductive response_for (request_str : string) : pyobj → Prop :=
| resp_success items result :
    Json.loads request_str = Return (PyDict items) →
    response_for request_str (success_response (Json.dict_get items "id" PyNone) result)
| resp_error_with_id items message code :
    Json.loads request_str = Return (PyDict items) →
    code ∈ ["UNKNOWN_TOOL"; "PROCESSING_ERROR"] →
    response_for request_str (error_response (Json.dict_get items "id" PyNone) message code)
| resp_error_without_id message code :
    code ∈ ["INVALID_JSON"; "INTERNAL_ERROR"] →
    response_for request_str (anonymous_error message code).

(** Writes a JSON text with ['] in place of the double quote. *)
Fixpoint json_text (s : string) : string :=
  match s with
  | String a r => String (if Ascii.eqb a "'" then Json.dquote else a) (json_text r)
  | EmptyString => EmptyString
  end.

(** A stand-in handler for examples: every tool answers its parameters. *)
Definition echo_handler (name : string) (params : pyobj) (st : unit)
  : outcome pyobj * unit := (Return params, st).

(** *** The data handlers *)

(** [_get_ttl_for_tool]: [ttl_map.get(tool_name, 3600)] *)
Definition _get_ttl_for_tool (tool_name : string) : Z :=
  if String.eqb tool_name "get_stock_info" then 86400
  else if String.eqb tool_name "get_stock_price" then 3600
  else if String.eqb tool_name "get_financial_report" then 86400 * 7
  else if String.eqb tool_name "calc_technical_indicators" then 3600
  else if String.eqb tool_name "get_industry_analysis" then 86400
  else 3600.

(** Whether a float literal denotes zero: no digit of its mantissa is
    non-zero ([NaN] and the infinities have no digits but are not zero). *)
Fixpoint mantissa_is_zero (literal : string) : bool :=
  match literal with
  | EmptyString => true
  | String a rest =>
      let n := N_of_ascii a in
      if ((n =? 101) || (n =? 69))%N then true
      else if ((49 <=? n) && (n <=? 57))%N then false
      else if ((n =? 78) || (n =? 73))%N then false
      else mantissa_is_zero rest
  end.

(** [bool(obj)], as [if cached_data:] tests it. *)
Definition truthy (obj : pyobj) : bool :=
  match obj with
  | PyNone => false
  | PyBool b => b
  | PyInt n => negb (n =? 0)%Z
  | PyFloat literal => negb (mantissa_is_zero literal)
  | PyStr s => negb (String.eqb s EmptyString)
  | PyList xs => match xs with [] => false | _ => true end
  | PyDict items => match items with [] => false | _ => true end
  | PyOpaque _ => true
  end.

(** A call of the data provider: the method and its arguments. *)
Inductive adapter_call : Type :=
| GetStockInfo (symbol market : pyobj)
| GetStockPrice (symbol period start_date end_date : pyobj)
| GetFinancialReport (symbol report_type periods : pyobj)
| GetIndustryAnalysis (industry metric : pyobj).

(** The server between two steps: its cache, the number of cache operations
    so far (the clock shows [time_at n] during operation [n]), and the calls
    made to the data provider. *)
Record server : Type :=
  { cache : DataCache.t; ticks : nat; calls : list adapter_call }.

Section Handlers.

(** The world around the server: the time [time.time()] shows during the
    [n]-th cache operation, and what the provider answers to a call that
    comes after [n] earlier ones (its methods catch their own exceptions
    and always return an object). *)
Variable time_at : nat → Qc.
Variable adapter : adapter_call → nat → pyobj.

(** [self.cache.get(cache_key)] *)
Definition cache_get (st : server) (cache_key : string) : pyobj * server :=
  let '(found, c) := DataCache.get (cache st) cache_key (time_at (ticks st)) in
  (found, {| cache := c; ticks := S (ticks st); calls := calls st |}).

(** [self.cache.set(cache_key, result, ttl=ttl)] *)
Definition cache_set (st : server) (cache_key : string) (result : pyobj) (ttl : Z) : server :=
  {| cache := DataCache.set (cache st) cache_key result (Some ttl) (time_at (ticks st));
     ticks := S (ticks st);
     calls := calls st |}.

(** [self.adapter.method(args)] *)
Definition call_adapter (st : server) (call : adapter_call) : pyobj * server :=
  (adapter call (length (calls st)),
   {| cache := cache st; ticks := ticks st; calls := calls st ++ [call] |}).

(** [params.get] needs a dict: on anything else the first line of a handler
    raises. *)
Definition params_items (params : pyobj) : outcome (list (string * pyobj)) :=
  match params with
  | PyDict items => Return items
  | _ => Raise (Exn "AttributeError"
                  ("'" +:+ type_name params +:+ "' object has no attribute 'get'"))
  end.

(** The body that the four data handlers share: read the arguments, look
    the key up, return a truthy cached object, else call the provider,
    store its answer with the TTL of the tool and return it. *)
Definition fetch_through_cache (tool_name : string)
    (arguments : list (string * pyobj) → adapter_call)
    (params : pyobj) (st : server) : outcome pyobj * server :=
  match params_items params with
  | Raise e => (Raise e, st)
  | Return items =>
      let call := arguments items in
      match _generate_cache_key tool_name params with
      | Raise e => (Raise e, st)
      | Return cache_key =>
          let '(cached_data, st) := cache_get st cache_key in
          if truthy cached_data then (Return cached_data, st)
          else
            let '(result, st) := call_adapter st call in
            let st := cache_set st cache_key result (_get_ttl_for_tool tool_name) in
            (Return result, st)
      end
  end.

Definition stock_info_arguments (items : list (string * pyobj)) : adapter_call :=
  GetStockInfo (Json.dict_get items "symbol" PyNone) (Json.dict_get items "market" PyNone).

Definition stock_price_arguments (items : list (string * pyobj)) : adapter_call :=
  GetStockPrice (Json.dict_get items "symbol" PyNone)
                (Json.dict_get items "period" (PyStr "daily"))
                (Json.dict_get items "start_date" PyNone)
                (Json.dict_get items "end_date" PyNone).

Definition financial_report_arguments (items : list (string * pyobj)) : adapter_call :=
  GetFinancialReport (Json.dict_get items "symbol" PyNone)
                     (Json.dict_get items "report_type" PyNone)
                     (Json.dict_get items "periods" (PyInt 4)).

Definition industry_analysis_arguments (items : list (string * pyobj)) : adapter_call :=
  GetIndustryAnalysis (Json.dict_get items "industry" PyNone)
                      (Json.dict_get items "metric" PyNone).

Definition _handle_get_stock_info :=
  fetch_through_cache "get_stock_info" stock_info_arguments.

Definition _handle_get_stock_price :=
  fetch_through_cache "get_stock_price" stock_price_arguments.

Definition _handle_get_financial_report :=
  fetch_through_cache "get_financial_report" financial_report_arguments.

Definition _handle_get_industry_analysis :=
  fetch_through_cache "get_industry_analysis" industry_analysis_arguments.

(** The four data handlers, each with the name it is registered under and
    the provider call it makes. *)
Definition data_handlers
  : list (string * (list (string * pyobj) → adapter_call)
          * (pyobj → server → outcome pyobj * server)) :=
  [("get_stock_info", stock_info_arguments, _handle_get_stock_info);
   ("get_stock_price", stock_price_arguments, _handle_get_stock_price);
   ("get_financial_report", financial_report_arguments, _handle_get_financial_report);
   ("get_industry_analysis", industry_analysis_arguments, _handle_get_industry_analysis)].

(** [self.handlers[tool_name]] with the data handlers in place; the two
    computing handlers are taken as given. *)
Definition registered_handler
    (computing : string → pyobj → server → outcome pyobj * server)
    (tool_name : string) : pyobj → server → outcome pyobj * server :=
  if String.eqb tool_name "get_stock_info" then _handle_get_stock_info
  else if String.eqb tool_name "get_stock_price" then _handle_get_stock_price
  else if String.eqb tool_name "get_financial_report" then _handle_get_financial_report
  else if String.eqb tool_name "get_industry_analysis" then _handle_get_industry_analysis
  else computing tool_name.

End Handlers.

(** A world for examples: one second passes between two cache operations,
    the provider answers every call with the same object. *)
Definition seconds (n : nat) : Qc := Qc_of_Z (Z.of_nat n).
Definition answering (answer : pyobj) (call : adapter_call) (n : nat) : pyobj := answer.
Definition fresh_server : server :=
  {| cache := DataCache.init 3600; ticks := 0; calls := [] |}.

(** A stand-in for the two computing handlers. *)
Definition no_computing (name : string) (params : pyobj) (st : server)
  : outcome pyobj * server := (Return PyNone, st).

End FinanceMCPServer.

(** ** engines/fundamental_engine.py *)

Module FundamentalAnalysisEngine.
Import Float.

(** One reporting period of a statement: line item to number. *)
Abbreviation period := (gmap string fl).

(** The result dict of one category: the named ratios, or
    [{"error": message}]. *)
Inductive ratios : Type :=
| Ratios (m : gmap string fl)
| Failed (error : string).

(** [data.get(label, 0)] *)
Definition get (data : period) (label : string) : fl :=
  default (of_Z 0) (data !! label).

(** [(a / d) if d else 0] *)
Definition ratio (a d : fl) : outcome fl :=
  if truthy d then py_div a d else Return (of_Z 0).

Definition percent (x : fl) : fl := round2 (mul x (of_Z 100)).

(** The [try ... except Exception as e] around every category. *)
Definition guarded (what : string) (body : outcome (gmap string fl)) : ratios :=
  match body with
  | Return m => Ratios m
  | Raise e => Failed ("Failed to calculate " +:+ what +:+ " ratios: " +:+ exn_msg e)
  end.

Definition total_revenue (income_data : period) : fl :=
  or_else (get income_data "营业总收入") (get income_data "营业收入").

Definition calculate_profitability_ratios (income_data : period) : ratios :=
  guarded "profitability" (
    let total_revenue := total_revenue income_data in
    let net_income := get income_data "净利润" in
    let gross_profit :=
      or_else (get income_data "毛利润") (sub total_revenue (get income_data "营业成本")) in
    let operating_income := get income_data "营业利润" in
    gross_margin ← ratio gross_profit total_revenue;
    operating_margin ← ratio operating_income total_revenue;
    net_margin ← ratio net_income total_revenue;
    mret (<["gross_margin" := percent gross_margin]>
           (<["operating_margin" := percent operating_margin]>
              (<["net_margin" := percent net_margin]> ∅)))).

Definition calculate_liquidity_ratios (balance_data : period) : ratios :=
  guarded "liquidity" (
    let current_assets := get balance_data "流动资产合计" in
    let current_liabilities := get balance_data "流动负债合计" in
    let cash := get balance_data "货币资金" in
    let short_term_investments := or_else (get balance_data "交易性金融资产") (of_Z 0) in
    let accounts_receivable := or_else (get balance_data "应收账款") (of_Z 0) in
    current_ratio ← ratio current_assets current_liabilities;
    quick_ratio ←
      ratio (add (add cash short_term_investments) accounts_receivable) current_liabilities;
    cash_ratio ← ratio (add cash short_term_investments) current_liabilities;
    mret (<["current_ratio" := round2 current_ratio]>
           (<["quick_ratio" := round2 quick_ratio]>
              (<["cash_ratio" := round2 cash_ratio]> ∅)))).

(** [income_data.get("利息支出", 0) or income_data.get("财务费用", 0) / 2] *)
Definition interest_expense (income_data : period) : fl :=
  or_else (get income_data "利息支出") (div (get income_data "财务费用") (of_Z 2)).

Definition calculate_solvency_ratios (balance_data income_data : period) : ratios :=
  guarded "solvency" (
    let total_assets := get balance_data "资产总计" in
    let total_liabilities := get balance_data "负债合计" in
    let shareholders_equity := get balance_data "所有者权益合计" in
    let ebit := add (get income_data "利润总额") (get income_data "财务费用") in
    let interest_expense := interest_expense income_data in
    debt_ratio ← ratio total_liabilities total_assets;
    debt_to_equity ← ratio total_liabilities shareholders_equity;
    interest_coverage ← ratio ebit interest_expense;
    mret (<["debt_ratio" := round2 debt_ratio]>
           (<["debt_to_equity" := round2 debt_to_equity]>
              (<["interest_coverage" := round2 interest_coverage]> ∅)))).

(** The average of the total assets of the two periods, or the current
    total when there is no (or an empty) previous period. *)
Definition avg_total_assets (balance_data : period) (prev_balance_data : option period) : fl :=
  let total_assets := get balance_data "资产总计" in
  match prev_balance_data with
  | Some prev =>
      if bool_decide (prev = ∅) then total_assets
      else div (add total_assets (default total_assets (prev !! "资产总计"))) (of_Z 2)
  | None => total_assets
  end.

Definition calculate_efficiency_ratios
    (balance_data income_data : period) (prev_balance_data : option period) : ratios :=
  guarded "efficiency" (
    let total_revenue := total_revenue income_data in
    let net_income := get income_data "净利润" in
    let avg_total_assets := avg_total_assets balance_data prev_balance_data in
    let inventory := get balance_data "存货" in
    let cogs := get income_data "营业成本" in
    inventory_turnover ← ratio cogs inventory;
    asset_turnover ← ratio total_revenue avg_total_assets;
    roa ← ratio net_income avg_total_assets;
    mret (<["inventory_turnover" := round2 inventory_turnover]>
           (<["asset_turnover" := round2 asset_turnover]>
              (<["return_on_assets" := percent roa]> ∅)))).

Definition calculate_market_ratios
    (income_data balance_data : period) (stock_price shares_outstanding : fl) : ratios :=
  guarded "market" (
    let net_income := get income_data "净利润" in
    let shareholders_equity :=
      or_else (get balance_data "所有者权益") (get balance_data "所有者权益合计") in
    eps ← ratio net_income shares_outstanding;
    pe_ratio ← ratio stock_price eps;
    book_value_per_share ← ratio shareholders_equity shares_outstanding;
    pb_ratio ← ratio stock_price book_value_per_share;
    let market_cap := mul stock_price shares_outstanding in
    mret (<["eps" := round2 eps]>
           (<["pe_ratio" := round2 pe_ratio]>
              (<["book_value_per_share" := round2 book_value_per_share]>
                 (<["pb_ratio" := round2 pb_ratio]>
                    (<["market_cap" := market_cap]> ∅)))))).

(** A line item that is zero, or not reported at all. *)
Definition zero_or_absent (data : period) (label : string) : Prop :=
  data !! label = None ∨ data !! label = Some (of_Z 0).

(** What [analyze_financial_statements] returns: [{"error": message}], or
    the categories by name, in the order they are entered. *)
Inductive analysis : Type :=
| AnalysisError (error : string)
| Analysis (categories : list (string * ratios)).

(** [bool(d)] of a result dict: it has a key. *)
Definition nonempty (r : ratios) : bool :=
  match r with
  | Ratios m => negb (bool_decide (m = ∅))
  | Failed _ => true
  end.

(** [analyze_financial_statements]; the cash-flow statement is accepted and
    not read. *)
Definition analyze_financial_statements
    (balance_sheet income_statement : list period)
    (stock_price shares_outstanding : option fl) : analysis :=
  match balance_sheet, income_statement with
  | [], _ | _, [] => AnalysisError "Missing required financial statements"
  | current_balance :: earlier, current_income :: _ =>
      let prev_balance := head earlier in
      let profitability := calculate_profitability_ratios current_income in
      let liquidity := calculate_liquidity_ratios current_balance in
      let solvency := calculate_solvency_ratios current_balance current_income in
      let efficiency :=
        calculate_efficiency_ratios current_balance current_income prev_balance in
      let market :=
        match stock_price, shares_outstanding with
        | Some price, Some shares =>
            calculate_market_ratios current_income current_balance price shares
        | _, _ => Ratios ∅
        end in
      Analysis ([("profitability_ratios", profitability);
                 ("liquidity_ratios", liquidity);
                 ("solvency_ratios", solvency);
                 ("efficiency_ratios", efficiency)]
                ++ (if nonempty market then [("market_ratios", market)] else []))%list
  end.

(** A balance sheet and an income statement for examples. *)
Definition example_balance : period :=
  <["流动资产合计" := of_Z 300]> (<["流动负债合计" := of_Z 200]>
    (<["资产总计" := of_Z 1000]> (<["负债合计" := of_Z 400]> ∅))).

Definition example_income : period :=
  <["营业收入" := of_Z 800]> (<["营业成本" := of_Z 500]> (<["净利润" := of_Z 90]> ∅)).

End FundamentalAnalysisEngine.

(** ** pandas, as far as the technical engine uses it *)

Module Pandas.
Import Float.
Local Open Scope Qc_scope.

(** A numeric [Series]: one [float64] per row. *)
Abbreviation series := (list fl).

(** A [DataFrame] of numeric columns, in column order; the labels are
    distinct and the columns have one length. *)
Abbreviation DataFrame := (list (string * list fl)).

(** [df.columns] *)
Definition column_names (df : DataFrame) : list string := df.*1.

(** [df[name]]: a missing label raises [KeyError(name)], whose [str] is the
    quoted label. *)
Fixpoint col (df : DataFrame) (name : string) : outcome series :=
  match df with
  | [] => Raise (Exn "KeyError" ("'" +:+ name +:+ "'"))
  | (c, xs) :: rest => if String.eqb c name then Return xs else col rest name
  end.

(** [df.rename(columns=mapping)] *)
Definition rename (df : DataFrame) (mapping : gmap string string) : DataFrame :=
  (λ cx, (default cx.1 (mapping !! cx.1), cx.2)) <$> df.

(** Window operations first turn infinities into [nan]. *)
Definition prep (xs : series) : series :=
  (λ x, if is_finite x then x else NaN) <$> xs.

(** The numbers of a window, if none of them is missing. *)
Definition finite_values (xs : series) : option (list Qc) :=
  mapM (λ x, match x with Fin q => Some q | _ => None end) xs.

(** The [w] rows that end at row [i]. *)
Definition window (w i : nat) (xs : series) : series :=
  take w (drop (i + 1 - w) xs).

(** [xs.rolling(window=w).agg()]: [min_periods] is the window size, so a
    row has a value once [w] rows are available and none is missing. *)
Definition rolling (w : nat) (agg : list Qc → fl) (xs : series) : series :=
  let ys := prep xs in
  imap (λ i _,
          if (i + 1 <? w)%nat then NaN
          else match finite_values (window w i ys) with
               | Some qs => agg qs
               | None => NaN
               end) ys.

Definition total (qs : list Qc) : Qc := foldr Qcplus (Qc_of_Z 0) qs.
Definition count (qs : list Qc) : Qc := Qc_of_Z (Z.of_nat (length qs)).

Definition mean (qs : list Qc) : fl := div (Fin (total qs)) (Fin (count qs)).

(** The sample standard deviation ([ddof=1]). *)
Definition std (qs : list Qc) : fl :=
  let m := total qs / count qs in
  let squares := total ((λ q, (q - m) * (q - m)) <$> qs) in
  sqrt (div (Fin squares) (Fin (count qs - Qc_of_Z 1))).

Definition least (qs : list Qc) : fl :=
  match qs with
  | [] => NaN
  | q :: rest => Fin (foldl (λ a b, if bool_decide (b < a) then b else a) q rest)
  end.

Definition greatest (qs : list Qc) : fl :=
  match qs with
  | [] => NaN
  | q :: rest => Fin (foldl (λ a b, if bool_decide (a < b) then b else a) q rest)
  end.

(** One step of the recursion of [ewm(adjust=False).mean()]: the running
    average, and the weight it has gathered since the last observation. *)
Definition ewm_step (alpha : Qc) (state : fl * Qc) (cur : fl) : fl * Qc :=
  let '(weighted, old_wt) := state in
  if is_nan weighted then (cur, old_wt)
  else
    let old_wt := old_wt * (Qc_of_Z 1 - alpha) in
    if is_nan cur then (weighted, old_wt)
    else (div (add (mul (Fin old_wt) weighted) (mul (Fin alpha) cur))
              (Fin (old_wt + alpha)), Qc_of_Z 1).

Fixpoint ewm_go (alpha : Qc) (state : fl * Qc) (vals : series) : series :=
  match vals with
  | [] => []
  | cur :: rest =>
      let state' := ewm_step alpha state cur in
      state'.1 :: ewm_go alpha state' rest
  end.

(** [xs.ewm(span=span, adjust=False).mean()], with [alpha = 2 / (span + 1)];
    the first row is the first value itself. *)
Definition ewm_mean (span : Z) (xs : series) : series :=
  let alpha := Qc_of_Z 2 / Qc_of_Z (span + 1) in
  match prep xs with
  | [] => []
  | x0 :: rest => x0 :: ewm_go alpha (x0, Qc_of_Z 1) rest
  end.

(** [xs.shift()] *)
Definition shift (xs : series) : series :=
  match xs with
  | [] => []
  | _ => NaN :: take (length xs - 1) xs
  end.

(** [xs.diff()] *)
Definition diff (xs : series) : series := zip_with sub xs (shift xs).

(** [xs.where(cond, other)] for a condition on the value itself. *)
Definition where_ (cond : fl → bool) (other : fl) (xs : series) : series :=
  (λ x, if cond x then x else other) <$> xs.

(** [xs.fillna(value)] *)
Definition fillna (value : fl) (xs : series) : series :=
  (λ x, if is_nan x then value else x) <$> xs.

(** [xs.cumsum()] *)
Fixpoint cumsum_from (acc : fl) (xs : series) : series :=
  match xs with
  | [] => []
  | x :: rest => let acc' := add acc x in acc' :: cumsum_from acc' rest
  end.
Definition cumsum (xs : series) : series := cumsum_from (of_Z 0) xs.

(** The row-wise [max(axis=1)] of a frame of three columns: missing values
    are skipped, a row of missing values is missing. *)
Definition max_skipna (values : list fl) : fl :=
  foldl (λ acc x, if is_nan x then acc
                  else if is_nan acc then x
                  else if ltb acc x then x else acc) NaN values.

Definition row_max3 (a b c : series) : series :=
  zip_with (λ x yz, max_skipna [x; yz.1; yz.2]) a (zip b c).

End Pandas.

(** ** engines/technical_engine.py *)

Module TechnicalAnalysisEngine.
Import Float Pandas.

(** An entry of [result["indicators"]]: a series, a dict of named series,
    or [{"error": message}]. *)
Inductive entry : Type :=
| Series (xs : list fl)
| Lines (named : list (string * list fl))
| Unavailable (error : string).

(** What [process_indicators] returns: [{"error": message}], or the dict
    with the ["indicators"] mapping.  (Its ["dates"] list, which no
    indicator reads, is left out.) *)
Inductive result : Type :=
| TopLevelError (error : string)
| Indicators (indicators : gmap string entry).

Definition required_cols : list (string * list string) :=
  [("open", ["open"; "Open"; "开盘"; "开盘价"]);
   ("high", ["high"; "High"; "高"; "最高价"]);
   ("low", ["low"; "Low"; "低"; "最低价"]);
   ("close", ["close"; "Close"; "收盘"; "收盘价"]);
   ("volume", ["volume"; "Volume"; "成交量"; "成交额"])].

(** The inner loop with its [break]: the first accepted label that is a
    column of the frame. *)
Fixpoint first_present (price_df : DataFrame) (possible_names : list string)
  : option string :=
  match possible_names with
  | [] => None
  | col_name :: rest =>
      if bool_decide (col_name ∈ column_names price_df) then Some col_name
      else first_present price_df rest
  end.

Definition column_mapping (price_df : DataFrame) : gmap string string :=
  foldl (λ mapping entry,
           match first_present price_df entry.2 with
           | Some col_name => <[col_name := entry.1]> mapping
           | None => mapping
           end) ∅ required_cols.

Definition upper_char (a : ascii) : ascii :=
  let n := N_of_ascii a in
  if ((97 <=? n) && (n <=? 122))%N then ascii_of_N (n - 32) else a.

(** The characters of two bytes whose upper case is made of ASCII letters:
    U+00DF (sharp s, SS), U+0131 (dotless i, I) and U+017F (long s, S). *)
Definition upper_of_2 (a b : ascii) : option string :=
  let '(m, n) := (N_of_ascii a, N_of_ascii b) in
  if ((m =? 195) && (n =? 159))%N then Some "SS"
  else if ((m =? 196) && (n =? 177))%N then Some "I"
  else if ((m =? 197) && (n =? 191))%N then Some "S"
  else None.

(** Those of three bytes: the ligatures U+FB00 to U+FB06. *)
Definition upper_of_3 (a b c : ascii) : option string :=
  let '(m, n, k) := (N_of_ascii a, N_of_ascii b, N_of_ascii c) in
  if ((m =? 239) && (n =? 172))%N then
    if (k =? 128)%N then Some "FF"
    else if (k =? 129)%N then Some "FI"
    else if (k =? 130)%N then Some "FL"
    else if (k =? 131)%N then Some "FFI"
    else if (k =? 132)%N then Some "FFL"
    else if (k =? 133)%N then Some "ST"
    else if (k =? 134)%N then Some "ST"
    else None
  else None.

(** [s.upper()], as far as a comparison with a word of ASCII letters can
    see it.  The ASCII letters go to their capitals, and so do the ten
    other characters whose upper case consists of ASCII letters; these are
    all there are in the Unicode tables of Python.  Every other character is
    left as it is here, where [str.upper] gives a text that is not ASCII
    either.  The engine only compares the result with the names of its
    branches. *)
Fixpoint upper (s : string) : string :=
  match s with
  | EmptyString => EmptyString
  | String a rest =>
      match rest with
      | String b rest2 =>
          match upper_of_2 a b with
          | Some word => word +:+ upper rest2
          | None =>
              match rest2 with
              | String c rest3 =>
                  match upper_of_3 a b c with
                  | Some word => word +:+ upper rest3
                  | None => String (upper_char a) (upper rest)
                  end
              | EmptyString => String (upper_char a) (upper rest)
              end
          end
      | EmptyString => String (upper_char a) EmptyString
      end
  end.

Definition periods : list Z := [5; 10; 20; 60]%Z.

Definition moving_averages (df : DataFrame) : outcome entry :=
  ma_dict ← foldl (λ acc period,
                     ma_dict ← acc;
                     close ← col df "close";
                     mret (ma_dict ++ [("MA" +:+ pretty period,
                                        rolling (Z.to_nat period) mean close)])%list)
                  (mret []) periods;
  mret (Lines ma_dict).

Definition exponential_moving_averages (df : DataFrame) : outcome entry :=
  ema_dict ← foldl (λ acc period,
                      ema_dict ← acc;
                      close ← col df "close";
                      mret (ema_dict ++ [("EMA" +:+ pretty period,
                                          ewm_mean period close)])%list)
                   (mret []) periods;
  mret (Lines ema_dict).

Definition macd (df : DataFrame) : outcome entry :=
  close ← col df "close";
  let ema12 := ewm_mean 12 close in
  close ← col df "close";
  let ema26 := ewm_mean 26 close in
  let macd_line := zip_with sub ema12 ema26 in
  let signal_line := ewm_mean 9 macd_line in
  let histogram := zip_with sub macd_line signal_line in
  mret (Lines [("macd_line", macd_line); ("signal_line", signal_line);
               ("histogram", histogram)]).

(** [100 - (100 / (1 + rs))] *)
Definition rsi_row (rs : fl) : fl :=
  sub (of_Z 100) (div (of_Z 100) (add (of_Z 1) rs)).

Definition rsi_of (close : series) : series :=
  let delta := diff close in
  let gain := where_ (λ d, gtb d (of_Z 0)) (of_Z 0) delta in
  let loss := neg <$> where_ (λ d, ltb d (of_Z 0)) (of_Z 0) delta in
  let avg_gain := rolling 14 mean gain in
  let avg_loss := rolling 14 mean loss in
  let rs := zip_with div avg_gain avg_loss in
  rsi_row <$> rs.

Definition rsi (df : DataFrame) : outcome entry :=
  close ← col df "close";
  mret (Series (rsi_of close)).

Definition bollinger (df : DataFrame) : outcome entry :=
  let period := 20%nat in
  let std_dev := of_Z 2 in
  close ← col df "close";
  let sma := rolling period mean close in
  close ← col df "close";
  let rolling_std := rolling period std close in
  let upper_band := zip_with add sma ((λ x, mul x std_dev) <$> rolling_std) in
  let lower_band := zip_with sub sma ((λ x, mul x std_dev) <$> rolling_std) in
  mret (Lines [("middle_band", sma); ("upper_band", upper_band);
               ("lower_band", lower_band)]).

Definition atr (df : DataFrame) : outcome entry :=
  let period := 14%nat in
  high ← col df "high";
  low ← col df "low";
  let tr1 := zip_with sub high low in
  high ← col df "high";
  close ← col df "close";
  let tr2 := abs <$> zip_with sub high (shift close) in
  low ← col df "low";
  close ← col df "close";
  let tr3 := abs <$> zip_with sub low (shift close) in
  let tr := row_max3 tr1 tr2 tr3 in
  mret (Series (rolling period mean tr)).

Definition stochastic (df : DataFrame) : outcome entry :=
  let k_period := 14%nat in
  let d_period := 3%nat in
  low ← col df "low";
  let low_min := rolling k_period least low in
  high ← col df "high";
  let high_max := rolling k_period greatest high in
  close ← col df "close";
  let k := mul (of_Z 100) <$>
             zip_with div (zip_with sub close low_min) (zip_with sub high_max low_min) in
  let d := rolling d_period mean k in
  mret (Lines [("k_line", k); ("d_line", d)]).

Definition obv (df : DataFrame) : outcome entry :=
  if bool_decide ("volume" ∈ column_names df) then
    close ← col df "close";
    volume ← col df "volume";
    mret (Series (cumsum (fillna (of_Z 0) (zip_with mul (sign <$> diff close) volume))))
  else mret (Unavailable "Volume data not available").

(** The [if]/[elif] chain: the name of the branch (which is the key it
    writes) and its body. *)
Definition branches : list (string * (DataFrame → outcome entry)) :=
  [("MA", moving_averages); ("EMA", exponential_moving_averages); ("MACD", macd);
   ("RSI", rsi); ("BOLLINGER", bollinger); ("ATR", atr);
   ("STOCHASTIC", stochastic); ("OBV", obv)].

Definition supported : list string := branches.*1.

(** The branch taken for [indicator.upper() == name], if any. *)
Fixpoint select (name : string) (table : list (string * (DataFrame → outcome entry)))
  : option (string * (DataFrame → outcome entry)) :=
  match table with
  | [] => None
  | branch :: rest => if String.eqb name branch.1 then Some branch else select name rest
  end.

(** One turn of the loop: the body of the [try], and the [except] that
    files the message under the indicator as it was written. *)
Definition process_indicator (df : DataFrame) (indicators : gmap string entry)
    (indicator : string) : gmap string entry :=
  match select (upper indicator) branches with
  | None => indicators
  | Some (key, body) =>
      match body df with
      | Return e => <[key := e]> indicators
      | Raise e => <[indicator := Unavailable (exn_msg e)]> indicators
      end
  end.

Definition process_indicators (price_df : DataFrame) (indicators : list string) : result :=
  let column_mapping := column_mapping price_df in
  if (size column_mapping <? 4)%nat
  then TopLevelError "Price data missing required columns (OHLC)"
  else
    let df := rename price_df column_mapping in
    Indicators (foldl (process_indicator df) ∅ indicators).

(** The labels accepted for a concept. *)
Fixpoint accepted_labels (std_name : string) (table : list (string * list string))
  : list string :=
  match table with
  | [] => []
  | entry :: rest =>
      if String.eqb entry.1 std_name then entry.2 else accepted_labels std_name rest
  end.

(** A price concept resolves when one of its accepted labels is a column. *)
Definition resolves (price_df : DataFrame) (std_name : string) : bool :=
  bool_decide (is_Some (first_present price_df (accepted_labels std_name required_cols))).

Definition resolved_among (price_df : DataFrame) (std_names : list string) : nat :=
  length (List.filter (resolves price_df) std_names).

(** What one turn of the loop files, and under which key: what the branch
    computes under the name of the branch, or the message of its exception
    under the indicator as written; nothing for a name without branch. *)
Definition entry_of (df : DataFrame) (indicator : string) : option (string * entry) :=
  match select (upper indicator) branches with
  | None => None
  | Some (key, body) =>
      match body df with
      | Return e => Some (key, e)
      | Raise e => Some (indicator, Unavailable (exn_msg e))
      end
  end.

(** The close-to-close changes of a column. *)
Definition deltas (closes : list Qc) : list Qc :=
  zip_with (λ x y, (x + - y)%Qc) (tail closes) closes.

(** The gains of a column of numbers: 0 on the first row, then the
    positive part of each change. *)
Definition gains (closes : list Qc) : list Qc :=
  Qc_of_Z 0 :: ((λ d, if bool_decide (Qc_of_Z 0 < d)%Qc then d else Qc_of_Z 0) <$> deltas closes).

(** A frame with open, high, low and volume but no close column. *)
Definition frame_without_close : DataFrame :=
  [("open", [of_Z 10; of_Z 11]); ("high", [of_Z 12; of_Z 13]);
   ("low", [of_Z 9; of_Z 10]); ("volume", [of_Z 500; of_Z 700])].

(** An entry whose series all have [n] rows. *)
Definition aligned (n : nat) (e : entry) : Prop :=
  match e with
  | Series xs => length xs = n
  | Lines named => Forall (λ line, length (snd line) = n) named
  | Unavailable _ => True
  end.

(** A frame of [n] rows. *)
Definition rows (n : nat) (df : DataFrame) : Prop :=
  Forall (λ column, length (snd column) = n) df.
(** Three trading days, under labels of a Chinese data source. *)
Definition example_frame : DataFrame :=
  [("开盘", of_Z <$> [10; 11; 12]%Z); ("最高价", of_Z <$> [12; 13; 13]%Z);
   ("最低价", of_Z <$> [9; 10; 11]%Z); ("收盘", of_Z <$> [11; 12; 11]%Z);
   ("成交量", of_Z <$> [500; 700; 600]%Z)].
(** The losses of a column of numbers: 0 on the first row, then the size
    of each fall. *)
Definition losses (closes : list Qc) : list Qc :=
  (- Qc_of_Z 0)%Qc
  :: ((λ d, if bool_decide (d < Qc_of_Z 0)%Qc then (- d)%Qc else (- Qc_of_Z 0)%Qc)
        <$> deltas closes).
(** [cumsum] on numbers. *)
Fixpoint running (acc : Qc) (xs : list Qc) : list Qc :=
  match xs with
  | [] => []
  | x :: rest => (acc + x)%Qc :: running (acc + x)%Qc rest
  end.

(** The volume of each row, signed by the direction of the close: what
    [np.sign(close.diff()) * volume] gives after [fillna(0)]. *)
Definition signed_volume (closes volumes : list Qc) : list Qc :=
  Qc_of_Z 0
  :: zip_with (λ d v, match (d ?= 0)%Qc with
                      | Gt => Qc_of_Z 1 * v
                      | Lt => Qc_of_Z (-1) * v
                      | Eq => Qc_of_Z 0 * v
                      end)%Qc
       (deltas closes) (tail volumes).
(** The textbook recursion of an exponential average with smoothing
    factor [alpha], started at [y]. *)
Fixpoint smoothed (alpha y : Qc) (xs : list Qc) : list Qc :=
  match xs with
  | [] => []
  | x :: rest =>
      let y' := (alpha * x + (1 - alpha) * y)%Qc in
      y' :: smoothed alpha y' rest
  end.

(** The factor that a span stands for. *)
Definition smoothing (span : Z) : Qc := (Qc_of_Z 2 / Qc_of_Z (span + 1))%Qc.

(** A number on the scale of the RSI, or a missing value. *)
Definition on_scale (x : fl) : Prop := x = NaN ∨ ∃ r, x = Fin r ∧ (0 ≤ r)%Qc ∧ (r ≤ Qc_of_Z 100)%Qc.

End TechnicalAnalysisEngine.

(** ** adapters/akshare_adapter.py *)

Module AKShareAdapter.

(** [s.replace(old, "")] for an [old] of two characters: every occurrence,
    found from the left and not overlapping, is dropped. *)
Fixpoint remove (a b : ascii) (s : string) : string :=
  match s with
  | EmptyString => EmptyString
  | String x tail =>
      match tail with
      | String y rest =>
          if (Ascii.eqb x a && Ascii.eqb y b)%bool then remove a b rest
          else String x (remove a b tail)
      | EmptyString => s
      end
  end.

(** [s.startswith(p)] *)
Fixpoint startswith (s p : string) {struct p} : bool :=
  match p with
  | EmptyString => true
  | String a p' =>
      match s with
      | EmptyString => false
      | String b s' => Ascii.eqb a b && startswith s' p'
      end
  end.

(** [len(s)]: the characters of the text, that is the bytes of its UTF-8
    form that do not continue a character. *)
Fixpoint len (s : string) : nat :=
  match s with
  | EmptyString => 0
  | String x rest =>
      let n := N_of_ascii x in
      if ((128 <=? n) && (n <? 192))%N then len rest else S (len rest)
  end.

(** [s[2:]] of a text that starts with two ASCII characters. *)
Definition from_2 (s : string) : string :=
  match s with
  | String _ (String _ rest) => rest
  | _ => EmptyString
  end.

Definition clean_symbol (symbol : string) : string :=
  remove "s" "z" (remove "s" "h" (remove "S" "Z" (remove "S" "H" symbol))).

Definition _standardize_symbol (symbol : string) (market : option string) : string :=
  let clean_symbol := clean_symbol symbol in
  match market with
  | None =>
      if startswith clean_symbol "0" || startswith clean_symbol "3"
      then "SZ" +:+ clean_symbol
      else if startswith clean_symbol "6" then "SH" +:+ clean_symbol
      else if startswith clean_symbol "00" || startswith clean_symbol "08"
      then clean_symbol
      else "SH" +:+ clean_symbol
  | Some market =>
      if String.eqb market "A" then
        if startswith clean_symbol "0" || startswith clean_symbol "3"
        then "SZ" +:+ clean_symbol
        else "SH" +:+ clean_symbol
      else if String.eqb market "HK" then clean_symbol
      else symbol
  end.

(** The service that a method asks, with the symbol it passes. *)
Inductive service : Type :=
| HongKong (symbol : string)
| AShare (symbol : string).

(** The choice of [get_stock_info] between [stock_hk_info_em] and
    [stock_individual_info_em]. *)
Definition stock_info_service (symbol : string) (market : option string) : service :=
  let std_symbol := _standardize_symbol symbol market in
  if match market with
     | Some market => String.eqb market "HK"
     | None => startswith symbol "00" || bool_decide (len symbol = 5)
     end
  then HongKong std_symbol
  else AShare std_symbol.

(** The choice of [get_stock_price] between [stock_hk_hist] and
    [stock_zh_a_hist]. *)
Definition stock_price_service (symbol : string) : service :=
  let std_symbol := _standardize_symbol symbol None in
  if startswith std_symbol "00" || bool_decide (len std_symbol = 5)
  then HongKong std_symbol
  else AShare std_symbol.

(** The symbol that [get_financial_report] passes on. *)
Definition fin_symbol (symbol : string) : string :=
  let std_symbol := _standardize_symbol symbol None in
  if startswith std_symbol "SH" then "SH" +:+ from_2 std_symbol
  else if startswith std_symbol "SZ" then "SZ" +:+ from_2 std_symbol
  else std_symbol.

(** A code of decimal digits. *)
Fixpoint digits (s : string) : bool :=
  match s with
  | EmptyString => true
  | String x rest =>
      let n := N_of_ascii x in ((48 <=? n) && (n <=? 57))%N && digits rest
  end.

(** The prefixes that [_standardize_symbol] drops. *)
Definition exchange_prefixes : list string := ["SH"; "SZ"; "sh"; "sz"].

End AKShareAdapter.

(* ================================================================== *)
(** * Properties *)
(* ================================================================== *)

(** ** The documented examples, run on the model *)

Module DocumentedExamples.
Import Float.

(** [set(k, v, ttl)] then an immediate [get(k)] returns [v]. *)
Example set_then_get :
  let c := DataCache.set (DataCache.init 3600) "k" (PyStr "v") (Some 60%Z) (Qc_of_Z 1000) in
  DataCache.get c "k" (Qc_of_Z 1000) = (PyStr "v", c).
Proof. reflexivity. Qed.

(** Balance sheet [{流动资产合计: 200, 流动负债合计: 100}]: current ratio 2.00. *)
Example current_ratio_two :
  match FundamentalAnalysisEngine.calculate_liquidity_ratios
          (<["流动资产合计" := of_Z 200]> (<["流动负债合计" := of_Z 100]> ∅)) with
  | FundamentalAnalysisEngine.Ratios m => m !! "current_ratio"
  | FundamentalAnalysisEngine.Failed _ => None
  end = Some (of_Z 2).
Proof. compute_done. Qed.

(** Income [{营业总收入: 1000, 净利润: 150}]: net margin 15.00. *)
Example net_margin_fifteen :
  match FundamentalAnalysisEngine.calculate_profitability_ratios
          (<["营业总收入" := of_Z 1000]> (<["净利润" := of_Z 150]> ∅)) with
  | FundamentalAnalysisEngine.Ratios m => m !! "net_margin"
  | FundamentalAnalysisEngine.Failed _ => None
  end = Some (of_Z 15).
Proof. compute_done. Qed.

(** MA5 on seven closes of 10: missing on the first four rows, then 10. *)
Example ma5_constant :
  Pandas.rolling 5 Pandas.mean (of_Z <$> [10; 10; 10; 10; 10; 10; 10]%Z) =
  [NaN; NaN; NaN; NaN; of_Z 10; of_Z 10; of_Z 10].
Proof. compute_done. Qed.

(** The cache key of the design document's example. *)
Example cache_key_text :
  FinanceMCPServer._generate_cache_key "get_stock_info"
    (PyDict [("symbol", PyStr "600519"); ("market", PyStr "A")]) =
  Return (FinanceMCPServer.json_text
            "get_stock_info:{'market': 'A', 'symbol': '600519'}").
Proof. reflexivity. Qed.

End DocumentedExamples.

(** ** Cache *)

Module CacheProps.
Import DataCache.
Local Open Scope Qc_scope.

Lemma truthy_true x : truthy x = true ↔ x ≠ 0.
Proof. unfold truthy. apply bool_decide_eq_true. Qed.

Lemma past_true now e : past now e = true ↔ e < now.
Proof. unfold past. apply bool_decide_eq_true. Qed.

Lemma past_false now e : past now e = false ↔ now ≤ e.
Proof.
  unfold past. rewrite bool_decide_eq_false. split.
  - apply Qcnot_lt_le.
  - apply Qcle_not_lt.
Qed.

Lemma elem_of_expired_keys c now k :
  k ∈ expired_keys c now ↔ ∃ e, _cache c !! k = Some e ∧ expiry e < now.
Proof.
  unfold expired_keys. rewrite list_elem_of_fmap. split.
  - intros [[k' e] [-> Hin]]. apply elem_of_map_to_list in Hin.
    apply map_lookup_filter_Some in Hin as [Hk Hp]. simpl in *.
    exists e. split; [done|]. by apply past_true.
  - intros (e & Hk & Hlt). exists (k, e). split; [done|].
    apply elem_of_map_to_list, map_lookup_filter_Some. split; [done|].
    simpl. by apply past_true.
Qed.

Lemma lookup_foldl_delete (ks : list string) (m : gmap string cache_entry) k :
  foldl (λ m k, base.delete k m) m ks !! k =
  if decide (k ∈ ks) then None else m !! k.
Proof.
  revert m. induction ks as [|a ks IH]; intros m; simpl.
  - by destruct (decide (k ∈ [])) as [H%not_elem_of_nil|].
  - rewrite IH.
    destruct (decide (k ∈ ks)) as [Hin|Hnin], (decide (k ∈ a :: ks)) as [Hin'|Hnin'];
      try done.
    + exfalso. apply Hnin'. by apply elem_of_cons; right.
    + apply elem_of_cons in Hin' as [->|?]; [|done]. apply lookup_delete_eq.
    + apply lookup_delete_ne. intros ->. apply Hnin'. by apply elem_of_cons; left.
Qed.

(** C3 (as stated, refuted): at the instant [now = expiry] the entry is
    still served by [get] and stays in the store; so does, at any time, an
    entry whose expiry is zero. *)
Lemma get_at_expiry_instant_still_served :
  let e := {| value := PyStr "v"; expiry := Qc_of_Z 100 |} in
  let c := {| _cache := {["k" := e]}; _default_ttl := 3600 |} in
  let e0 := {| value := PyStr "v"; expiry := Qc_of_Z 0 |} in
  let c0 := {| _cache := {["k" := e0]}; _default_ttl := 3600 |} in
  (_cache c !! "k" = Some e ∧ expiry e ≤ Qc_of_Z 100 ∧
   get c "k" (Qc_of_Z 100) = (PyStr "v", c)) ∧
  (_cache c0 !! "k" = Some e0 ∧ expiry e0 ≤ Qc_of_Z 5 ∧
   get c0 "k" (Qc_of_Z 5) = (PyStr "v", c0)).
Proof.
  intros e c e0 c0. split.
  - split; [apply lookup_singleton_eq|]. split; [apply Qcle_refl|].
    unfold get. subst c; simpl. by rewrite lookup_singleton_eq.
  - split; [apply lookup_singleton_eq|]. split; [discriminate|].
    unfold get. subst c0; simpl. by rewrite lookup_singleton_eq.
Qed.

(** C3 (amended): an entry whose non-zero expiry lies strictly before the
    current time is reported as [None] by [get] and deleted from the store;
    a later [cleanup] no longer finds it among the expired keys, and it
    stays absent. *)
Theorem get_lazy_expiry c key e now :
  _cache c !! key = Some e →
  expiry e ≠ 0 →
  expiry e < now →
  get c key now = (PyNone, with_cache c (base.delete key (_cache c))) ∧
  ∀ later, (key ∉ expired_keys (snd (get c key now)) later) ∧
           _cache (snd (cleanup (snd (get c key now)) later)) !! key = None.
Proof.
  intros Hk Hnz Hlt.
  assert (Hget : get c key now = (PyNone, with_cache c (base.delete key (_cache c)))).
  { unfold get. rewrite Hk. simpl.
    replace (truthy (expiry e)) with true by (symmetry; by apply truthy_true).
    replace (past now (expiry e)) with true by (symmetry; by apply past_true).
    done. }
  split; [done|]. intros later. rewrite Hget. simpl.
  assert (Hnot : key ∉ expired_keys (with_cache c (base.delete key (_cache c))) later).
  { rewrite elem_of_expired_keys. intros (e' & He' & _). simpl in He'.
    by rewrite lookup_delete_eq in He'. }
  split; [done|].
  rewrite lookup_foldl_delete. rewrite decide_False by done.
  apply lookup_delete_eq.
Qed.

Lemma get_lazy_expiry_witness :
  let e := {| value := PyStr "v"; expiry := Qc_of_Z 100 |} in
  let c := {| _cache := {["k" := e]}; _default_ttl := 3600 |} in
  get c "k" (Qc_of_Z 101) = (PyNone, with_cache c (base.delete "k" (_cache c))) ∧
  ∀ later, ("k" ∉ expired_keys (snd (get c "k" (Qc_of_Z 101))) later) ∧
           _cache (snd (cleanup (snd (get c "k" (Qc_of_Z 101))) later)) !! "k" = None.
Proof.
  intros e c. apply (get_lazy_expiry c "k" e (Qc_of_Z 101)).
  - apply lookup_singleton_eq.
  - discriminate.
  - reflexivity.
Defined.

(** C8 (as stated, refuted): [delete] answers [True] for an entry whose
    expiry has already passed. *)
Lemma delete_expired_returns_true :
  let e := {| value := PyStr "v"; expiry := Qc_of_Z 5 |} in
  let c := {| _cache := {["k" := e]}; _default_ttl := 3600 |} in
  (delete c "k").1 = true ∧ ¬ live c "k" (Qc_of_Z 10).
Proof.
  intros e c. split.
  - unfold delete. subst c; simpl. by rewrite lookup_singleton_eq.
  - intros (e' & He' & Hlt). subst c; simpl in He'.
    rewrite lookup_singleton_eq in He'. injection He' as <-. simpl in Hlt.
    revert Hlt. apply Qcle_not_lt.
    discriminate.
Qed.

(** C8 (amended): [delete] answers [True] exactly when an entry is stored
    under the key, expired or not; the entry is then gone and every other
    key is untouched. *)
Theorem delete_true_iff_stored c key :
  ((delete c key).1 = true ↔ is_Some (_cache c !! key)) ∧
  _cache (delete c key).2 !! key = None ∧
  ∀ k, k ≠ key → _cache (delete c key).2 !! k = _cache c !! k.
Proof.
  unfold delete. destruct (_cache c !! key) as [e|] eqn:Hk; simpl.
  - split; [split; [by eexists|done]|]. split.
    + apply lookup_delete_eq.
    + intros k Hne. by apply lookup_delete_ne.
  - split; [split; [done|by intros [? ?]]|]. by split.
Qed.

End CacheProps.

(** ** Cache keys *)

Module CacheKeyProps.
Import Json FinanceMCPServer.

(** Induction over [pyobj] that reaches the members of lists and dicts. *)
Lemma pyobj_nested_ind (P : pyobj → Prop) :
  P PyNone → (∀ b, P (PyBool b)) → (∀ n, P (PyInt n)) →
  (∀ r, P (PyFloat r)) → (∀ s, P (PyStr s)) →
  (∀ xs, Forall P xs → P (PyList xs)) →
  (∀ items, Forall (λ kv, P kv.2) items → P (PyDict items)) →
  (∀ t, P (PyOpaque t)) →
  ∀ v, P v.
Proof.
  intros HN HB HI HF HS HL HD HO.
  fix IH 1. intros [|b|n|r|s|xs|items|t].
  - exact HN.
  - exact (HB b).
  - exact (HI n).
  - exact (HF r).
  - exact (HS s).
  - apply HL. induction xs as [|x xs IHxs]; constructor; [apply IH|exact IHxs].
  - apply HD. induction items as [|[k x] items IHitems]; constructor;
      [apply IH|exact IHitems].
  - exact (HO t).
Qed.

Lemma well_formed_list xs : well_formed (PyList xs) ↔ Forall well_formed xs.
Proof.
  simpl. induction xs as [|x xs IH]; simpl.
  - split; [constructor|done].
  - rewrite Forall_cons. by rewrite IH.
Qed.

Lemma well_formed_dict items :
  well_formed (PyDict items) ↔
  NoDup items.*1 ∧ Forall (λ kv, well_formed kv.2) items.
Proof.
  simpl. apply and_iff_compat_l.
  induction items as [|x xs IH]; simpl.
  - split; [constructor|done].
  - rewrite Forall_cons. by rewrite IH.
Qed.

#[local] Instance key_le_trans {A} : Transitive (@key_le A).
Proof. intros x y z. unfold key_le. apply transitivity. Qed.

#[local] Instance key_le_total {A} : Total (@key_le A).
Proof. intros x y. unfold key_le. apply total, _. Qed.

(** With distinct keys, the pairs are determined by their key order. *)
Lemma perm_same_keys_eq {A} (l1 l2 : list (string * A)) :
  NoDup l1.*1 → l1 ≡ₚ l2 → l1.*1 = l2.*1 → l1 = l2.
Proof.
  revert l2. induction l1 as [|a l1 IH]; intros [|b l2] Hnd Hp Hk; try done.
  rewrite !fmap_cons in Hk. rewrite fmap_cons in Hnd.
  injection Hk as Hab Hk. apply NoDup_cons in Hnd as [Hna Hnd].
  assert (Ha : a ∈ b :: l2) by (rewrite <- Hp; apply elem_of_cons; by left).
  apply elem_of_cons in Ha as [->|Ha].
  - f_equal. apply IH; [done| |done]. by apply Permutation_cons_inv in Hp.
  - exfalso. apply Hna. rewrite Hk. apply list_elem_of_fmap. by exists a.
Qed.

Lemma sort_items_perm {A} (l1 l2 : list (string * A)) :
  NoDup l1.*1 → l1 ≡ₚ l2 → sort_items l1 = sort_items l2.
Proof.
  intros Hnd Hp. unfold sort_items.
  assert (Hs : merge_sort key_le l1 ≡ₚ merge_sort key_le l2)
    by (by rewrite !merge_sort_Permutation).
  apply perm_same_keys_eq; [|done|].
  - by rewrite merge_sort_Permutation.
  - apply (StronglySorted_unique String.le).
    + apply (StronglySorted_fmap fst key_le); [done|]. apply StronglySorted_merge_sort; apply _.
    + apply (StronglySorted_fmap fst key_le); [done|]. apply StronglySorted_merge_sort; apply _.
    + by rewrite Hs.
Qed.

Lemma dumps_list sk xs :
  dumps sk (PyList xs) =
  match collect (map (dumps sk) xs) with
  | Return chunks => Return ("[" +:+ join ", " chunks +:+ "]")
  | Raise e => Raise e
  end.
Proof. reflexivity. Qed.

Lemma dumps_dict sk items :
  dumps sk (PyDict items) =
  let encoded := map (λ kv, (kv.1, dumps sk kv.2)) items in
  let ordered := if sk then sort_items encoded else encoded in
  match collect (map encode_pair ordered) with
  | Return chunks => Return ("{" +:+ join ", " chunks +:+ "}")
  | Raise e => Raise e
  end.
Proof. reflexivity. Qed.

(** Reordering the pairs of a dict gives the same value. *)
Lemma same_value_perm a b : a ≡ₚ b → same_value (PyDict a) (PyDict b).
Proof.
  intros Hp. apply (same_dict a b a); [|done].
  clear Hp. induction a; constructor; [split; [done|apply same_refl]|done].
Qed.

Lemma dumps_same_value v :
  ∀ w, same_value v w → well_formed v → well_formed w →
       dumps true v = dumps true w.
Proof.
  induction v as [|c|n|r|s|xs IH|items IH|t] using pyobj_nested_ind;
    intros w Hs Hv Hw; inversion Hs as [|xs' ys Hall|a b b' Hall Hp]; subst; try done.
  - (* lists agree member by member *)
    rewrite !dumps_list. apply well_formed_list in Hv, Hw.
    replace (map (dumps true) ys) with (map (dumps true) xs); [done|].
    clear Hs. induction Hall as [|x y xs ys Hxy Hall IHall]; [done|].
    apply Forall_cons in IH as [IHx IH], Hv as [Hx Hv], Hw as [Hy Hw].
    simpl. f_equal; [by apply IHx|by apply IHall].
  - (* dicts agree after the pairs are put in key order *)
    rewrite !dumps_dict. cbv zeta.
    apply well_formed_dict in Hv as [Hnd Hv], Hw as [_ Hw].
    rewrite <- Hp in Hw.
    assert (Henc : map (λ kv, (kv.1, dumps true kv.2)) items
                   = map (λ kv, (kv.1, dumps true kv.2)) b').
    { clear Hs Hp Hnd. induction Hall as [|x y xs ys [Hk Hxy] Hall IHall]; [done|].
      apply Forall_cons in IH as [IHx IH], Hv as [Hx Hv], Hw as [Hy Hw].
      simpl. f_equal; [|by apply IHall].
      rewrite Hk. f_equal. by apply IHx. }
    rewrite (sort_items_perm _ (map (λ kv, (kv.1, dumps true kv.2)) b)); [done| |].
    + replace ((map (λ kv, (kv.1, dumps true kv.2)) items).*1) with items.*1; [done|].
      clear. induction items as [|x xs IHxs]; [done|]. simpl. by f_equal.
    + rewrite Henc. by apply Permutation_map.
Qed.

(** C1: the cache key of a tool call depends on the key/value pairs of the
    parameters only, not on the order in which they were inserted (at any
    nesting depth). *)
Theorem cache_key_deterministic tool_name p q :
  well_formed p → well_formed q → same_value p q →
  _generate_cache_key tool_name p = _generate_cache_key tool_name q.
Proof.
  intros Hp Hq Hs. unfold _generate_cache_key.
  by rewrite (dumps_same_value p q).
Qed.

Lemma cache_key_deterministic_witness :
  _generate_cache_key "get_stock_price" (PyDict [("a", PyInt 1); ("b", PyInt 2)]) =
  _generate_cache_key "get_stock_price" (PyDict [("b", PyInt 2); ("a", PyInt 1)]).
Proof.
  apply cache_key_deterministic.
  - simpl. split; [compute_done|done].
  - simpl. split; [compute_done|done].
  - apply same_value_perm. apply perm_swap.
Defined.

End CacheKeyProps.

(** ** Dispatcher *)

Module DispatcherProps.
Import Json FinanceMCPServer.

(** C2 (as stated, refuted): a request that names its [id] can be answered
    by a failure whose only field is [error], and so is any text that is
    not JSON. *)
Lemma handle_request_error_without_id :
  let request_str := json_text "{'id': '7', 'name': ['get_stock_info']}" in
  let internal :=
    anonymous_error "Unexpected error: unhashable type: 'list'" "INTERNAL_ERROR" in
  let invalid := anonymous_error "Invalid JSON" "INVALID_JSON" in
  loads request_str =
    Return (PyDict [("id", PyStr "7"); ("name", PyList [PyStr "get_stock_info"])]) ∧
  (∃ out, handle_request echo_handler request_str () = (Return out, ()) ∧
          loads out = Return internal) ∧
  (∃ out, handle_request echo_handler "not json" () = (Return out, ()) ∧
          loads out = Return invalid).
Proof.
  intros request_str internal invalid.
  split; [reflexivity|]. split; eexists; split; reflexivity.
Qed.

(** C2 (amended): [handle_request] answers every request text with exactly
    one response and never raises.  A failure coded [UNKNOWN_TOOL] or
    [PROCESSING_ERROR] has the shape [{id, error: {message, code}}] and
    carries the [id] of the request as it was given ([None] when the
    request has none); a failure coded [INVALID_JSON] or [INTERNAL_ERROR]
    has the shape [{error: {message, code}}], without an [id]; there is no
    other failure code. *)
Theorem handle_request_always_answers {St : Type}
    (call_handler : string → pyobj → St → outcome pyobj * St)
    (request_str : string) (st : St) :
  ∃ response out st',
    handle_request call_handler request_str st = (Return out, st') ∧
    dumps false response = Return out ∧
    response_for request_str response.
Proof.
  assert (Hexn : ∀ e, ∃ response out,
             @outer_except (Raise e) = Return out ∧
             dumps false response = Return out ∧ response_for request_str response).
  { intros e. unfold outer_except.
    destruct (String.eqb _ _); eexists (anonymous_error _ _), _;
      (split; [reflexivity|]); (split; [reflexivity|]); constructor; set_solver. }
  assert (Hfail : ∀ e (st' : St), ∃ response out st'',
             (@outer_except (Raise e), st') = (Return out, st'') ∧
             dumps false response = Return out ∧ response_for request_str response).
  { intros e st'. destruct (Hexn e) as (response & out & H1 & H2 & H3).
    exists response, out, st'. by rewrite H1. }
  unfold handle_request.
  destruct (loads request_str) as [request|e] eqn:Hloads; [|apply Hfail].
  unfold dispatch.
  destruct request as [| | | | | |items|]; try apply Hfail.
  destruct (find_handler (dict_get items "name" PyNone)) as [[name|shown]|e];
    [| |apply Hfail].
  - (* a registered tool: the handler runs *)
    destruct (call_handler name _ st) as [[r|e] st'].
    + destruct (dumps false (success_response _ r)) as [out|e] eqn:Hd.
      * exists (success_response (dict_get items "id" PyNone) r), out, st'.
        split; [done|]. split; [done|]. by constructor.
      * destruct (dumps false (error_response _ _ _)) as [out|e'] eqn:Hd';
          [|apply Hfail].
        eexists _, out, st'. split; [done|]. split; [exact Hd'|].
        constructor; [done|set_solver].
    + destruct (dumps false (error_response _ _ _)) as [out|e'] eqn:Hd';
        [|apply Hfail].
      eexists _, out, st'. split; [done|]. split; [exact Hd'|].
      constructor; [done|set_solver].
  - (* not in the registry *)
    destruct (dumps false (error_response _ _ _)) as [out|e'] eqn:Hd';
      [|apply Hfail].
    eexists _, out, st. split; [done|]. split; [exact Hd'|].
    constructor; [done|set_solver].
Qed.

End DispatcherProps.

(** ** Fundamental engine *)

Module FundamentalProps.
Import Float FundamentalAnalysisEngine.

Lemma truthy_zero : truthy (of_Z 0) = false.
Proof. reflexivity. Qed.

Lemma round2_zero : round2 (of_Z 0) = of_Z 0.
Proof. unfold round2, of_Z. f_equal. by apply Qc_is_canon. Qed.

Lemma percent_zero : percent (of_Z 0) = of_Z 0.
Proof. unfold percent, round2, mul, of_Z. f_equal. by apply Qc_is_canon. Qed.

Lemma get_zero_or_absent data label :
  zero_or_absent data label → get data label = of_Z 0.
Proof. unfold get. by intros [-> | ->]. Qed.

Lemma ratio_zero a : ratio a (of_Z 0) = Return (of_Z 0).
Proof. reflexivity. Qed.

(** The guard [if d] keeps the division from raising. *)
Lemma ratio_returns a d : ∃ r, ratio a d = Return r.
Proof.
  unfold ratio. destruct (truthy d) eqn:Ht; [|by eexists].
  unfold py_div. destruct d as [b| | |]; try by eexists.
  simpl in Ht. apply bool_decide_eq_true in Ht.
  rewrite bool_decide_eq_false_2 by done. by eexists.
Qed.

Ltac unfold_guard :=
  unfold guarded, mbind, outcome_bind, mret, outcome_ret.

Ltac run_ratio a d :=
  let r := fresh "r" in
  let Hr := fresh "Hr" in
  destruct (ratio_returns a d) as [r Hr]; rewrite Hr; clear Hr.

Ltac found := cbv beta iota zeta; eexists; split; [reflexivity|]; by simplify_map_eq.

(** C6: a ratio whose denominator is zero or not reported is 0 in the
    result of its category; the category does not fail and the ratio is
    not left out. *)
Theorem zero_denominator_policy (balance_data income_data : period) :
  (zero_or_absent balance_data "流动负债合计" →
     ∃ m, calculate_liquidity_ratios balance_data = Ratios m ∧
          m !! "current_ratio" = Some (of_Z 0) ∧
          m !! "quick_ratio" = Some (of_Z 0) ∧
          m !! "cash_ratio" = Some (of_Z 0)) ∧
  (zero_or_absent balance_data "资产总计" →
     ∃ m, calculate_solvency_ratios balance_data income_data = Ratios m ∧
          m !! "debt_ratio" = Some (of_Z 0)) ∧
  (zero_or_absent balance_data "所有者权益合计" →
     ∃ m, calculate_solvency_ratios balance_data income_data = Ratios m ∧
          m !! "debt_to_equity" = Some (of_Z 0)) ∧
  (interest_expense income_data = of_Z 0 →
     ∃ m, calculate_solvency_ratios balance_data income_data = Ratios m ∧
          m !! "interest_coverage" = Some (of_Z 0)) ∧
  (total_revenue income_data = of_Z 0 →
     ∃ m, calculate_profitability_ratios income_data = Ratios m ∧
          m !! "gross_margin" = Some (of_Z 0) ∧
          m !! "operating_margin" = Some (of_Z 0) ∧
          m !! "net_margin" = Some (of_Z 0)).
Proof.
  split; [|split; [|split; [|split]]].
  - intros H%get_zero_or_absent. unfold calculate_liquidity_ratios. unfold_guard.
    rewrite H, !ratio_zero, round2_zero. found.
  - intros H%get_zero_or_absent. unfold calculate_solvency_ratios. unfold_guard.
    rewrite H, ratio_zero, round2_zero.
    run_ratio (get balance_data "负债合计") (get balance_data "所有者权益合计").
    run_ratio (add (get income_data "利润总额") (get income_data "财务费用"))
              (interest_expense income_data).
    found.
  - intros H%get_zero_or_absent. unfold calculate_solvency_ratios. unfold_guard.
    rewrite H, ratio_zero, round2_zero.
    run_ratio (get balance_data "负债合计") (get balance_data "资产总计").
    run_ratio (add (get income_data "利润总额") (get income_data "财务费用"))
              (interest_expense income_data).
    found.
  - intros H. unfold calculate_solvency_ratios. unfold_guard.
    rewrite H, ratio_zero, round2_zero.
    run_ratio (get balance_data "负债合计") (get balance_data "资产总计").
    run_ratio (get balance_data "负债合计") (get balance_data "所有者权益合计").
    found.
  - intros H. unfold calculate_profitability_ratios. unfold_guard.
    rewrite H, !ratio_zero, percent_zero. found.
Qed.

Lemma zero_denominator_policy_witness :
  (∃ m, calculate_liquidity_ratios ∅ = Ratios m ∧
        m !! "current_ratio" = Some (of_Z 0) ∧
        m !! "quick_ratio" = Some (of_Z 0) ∧
        m !! "cash_ratio" = Some (of_Z 0)) ∧
  (∃ m, calculate_profitability_ratios (<["净利润" := of_Z 150]> ∅) = Ratios m ∧
        m !! "gross_margin" = Some (of_Z 0) ∧
        m !! "operating_margin" = Some (of_Z 0) ∧
        m !! "net_margin" = Some (of_Z 0)).
Proof.
  destruct (zero_denominator_policy ∅ (<["净利润" := of_Z 150]> ∅))
    as (Hliq & _ & _ & _ & Hprof).
  split.
  - apply Hliq. left. reflexivity.
  - apply Hprof. reflexivity.
Defined.

(** The same policy in the two remaining categories. *)
Lemma other_categories_default_to_zero
    (balance_data income_data : period) (prev : option period) (price shares : fl) :
  (zero_or_absent balance_data "存货" →
     ∃ m, calculate_efficiency_ratios balance_data income_data prev = Ratios m ∧
          m !! "inventory_turnover" = Some (of_Z 0)) ∧
  (avg_total_assets balance_data prev = of_Z 0 →
     ∃ m, calculate_efficiency_ratios balance_data income_data prev = Ratios m ∧
          m !! "asset_turnover" = Some (of_Z 0) ∧
          m !! "return_on_assets" = Some (of_Z 0)) ∧
  (shares = of_Z 0 →
     ∃ m, calculate_market_ratios income_data balance_data price shares = Ratios m ∧
          m !! "eps" = Some (of_Z 0) ∧ m !! "pe_ratio" = Some (of_Z 0) ∧
          m !! "book_value_per_share" = Some (of_Z 0) ∧
          m !! "pb_ratio" = Some (of_Z 0)).
Proof.
  split; [|split].
  - intros H%get_zero_or_absent. unfold calculate_efficiency_ratios. unfold_guard.
    rewrite H, ratio_zero, round2_zero.
    run_ratio (total_revenue income_data) (avg_total_assets balance_data prev).
    run_ratio (get income_data "净利润") (avg_total_assets balance_data prev).
    found.
  - intros H. unfold calculate_efficiency_ratios. unfold_guard.
    rewrite H, !ratio_zero, round2_zero, percent_zero.
    run_ratio (get income_data "营业成本") (get balance_data "存货").
    found.
  - intros ->. unfold calculate_market_ratios. unfold_guard.
    repeat (rewrite ratio_zero; cbv beta iota). rewrite round2_zero. found.
Qed.

End FundamentalProps.

(** ** Technical engine: column resolution *)

Module ColumnProps.
Import Float Pandas TechnicalAnalysisEngine.

Lemma first_present_elem df names c :
  first_present df names = Some c → c ∈ names.
Proof.
  induction names as [|n names IH]; simpl; [done|].
  case_bool_decide.
  - intros [= ->]. by left.
  - intros H'. right. by apply IH.
Qed.

Lemma separate (l1 l2 : list string) a b :
  Forall (λ x, x ∉ l2) l1 → a ∈ l1 → b ∈ l2 → a ≠ b.
Proof.
  intros Hall Ha Hb ->. rewrite Forall_forall in Hall. by apply (Hall b).
Qed.

(** No label is accepted for two concepts. *)
Ltac distinct_labels :=
  match goal with
  | Ha : ?a ∈ ?l1, Hb : ?b ∈ ?l2 |- ?a ≠ ?b =>
      apply (separate l1 l2 a b); [compute_done | exact Ha | exact Hb]
  end.

(** The mapping has one key per concept that resolves: [len(column_mapping)]
    counts the five concepts, [volume] included. *)
Local Opaque first_present.

Lemma size_column_mapping df :
  size (column_mapping df) =
  resolved_among df ["open"; "high"; "low"; "close"; "volume"].
Proof.
  unfold column_mapping, resolved_among, resolves, required_cols. simpl.
  destruct (first_present df ["open"; "Open"; "开盘"; "开盘价"]) as [o|] eqn:Ho;
  destruct (first_present df ["high"; "High"; "高"; "最高价"]) as [h|] eqn:Hh;
  destruct (first_present df ["low"; "Low"; "低"; "最低价"]) as [l|] eqn:Hl;
  destruct (first_present df ["close"; "Close"; "收盘"; "收盘价"]) as [c|] eqn:Hc;
  destruct (first_present df ["volume"; "Volume"; "成交量"; "成交额"]) as [v|] eqn:Hv;
    repeat match goal with
           | H : first_present _ _ = Some _ |- _ => apply first_present_elem in H
           end;
    simpl;
    repeat (rewrite map_size_insert_None;
            [|repeat (rewrite lookup_insert_ne; [|distinct_labels]);
              apply lookup_empty]);
    rewrite ?map_size_empty; reflexivity.
Qed.

Local Transparent first_present.

(** The whole call fails exactly when fewer than four of the five concepts
    open, high, low, close, volume resolve. *)
Lemma top_level_error_iff price_df indicators :
  (∃ error, process_indicators price_df indicators = TopLevelError error) ↔
  (resolved_among price_df ["open"; "high"; "low"; "close"; "volume"] < 4)%nat.
Proof.
  unfold process_indicators. rewrite size_column_mapping.
  destruct (Nat.ltb_spec (resolved_among price_df
                            ["open"; "high"; "low"; "close"; "volume"]) 4).
  - split; [done|]. intros _. by eexists.
  - split; [by intros [? ?]|lia].
Qed.

Lemma resolved_among_volume price_df :
  (resolved_among price_df ["open"; "high"; "low"; "close"] ≤
   resolved_among price_df ["open"; "high"; "low"; "close"; "volume"])%nat.
Proof.
  unfold resolved_among.
  change ["open"; "high"; "low"; "close"; "volume"]
    with (["open"; "high"; "low"; "close"] ++ ["volume"])%list.
  rewrite List.filter_app, length_app. lia.
Qed.

(** When open, high, low and close all resolve, the call does not fail as
    a whole. *)
Lemma ohlc_resolved_no_top_level_error price_df indicators :
  resolved_among price_df ["open"; "high"; "low"; "close"] = 4 →
  ∃ m, process_indicators price_df indicators = Indicators m.
Proof.
  intros H. pose proof (resolved_among_volume price_df) as Hle.
  destruct (process_indicators price_df indicators) as [error|m] eqn:Hp; [|by eexists].
  assert (Hlt : (resolved_among price_df ["open"; "high"; "low"; "close"; "volume"] < 4)%nat)
    by (apply (top_level_error_iff price_df indicators); by eexists).
  lia.
Qed.

(** C4 (the code at the failing input): only three of open, high, low,
    close resolve, yet [volume] brings the count to four and the call goes
    on; the missing close column surfaces as an error of the indicator. *)
Theorem process_indicators_without_close :
  resolved_among frame_without_close ["open"; "high"; "low"; "close"] = 3 ∧
  process_indicators frame_without_close ["MA"] =
    Indicators {["MA" := Unavailable "'close'"]}.
Proof. split; reflexivity. Qed.

End ColumnProps.

(** ** Technical engine: the loop over the requested indicators *)

Module IndicatorProps.
Import Float Pandas TechnicalAnalysisEngine.

Lemma process_indicator_entry df m indicator :
  process_indicator df m indicator =
  match entry_of df indicator with
  | Some (key, e) => <[key := e]> m
  | None => m
  end.
Proof.
  unfold process_indicator, entry_of.
  destruct (select _ _) as [[key body]|]; [|done]. by destruct (body df).
Qed.

Lemma select_Some name table branch :
  select name table = Some branch → branch.1 = name ∧ branch ∈ table.
Proof.
  induction table as [|b table IH]; simpl; [done|].
  destruct (String.eqb name b.1) eqn:Heq.
  - intros [= ->]. apply String.eqb_eq in Heq. split; [done|by left].
  - intros H. destruct (IH H). split; [done|by right].
Qed.

Lemma select_None name table :
  select name table = None ↔ name ∉ table.*1.
Proof.
  induction table as [|b table IH].
  - split; [intros _; apply not_elem_of_nil|done].
  - rewrite fmap_cons, not_elem_of_cons. simpl.
    destruct (String.eqb name b.1) eqn:Heq.
    + apply String.eqb_eq in Heq. split; [done|]. by intros [? _].
    + apply String.eqb_neq in Heq. rewrite IH. split; [by intros ?|by intros [_ ?]].
Qed.

Lemma select_supported name key body :
  select name branches = Some (key, body) → key = name ∧ name ∈ supported.
Proof.
  intros H. apply select_Some in H as [H1 H2]. simpl in H1. subst key.
  split; [done|]. unfold supported. apply list_elem_of_fmap. by exists (name, body).
Qed.

(** A name written with a dotless i, a long s or a ligature reaches its
    branch, as it does in Python. *)
Lemma upper_beyond_ascii :
  upper "rsı" = "RSI" ∧ upper "ſtochaſtic" = "STOCHASTIC" ∧
  upper "ﬆochaﬅic" = "STOCHASTIC" ∧ upper "é" = "é".
Proof. by repeat split. Qed.

(** The names of the branches are already in capitals. *)
Lemma upper_supported name : name ∈ supported → upper name = name.
Proof.
  unfold supported, branches. simpl.
  intros H. repeat (apply elem_of_cons in H as [->|H]; [reflexivity|]).
  by apply elem_of_nil in H.
Qed.

Lemma entry_of_key df indicator key e :
  entry_of df indicator = Some (key, e) → upper key ∈ supported.
Proof.
  unfold entry_of. destruct (select _ _) as [[k body]|] eqn:Hsel; [|done].
  apply select_supported in Hsel as [-> Hin].
  destruct (body df); intros [= <- <-]; [|done].
  by rewrite upper_supported.
Qed.

(** Two turns that write the same key write the same entry. *)
Lemma entry_of_consistent df i j key e e' :
  entry_of df i = Some (key, e) → entry_of df j = Some (key, e') → e = e'.
Proof.
  unfold entry_of.
  destruct (select (upper i) branches) as [[ki bi]|] eqn:Hi; [|done].
  destruct (select (upper j) branches) as [[kj bj]|] eqn:Hj; [|done].
  destruct (select_supported _ _ _ Hi) as [-> Hini].
  destruct (select_supported _ _ _ Hj) as [-> Hinj].
  destruct (bi df) as [ei|xi] eqn:Hbi, (bj df) as [ej|xj] eqn:Hbj;
    intros [= <- <-] [= Hk <-].
  - rewrite Hk in Hj. rewrite Hi in Hj. injection Hj as <-. congruence.
  - subst j. rewrite (upper_supported _ Hini) in Hj.
    rewrite Hi in Hj. injection Hj as <-. congruence.
  - subst i. rewrite (upper_supported _ Hinj) in Hi.
    rewrite Hj in Hi. injection Hi as <-. congruence.
  - subst j. rewrite Hi in Hj. injection Hj as <-. congruence.
Qed.

(** Every requested indicator that has a branch ends with its own entry,
    whatever else is requested. *)
Lemma foldl_process_indicator_lookup df indicators m i key e :
  i ∈ indicators → entry_of df i = Some (key, e) →
  foldl (process_indicator df) m indicators !! key = Some e.
Proof.
  induction indicators as [|x l IH] using rev_ind; [by intros ?%elem_of_nil|].
  intros Hin He. rewrite foldl_app. simpl. rewrite process_indicator_entry.
  destruct (entry_of df x) as [[kx ex]|] eqn:Hx.
  - destruct (decide (kx = key)) as [->|Hne].
    + rewrite lookup_insert_eq. f_equal. by eapply entry_of_consistent.
    + rewrite lookup_insert_ne by done. apply IH; [|done].
      apply elem_of_app in Hin as [?|Hin]; [done|].
      apply list_elem_of_singleton in Hin as ->. congruence.
  - apply IH; [|done].
    apply elem_of_app in Hin as [?|Hin]; [done|].
    apply list_elem_of_singleton in Hin as ->. congruence.
Qed.

(** Every key of the mapping is the name of a branch, up to case. *)
Lemma foldl_process_indicator_keys df indicators key :
  is_Some (foldl (process_indicator df) ∅ indicators !! key) → upper key ∈ supported.
Proof.
  induction indicators as [|x l IH] using rev_ind; simpl.
  - rewrite lookup_empty. by intros [? ?].
  - rewrite foldl_app. simpl. rewrite process_indicator_entry.
    destruct (entry_of df x) as [[kx ex]|] eqn:Hx; [|done].
    destruct (decide (kx = key)) as [->|Hne].
    + intros _. by eapply entry_of_key.
    + by rewrite lookup_insert_ne.
Qed.

End IndicatorProps.

Module IndicatorClaims.
Import Float Pandas TechnicalAnalysisEngine IndicatorProps.

(** C5: on a frame that passes column resolution, every requested
    indicator that has a branch gets its own entry, whatever the other
    requested indicators do: the value its branch computes, or, when the
    branch raises, [{"error": message}] under the indicator as it was
    written; OBV without a volume column is such an error entry under
    ["OBV"]. *)
Theorem per_indicator_error_isolation price_df indicators m :
  process_indicators price_df indicators = Indicators m →
  let df := rename price_df (column_mapping price_df) in
  (∀ i key body,
     i ∈ indicators → select (upper i) branches = Some (key, body) →
     match body df with
     | Return e => m !! key = Some e
     | Raise e => m !! i = Some (Unavailable (exn_msg e))
     end) ∧
  (∀ i, i ∈ indicators → upper i = "OBV" → "volume" ∉ column_names df →
        m !! "OBV" = Some (Unavailable "Volume data not available")).
Proof.
  unfold process_indicators. destruct (_ <? _)%nat; [done|].
  intros [= <-].
  set (df := rename price_df (column_mapping price_df)).
  assert (Hall : ∀ i key body,
             i ∈ indicators → select (upper i) branches = Some (key, body) →
             match body df with
             | Return e => foldl (process_indicator df) ∅ indicators !! key = Some e
             | Raise e => foldl (process_indicator df) ∅ indicators !! i
                          = Some (Unavailable (exn_msg e))
             end).
  { intros i key body Hin Hsel.
    destruct (body df) as [e|ex] eqn:Hb;
      apply (foldl_process_indicator_lookup df indicators ∅ i); try done;
      unfold entry_of; by rewrite Hsel, Hb. }
  split; [exact Hall|].
  intros i Hin Hup Hvol.
  specialize (Hall i "OBV" obv Hin). rewrite Hup in Hall.
  specialize (Hall eq_refl). unfold obv in Hall.
  by rewrite bool_decide_eq_false_2 in Hall.
Qed.

(** Open, high, low and volume, and no close: every branch that reads
    [close] raises [KeyError]. *)
Lemma per_indicator_error_isolation_witness :
  let price_df := frame_without_close in
  let indicators := ["rsi"; "ATR"] in
  ∃ m, process_indicators price_df indicators = Indicators m ∧
       m !! "rsi" = Some (Unavailable "'close'") ∧
       m !! "ATR" = Some (Unavailable "'close'").
Proof.
  intros price_df indicators.
  exists {["rsi" := Unavailable "'close'"; "ATR" := Unavailable "'close'"]}.
  assert (H : process_indicators price_df indicators =
              Indicators {["rsi" := Unavailable "'close'"; "ATR" := Unavailable "'close'"]})
    by reflexivity.
  split; [exact H|].
  destruct (per_indicator_error_isolation price_df indicators _ H) as [Hall _].
  split.
  - apply (Hall "rsi" "RSI" rsi); [|reflexivity]. by left.
  - apply (Hall "ATR" "ATR" atr); [|reflexivity]. right. by left.
Defined.

(** C9: an indicator name that is none of the eight supported names, in
    any case, is skipped: its turn of the loop changes nothing, so the
    result is that of the request without it (the supported indicators
    keep their entries), and the mapping has no entry under the name. *)
Theorem unsupported_indicator_ignored price_df name :
  upper name ∉ supported →
  (∀ df m, process_indicator df m name = m) ∧
  (∀ before after,
     process_indicators price_df (before ++ name :: after) =
     process_indicators price_df (before ++ after)) ∧
  (∀ indicators m,
     process_indicators price_df indicators = Indicators m → m !! name = None).
Proof.
  intros Hun.
  assert (Hskip : ∀ df m, process_indicator df m name = m).
  { intros df m. unfold process_indicator.
    by rewrite (proj2 (select_None (upper name) branches)). }
  split; [exact Hskip|]. split.
  - intros before after. unfold process_indicators.
    destruct (_ <? _)%nat; [done|]. f_equal.
    rewrite !foldl_app. simpl. by rewrite Hskip.
  - intros indicators m. unfold process_indicators.
    destruct (_ <? _)%nat; [done|]. intros [= <-].
    apply eq_None_not_Some. intros Hsome.
    by apply foldl_process_indicator_keys in Hsome.
Qed.

Lemma unsupported_indicator_ignored_witness :
  process_indicators example_frame ["OBV"; "vwap"; "macd"] =
  process_indicators example_frame ["OBV"; "macd"].
Proof.
  assert (H : upper "vwap" ∉ supported) by compute_done.
  destruct (unsupported_indicator_ignored example_frame "vwap" H)
    as (_ & Hdrop & _).
  exact (Hdrop ["OBV"] ["macd"]).
Defined.

End IndicatorClaims.

(** ** Technical engine: the series of the indicators *)

Module SeriesProps.
Import Float Pandas TechnicalAnalysisEngine.
Local Open Scope Qc_scope.

Lemma prep_numbers (qs : list Qc) : prep (Fin <$> qs) = Fin <$> qs.
Proof.
  unfold prep. rewrite <- list_fmap_compose. by apply list_fmap_ext.
Qed.

Lemma finite_values_numbers (qs : list Qc) : finite_values (Fin <$> qs) = Some qs.
Proof.
  unfold finite_values. apply mapM_Some. induction qs; constructor; done.
Qed.

Lemma length_rolling w agg xs : length (rolling w agg xs) = length xs.
Proof. unfold rolling, prep. by rewrite length_imap, length_fmap. Qed.

(** Before the window is full, the row is missing. *)
Lemma rolling_warmup w agg xs i :
  (i + 1 < w)%nat → (i < length xs)%nat → rolling w agg xs !! i = Some NaN.
Proof.
  intros Hw Hi. unfold rolling. rewrite list_lookup_imap.
  destruct (prep xs !! i) eqn:Hl; simpl.
  - by rewrite (proj2 (Nat.ltb_lt _ _) Hw).
  - apply lookup_ge_None in Hl. unfold prep in Hl. rewrite length_fmap in Hl. lia.
Qed.

(** On a series of numbers, a full window is aggregated. *)
Lemma rolling_full w agg (qs : list Qc) i :
  (w ≤ i + 1)%nat → (i < length qs)%nat →
  rolling w agg (Fin <$> qs) !! i = Some (agg (take w (drop (i + 1 - w) qs))).
Proof.
  intros Hw Hi. unfold rolling. rewrite prep_numbers, list_lookup_imap.
  destruct ((Fin <$> qs) !! i) eqn:Hl; simpl.
  - rewrite (proj2 (Nat.ltb_ge _ _) Hw). unfold window.
    by rewrite <- fmap_drop, <- fmap_take, finite_values_numbers.
  - apply lookup_ge_None in Hl. rewrite length_fmap in Hl. lia.
Qed.

Lemma length_window w i (qs : list Qc) :
  (w ≤ i + 1)%nat → (i < length qs)%nat →
  length (take w (drop (i + 1 - w) qs)) = w.
Proof. intros. rewrite length_take, length_drop. lia. Qed.

(** The weights of one step add up to one, so a step between numbers
    gives a number. *)
Lemma ewm_step_numbers alpha (w c : Qc) :
  ∃ y, ewm_step alpha (Fin w, Qc_of_Z 1) (Fin c) = (Fin y, Qc_of_Z 1).
Proof.
  unfold ewm_step. simpl.
  assert (Hone : Qc_of_Z 1 * (Qc_of_Z 1 - alpha) + alpha = 1)
    by (rewrite Z2Qc_inj_1; ring).
  rewrite Hone. rewrite bool_decide_eq_false_2 by done. by eexists.
Qed.

Lemma ewm_go_numbers alpha (w : Qc) (qs : list Qc) :
  ∃ ys, ewm_go alpha (Fin w, Qc_of_Z 1) (Fin <$> qs) = Fin <$> ys ∧
        length ys = length qs.
Proof.
  revert w. induction qs as [|c qs IH]; intros w.
  - by exists [].
  - rewrite fmap_cons. cbn [ewm_go].
    destruct (ewm_step_numbers alpha w c) as [y ->].
    destruct (IH y) as (ys & -> & Hlen).
    exists (y :: ys). split; [done|]. simpl. by rewrite Hlen.
Qed.

(** An exponential average of numbers is a series of numbers of the same
    length that starts with the first value. *)
Lemma ewm_mean_numbers span (qs : list Qc) :
  ∃ ys, ewm_mean span (Fin <$> qs) = Fin <$> ys ∧
        length ys = length qs ∧ head ys = head qs.
Proof.
  unfold ewm_mean. rewrite prep_numbers. destruct qs as [|q qs].
  - by exists [].
  - rewrite fmap_cons.
    destruct (ewm_go_numbers (Qc_of_Z 2 / Qc_of_Z (span + 1)) q qs) as (ys & -> & Hlen).
    exists (q :: ys). split; [done|]. simpl. by rewrite Hlen.
Qed.

Lemma zip_with_sub_numbers (a b : list Qc) :
  zip_with sub (Fin <$> a) (Fin <$> b) = Fin <$> zip_with (λ x y, x + - y) a b.
Proof.
  revert b. induction a as [|x a IH]; intros [|y b]; try done.
  rewrite !fmap_cons. simpl. by rewrite IH.
Qed.

Ltac run_branch H :=
  unfold mbind, outcome_bind, mret, outcome_ret; rewrite ?H; reflexivity.

Lemma moving_averages_eq df close :
  col df "close" = Return close →
  moving_averages df =
  Return (Lines [("MA5", rolling 5 mean close); ("MA10", rolling 10 mean close);
                 ("MA20", rolling 20 mean close); ("MA60", rolling 60 mean close)]).
Proof. intros H. unfold moving_averages, periods. cbn [foldl]. run_branch H. Qed.

Lemma exponential_moving_averages_eq df close :
  col df "close" = Return close →
  exponential_moving_averages df =
  Return (Lines [("EMA5", ewm_mean 5 close); ("EMA10", ewm_mean 10 close);
                 ("EMA20", ewm_mean 20 close); ("EMA60", ewm_mean 60 close)]).
Proof.
  intros H. unfold exponential_moving_averages, periods. cbn [foldl]. run_branch H.
Qed.

Lemma macd_eq df close :
  col df "close" = Return close →
  macd df =
  Return (Lines [("macd_line", zip_with sub (ewm_mean 12 close) (ewm_mean 26 close));
                 ("signal_line",
                  ewm_mean 9 (zip_with sub (ewm_mean 12 close) (ewm_mean 26 close)));
                 ("histogram",
                  zip_with sub
                    (zip_with sub (ewm_mean 12 close) (ewm_mean 26 close))
                    (ewm_mean 9 (zip_with sub (ewm_mean 12 close) (ewm_mean 26 close))))]).
Proof. intros H. unfold macd. run_branch H. Qed.

Lemma rsi_eq df close :
  col df "close" = Return close → rsi df = Return (Series (rsi_of close)).
Proof. intros H. unfold rsi. run_branch H. Qed.

Lemma length_zip_with_same {A B C} (f : A → B → C) (a : list A) (b : list B) n :
  length a = n → length b = n → length (zip_with f a b) = n.
Proof. intros. rewrite length_zip_with. lia. Qed.

End SeriesProps.

Module SeriesClaims.
Import Float Pandas TechnicalAnalysisEngine SeriesProps.
Local Open Scope Qc_scope.

(** C10: on a non-empty close column of numbers, every EMA series and the
    three MACD lines are numbers on every row, the first one included, and
    each EMA starts at the first close; the first [p - 1] rows of MA[p] are
    missing. *)
Theorem ema_macd_defined_from_first_row df (first : Qc) (rest : list Qc) :
  let closes := first :: rest in
  col df "close" = Return (Fin <$> closes) →
  (∃ e5 e10 e20 e60,
     exponential_moving_averages df =
       Return (Lines [("EMA5", Fin <$> e5); ("EMA10", Fin <$> e10);
                      ("EMA20", Fin <$> e20); ("EMA60", Fin <$> e60)]) ∧
     Forall (λ ys, length ys = length closes ∧ head ys = Some first)
            [e5; e10; e20; e60]) ∧
  (∃ macd_line signal_line histogram,
     macd df =
       Return (Lines [("macd_line", Fin <$> macd_line);
                      ("signal_line", Fin <$> signal_line);
                      ("histogram", Fin <$> histogram)]) ∧
     Forall (λ ys, length ys = length closes) [macd_line; signal_line; histogram]) ∧
  (∃ m5 m10 m20 m60,
     moving_averages df =
       Return (Lines [("MA5", m5); ("MA10", m10); ("MA20", m20); ("MA60", m60)]) ∧
     Forall2 (λ (p : nat) xs,
                length xs = length closes ∧
                ∀ i, (i + 1 < p)%nat → (i < length closes)%nat → xs !! i = Some NaN)
             [5; 10; 20; 60]%nat [m5; m10; m20; m60]).
Proof.
  intros closes Hcol. split; [|split].
  - rewrite (exponential_moving_averages_eq df _ Hcol).
    destruct (ewm_mean_numbers 5 closes) as (e5 & -> & ? & ?).
    destruct (ewm_mean_numbers 10 closes) as (e10 & -> & ? & ?).
    destruct (ewm_mean_numbers 20 closes) as (e20 & -> & ? & ?).
    destruct (ewm_mean_numbers 60 closes) as (e60 & -> & ? & ?).
    exists e5, e10, e20, e60. split; [done|]. repeat constructor; done.
  - rewrite (macd_eq df _ Hcol).
    destruct (ewm_mean_numbers 12 closes) as (e12 & -> & H12 & _).
    destruct (ewm_mean_numbers 26 closes) as (e26 & -> & H26 & _).
    rewrite zip_with_sub_numbers.
    set (macd_line := zip_with (λ x y, x + - y) e12 e26).
    assert (Hm : length macd_line = length closes)
      by (by apply length_zip_with_same).
    destruct (ewm_mean_numbers 9 macd_line) as (signal_line & -> & Hs & _).
    rewrite zip_with_sub_numbers.
    exists macd_line, signal_line, (zip_with (λ x y, x + - y) macd_line signal_line).
    split; [done|]. repeat constructor; [done|congruence|].
    apply length_zip_with_same; congruence.
  - rewrite (moving_averages_eq df _ Hcol). do 4 eexists. split; [reflexivity|].
    repeat constructor; try apply length_rolling;
      rewrite ?length_rolling, ?length_fmap; try done;
      intros i Hi Hlen; apply rolling_warmup; by rewrite ?length_fmap.
Qed.

Lemma ema_macd_defined_from_first_row_witness :
  let df : DataFrame := [("close", of_Z <$> [10; 11; 12]%Z)] in
  ∃ e5 e10 e20 e60,
    exponential_moving_averages df =
      Return (Lines [("EMA5", Fin <$> e5); ("EMA10", Fin <$> e10);
                     ("EMA20", Fin <$> e20); ("EMA60", Fin <$> e60)]) ∧
    Forall (λ ys, length ys = 3%nat ∧ head ys = Some (Qc_of_Z 10)) [e5; e10; e20; e60].
Proof.
  intros df.
  destruct (ema_macd_defined_from_first_row df (Qc_of_Z 10) [Qc_of_Z 11; Qc_of_Z 12])
    as [Hema _]; [reflexivity|exact Hema].
Defined.

Lemma zip_with_take_r {A B C} (f : A → B → C) (a : list A) (b : list B) :
  zip_with f a (take (length a) b) = zip_with f a b.
Proof.
  revert b. induction a as [|x a IH]; intros [|y b]; try done.
  simpl. by rewrite IH.
Qed.

Lemma diff_numbers (q : Qc) (qs : list Qc) :
  diff (Fin <$> q :: qs) = NaN :: (Fin <$> deltas (q :: qs)).
Proof.
  unfold diff, shift, deltas. rewrite fmap_cons. cbn [zip_with tail length].
  f_equal. replace (S (length (Fin <$> qs)) - 1)%nat with (length (Fin <$> qs)) by lia.
  change (Fin q :: (Fin <$> qs)) with (Fin <$> q :: qs).
  by rewrite zip_with_take_r, zip_with_sub_numbers.
Qed.

Lemma gain_numbers (q : Qc) (qs : list Qc) :
  where_ (λ d, gtb d (of_Z 0)) (of_Z 0) (diff (Fin <$> q :: qs)) = Fin <$> gains (q :: qs).
Proof.
  rewrite diff_numbers. unfold where_, gains. rewrite !fmap_cons. f_equal.
  rewrite <- !list_fmap_compose. apply list_fmap_ext. intros i d _. simpl.
  by destruct (bool_decide _).
Qed.

Lemma gains_nonneg closes : Forall (λ g, 0 ≤ g) (gains closes).
Proof.
  unfold gains. rewrite Z2Qc_inj_0. constructor; [done|].
  apply Forall_fmap, Forall_true. intros d. simpl.
  case_bool_decide; [by apply Qclt_le_weak|done].
Qed.

Lemma loss_numbers (q : Qc) (qs : list Qc) :
  Forall (λ d, 0 ≤ d) (deltas (q :: qs)) →
  neg <$> where_ (λ d, ltb d (of_Z 0)) (of_Z 0) (diff (Fin <$> q :: qs))
  = Fin <$> replicate (length (q :: qs)) 0.
Proof.
  intros Hup. rewrite diff_numbers. unfold where_.
  assert (Hlen : length (q :: qs) = S (length (deltas (q :: qs)))).
  { unfold deltas. simpl. rewrite length_zip_with. simpl. lia. }
  rewrite Hlen. clear Hlen. rewrite !fmap_cons. cbn [replicate]. rewrite fmap_cons.
  f_equal.
  induction Hup as [|d ds Hd Hup IH]; [done|].
  rewrite !fmap_cons. cbn [length replicate]. rewrite fmap_cons, IH. f_equal.
  simpl. rewrite Z2Qc_inj_0. rewrite bool_decide_eq_false_2 by by apply Qcle_not_lt.
  reflexivity.
Qed.

Lemma total_nonneg qs : Forall (λ g, 0 ≤ g) qs → 0 ≤ total qs.
Proof.
  unfold total. rewrite Z2Qc_inj_0.
  induction 1 as [|g gs Hg _ IH]; simpl; [done|]. by apply Qcplus_nonneg_nonneg.
Qed.

Lemma total_zeros n : total (replicate n 0) = 0.
Proof.
  unfold total. rewrite Z2Qc_inj_0.
  induction n as [|n IH]; simpl; [done|]. by rewrite IH, Qcplus_0_l.
Qed.

Lemma mean_14 qs : length qs = 14%nat → mean qs = Fin (total qs / Qc_of_Z 14).
Proof.
  intros Hlen. unfold mean, count, div. rewrite Hlen.
  by rewrite bool_decide_eq_false_2 by done.
Qed.

(** The value of one row of the RSI from an average gain [g >= 0] over an
    average loss of zero: 100 when there was a gain, [nan] when the
    window was flat. *)
Lemma rsi_value_no_loss (g : Qc) :
  0 ≤ g →
  rsi_row (div (Fin g) (Fin 0)) = of_Z 100 ∨ rsi_row (div (Fin g) (Fin 0)) = NaN.
Proof.
  intros Hg. unfold rsi_row. simpl.
  destruct (g ?= 0) eqn:Hc.
  - by right.
  - exfalso. by apply (proj1 (Qcge_alt g 0)).
  - left. unfold of_Z. f_equal. by apply Qc_is_canon.
Qed.

(** C7: on a close column of at least 14 numbers that never falls, the
    RSI branch returns a series (it raises nothing), one value per row;
    from the 14th row on, where the window is full, the value is 100 (the
    top of the scale, reached through an infinite RS) or [nan] (a flat
    window, 0/0), never an error. *)
Theorem rsi_without_losses df (closes : list Qc) :
  col df "close" = Return (Fin <$> closes) →
  (14 ≤ length closes)%nat →
  Forall (λ d, 0 ≤ d) (deltas closes) →
  ∃ xs, rsi df = Return (Series xs) ∧ length xs = length closes ∧
        ∀ i, (13 ≤ i < length closes)%nat →
             xs !! i = Some (of_Z 100) ∨ xs !! i = Some NaN.
Proof.
  intros Hcol Hlen Hup. rewrite (rsi_eq df _ Hcol). eexists. split; [reflexivity|].
  destruct closes as [|q qs]; [simpl in Hlen; lia|].
  unfold rsi_of. rewrite gain_numbers, (loss_numbers q qs Hup).
  assert (Hg : length (gains (q :: qs)) = length (q :: qs)).
  { unfold gains, deltas. simpl. rewrite length_fmap, length_zip_with. simpl. lia. }
  split.
  - rewrite length_fmap, length_zip_with, !length_rolling, !length_fmap,
      length_replicate, Hg. lia.
  - intros i [Hi1 Hi2].
    set (g := total (take 14 (drop (i + 1 - 14) (gains (q :: qs)))) / Qc_of_Z 14).
    assert (Hgain : rolling 14 mean (Fin <$> gains (q :: qs)) !! i = Some (Fin g)).
    { rewrite rolling_full by lia. f_equal. apply mean_14, length_window; lia. }
    assert (Hloss : rolling 14 mean (Fin <$> replicate (length (q :: qs)) 0) !! i
                    = Some (Fin 0)).
    { rewrite rolling_full by (rewrite ?length_replicate; lia). f_equal.
      rewrite mean_14 by (apply length_window; rewrite ?length_replicate; lia).
      rewrite drop_replicate, take_replicate, total_zeros.
      unfold Qcdiv. by rewrite Qcmult_0_l. }
    assert (Hnonneg : 0 ≤ g).
    { unfold g, Qcdiv. apply Qcmult_nonneg_nonneg.
      - apply total_nonneg, Forall_take, Forall_drop, gains_nonneg.
      - apply Qclt_le_weak, Qcinv_pos. done. }
    rewrite list_lookup_fmap, lookup_zip_with, Hgain, Hloss.
    change (Some (rsi_row (div (Fin g) (Fin 0))) = Some (of_Z 100) ∨
            Some (rsi_row (div (Fin g) (Fin 0))) = Some NaN).
    destruct (rsi_value_no_loss g Hnonneg) as [-> | ->]; [by left|by right].
Qed.

Lemma rsi_without_losses_witness :
  let closes := Qc_of_Z <$> [1; 2; 3; 4; 5; 6; 7; 8; 9; 10; 11; 12; 13; 14; 14]%Z in
  let df : DataFrame := [("close", Fin <$> closes)] in
  ∃ xs, rsi df = Return (Series xs) ∧ length xs = 15%nat ∧
        ∀ i, (13 ≤ i < 15)%nat → xs !! i = Some (of_Z 100) ∨ xs !! i = Some NaN.
Proof.
  intros closes df. apply (rsi_without_losses df closes).
  - reflexivity.
  - simpl. lia.
  - compute_done.
Defined.

End SeriesClaims.

(* ================================================================== *)
(** * Further properties of the code *)
(* ================================================================== *)

(** ** Cache: what the operations do to the store *)

Module CacheStore.
Import DataCache CacheProps.
Local Open Scope Qc_scope.

(** The expiry that [set] computes. *)
Lemma set_lookup c key v ttl now :
  _cache (set c key v ttl now) !! key =
  Some {| value := v;
          expiry := now + Qc_of_Z (match ttl with Some s => s | None => _default_ttl c end) |}.
Proof. unfold set. simpl. apply lookup_insert_eq. Qed.

(** X1: A value that was [set] is served by every [get] up to and including
    the instant [now + ttl] (the default TTL when none is given), and such a
    read leaves the cache as it is. *)
Theorem get_after_set_within_ttl c key v ttl now later :
  later ≤ now + Qc_of_Z (match ttl with Some s => s | None => _default_ttl c end) →
  get (set c key v ttl now) key later = (v, set c key v ttl now).
Proof.
  intros Hle. unfold get. rewrite set_lookup. simpl.
  by rewrite (proj2 (past_false _ _) Hle), andb_false_r.
Qed.

Lemma get_after_set_within_ttl_witness :
  let c := set (init 3600) "k" (PyStr "v") None (Qc_of_Z 1000) in
  get c "k" (Qc_of_Z 4600) = (PyStr "v", c).
Proof.
  intros c. apply (get_after_set_within_ttl (init 3600) "k" (PyStr "v") None).
  discriminate.
Defined.

(** X2: The whole effect of [get] on the store: the key is deleted exactly when
    its entry has a non-zero expiry that lies before [now]; no other key is
    ever touched, and the default TTL stays. *)
Theorem get_store_effect c key now :
  (∀ k, _cache (get c key now).2 !! k =
        if decide (k = key)
        then match _cache c !! key with
             | Some e => if decide (expiry e ≠ 0 ∧ expiry e < now) then None else Some e
             | None => None
             end
        else _cache c !! k) ∧
  _default_ttl (get c key now).2 = _default_ttl c.
Proof.
  unfold get. destruct (_cache c !! key) as [e|] eqn:Hk.
  - destruct (truthy (expiry e)) eqn:Ht, (past now (expiry e)) eqn:Hp; simpl;
      (split; [|done]); intros k; destruct (decide (k = key)) as [->|Hne];
      rewrite ?lookup_delete_eq, ?lookup_delete_ne by done; try done;
      destruct (decide _) as [[H1 H2]|Hn]; try done; rewrite ?Hk; try done.
    + exfalso. apply Hn. split; [by apply truthy_true|by apply past_true].
    + apply past_true in H2. congruence.
    + apply truthy_true in H1. congruence.
    + apply truthy_true in H1. congruence.
  - split; [|done]. intros k. destruct (decide (k = key)) as [->|]; by rewrite ?Hk.
Qed.

Lemma cleanup_cache c now :
  _cache (cleanup c now).2 = filter (λ kv, ¬ (past now (expiry kv.2) = true)) (_cache c).
Proof.
  apply map_eq. intros k. unfold cleanup. simpl.
  rewrite lookup_foldl_delete, map_lookup_filter.
  destruct (decide (k ∈ expired_keys c now)) as [Hin|Hnin].
  - apply elem_of_expired_keys in Hin as (e & -> & Hlt). simpl.
    rewrite option_guard_False; [done|]. intros H. apply H. by apply past_true.
  - destruct (_cache c !! k) as [e|] eqn:Hk; simpl; [|done].
    rewrite option_guard_True; [done|]. simpl. intros Hp. apply Hnin.
    apply elem_of_expired_keys. exists e. split; [done|]. by apply past_true.
Qed.

Lemma cleanup_store_and_count c now :
  (∀ k, _cache (cleanup c now).2 !! k =
        match _cache c !! k with
        | Some e => if decide (expiry e < now) then None else Some e
        | None => None
        end) ∧
  ((cleanup c now).1 + size (_cache (cleanup c now).2) = size (_cache c))%nat.
Proof.
  split.
  - intros k. rewrite cleanup_cache, map_lookup_filter.
    destruct (_cache c !! k) as [e|]; simpl; [|done].
    destruct (decide (expiry e < now)) as [Hlt|Hge].
    + rewrite option_guard_False; [done|]. intros H. apply H. by apply past_true.
    + rewrite option_guard_True; [done|]. simpl. by intros ?%past_true.
  - rewrite cleanup_cache. unfold cleanup, expired_keys. simpl.
    rewrite length_fmap, length_map_to_list.
    rewrite <- map_size_disj_union by apply map_disjoint_filter_complement.
    by rewrite map_filter_union_complement.
Qed.

(** X3: [cleanup] removes exactly the entries whose expiry lies before the
    current time, keeps every other entry as it is, and returns the number
    of entries it removed. *)
Theorem cleanup_removes_exactly_expired c now :
  (∀ k, _cache (cleanup c now).2 !! k =
        match _cache c !! k with
        | Some e => if decide (expiry e < now) then None else Some e
        | None => None
        end) ∧
  ((cleanup c now).1 + size (_cache (cleanup c now).2) = size (_cache c))%nat.
Proof. exact (cleanup_store_and_count c now). Qed.

(** X4: After a sweep nothing stale is left: a second [cleanup] at the same
    instant removes nothing, and no [get] at that instant deletes anything. *)
Theorem cleanup_leaves_nothing_stale c now key :
  (cleanup (cleanup c now).2 now).1 = 0%nat ∧
  (get (cleanup c now).2 key now).2 = (cleanup c now).2.
Proof.
  assert (Hfresh : ∀ k e, _cache (cleanup c now).2 !! k = Some e → ¬ expiry e < now).
  { intros k e. rewrite (proj1 (cleanup_store_and_count c now)).
    destruct (_cache c !! k) as [e'|]; [|done].
    destruct (decide (expiry e' < now)); [done|]. by intros [= <-]. }
  split.
  - change (length (expired_keys (cleanup c now).2 now) = 0%nat).
    destruct (expired_keys (cleanup c now).2 now) as [|k ks] eqn:Hks; [done|].
    assert (Hin : k ∈ expired_keys (cleanup c now).2 now) by (rewrite Hks; constructor).
    apply elem_of_expired_keys in Hin as (e & He & Hlt). by destruct (Hfresh _ _ He).
  - unfold get. destruct (_cache (cleanup c now).2 !! key) as [e|] eqn:Hk; [|done].
    apply Hfresh in Hk. apply Qcnot_lt_le, past_false in Hk.
    by rewrite Hk, andb_false_r.
Qed.

(** X5: [get] and [cleanup] do not agree on an entry whose expiry is zero:
    [cleanup] removes it as soon as the clock is positive, [get] serves it
    for ever. *)
Theorem zero_expiry_immortal_for_get c key e now :
  _cache c !! key = Some e → expiry e = 0 → 0 < now →
  get c key now = (value e, c) ∧ _cache (cleanup c now).2 !! key = None.
Proof.
  intros Hk H0 Hnow. split.
  - unfold get. rewrite Hk. simpl.
    replace (truthy (expiry e)) with false; [done|].
    symmetry. apply not_true_is_false. rewrite truthy_true. by intros ?.
  - rewrite (proj1 (cleanup_store_and_count c now)), Hk, H0.
    by rewrite decide_True.
Qed.

Lemma zero_expiry_immortal_for_get_witness :
  let e := {| value := PyStr "v"; expiry := 0 |} in
  let c := {| _cache := {["k" := e]}; _default_ttl := 3600 |} in
  get c "k" (Qc_of_Z 5) = (PyStr "v", c) ∧ _cache (cleanup c (Qc_of_Z 5)).2 !! "k" = None.
Proof.
  intros e c. apply (zero_expiry_immortal_for_get c "k" e (Qc_of_Z 5)).
  - apply lookup_singleton_eq.
  - reflexivity.
  - reflexivity.
Defined.

End CacheStore.

(** ** JSON: what the decoder builds, the encoder accepts *)

Module JsonFacts.
Import Json CacheKeyProps.

Lemma serializable_list xs : serializable (PyList xs) ↔ Forall serializable xs.
Proof.
  simpl. induction xs as [|x xs IH]; simpl.
  - split; [constructor|done].
  - rewrite Forall_cons. by rewrite IH.
Qed.

Lemma serializable_dict items :
  serializable (PyDict items) ↔ Forall (λ kv, serializable kv.2) items.
Proof.
  simpl. induction items as [|x xs IH]; simpl.
  - split; [constructor|done].
  - rewrite Forall_cons. by rewrite IH.
Qed.

Lemma collect_returns (chunks : list (outcome string)) :
  Forall (λ c, ∃ out, c = Return out) chunks → ∃ outs, collect chunks = Return outs.
Proof.
  induction 1 as [|c cs [out ->] _ [outs IH]]; simpl; [by eexists|].
  rewrite IH. by eexists.
Qed.

(** [json.dumps] raises on nothing but an object it cannot serialise. *)
Lemma dumps_serializable sort_keys obj :
  serializable obj → ∃ out, dumps sort_keys obj = Return out.
Proof.
  induction obj as [|b|n|r|s|xs IH|items IH|t] using pyobj_nested_ind; intros Hs.
  - by eexists.
  - destruct b; by eexists.
  - by eexists.
  - by eexists.
  - by eexists.
  - rewrite dumps_list. apply serializable_list in Hs.
    assert (Hall : Forall (λ c, ∃ out, c = Return out) (map (dumps sort_keys) xs)).
    { apply Forall_fmap, Forall_forall. intros x Hx. simpl.
      rewrite Forall_forall in IH, Hs. by apply IH; [|apply Hs]. }
    destruct (collect_returns _ Hall) as [outs ->]. by eexists.
  - rewrite dumps_dict. cbv zeta. apply serializable_dict in Hs.
    set (encoded := map (λ kv, (kv.1, dumps sort_keys kv.2)) items).
    assert (Henc : Forall (λ kc : string * outcome string, ∃ out, kc.2 = Return out) encoded).
    { apply Forall_fmap, Forall_forall. intros x Hx. simpl.
      rewrite Forall_forall in IH, Hs. by apply IH; [|apply Hs]. }
    assert (Hord : Forall (λ kc : string * outcome string, ∃ out, kc.2 = Return out)
                          (if sort_keys then sort_items encoded else encoded)).
    { destruct sort_keys; [|done]. unfold sort_items. by rewrite merge_sort_Permutation. }
    assert (Hall : Forall (λ c, ∃ out, c = Return out)
                     (map encode_pair (if sort_keys then sort_items encoded else encoded))).
    { apply Forall_fmap. eapply Forall_impl; [exact Hord|].
      intros kc [out Hout]. unfold encode_pair. simpl. rewrite Hout. by eexists. }
    destruct (collect_returns _ Hall) as [outs ->]. by eexists.
  - done.
Qed.

Lemma dict_set_serializable items k v :
  Forall (λ kv, serializable kv.2) items → serializable v →
  Forall (λ kv, serializable kv.2) (dict_set items k v).
Proof.
  intros Hall Hv. induction Hall as [|[k' v'] rest Hx Hall IH]; simpl.
  - by repeat constructor.
  - destruct (String.eqb k' k); constructor; done.
Qed.

Lemma dict_get_serializable items k default :
  Forall (λ kv, serializable kv.2) items → serializable default →
  serializable (dict_get items k default).
Proof.
  intros Hall Hd. induction Hall as [|[k' v'] rest Hx Hall IH]; simpl; [done|].
  by destruct (String.eqb k' k).
Qed.

Lemma scan_number_serializable s v r :
  scan_number s = Some (v, r) → serializable v.
Proof.
  unfold scan_number. intros H.
  repeat (case_match; simplify_eq); done.
Qed.

Lemma scan_serializable fuel :
  (∀ s v r, scan_value fuel s = Some (v, r) → serializable v) ∧
  (∀ acc s v r, Forall serializable acc →
                scan_elements fuel acc s = Some (v, r) → serializable v) ∧
  (∀ acc s v r, Forall (λ kv, serializable kv.2) acc →
                scan_members fuel acc s = Some (v, r) → serializable v).
Proof.
  induction fuel as [|fuel (IHv & IHe & IHm)]; [by repeat split|].
  split; [|split].
  - intros s v r. cbn [scan_value].
    intros H. repeat (case_match; simplify_eq); try done;
      eauto using scan_number_serializable.
  - intros acc s v r Hacc. cbn [scan_elements].
    intros H. repeat (case_match; simplify_eq);
      [apply serializable_list|eapply IHe; [|eassumption]];
      (apply Forall_app; split; [done|]; constructor; [|constructor]; eauto).
  - intros acc s v r Hacc. cbn [scan_members].
    intros H. repeat (case_match; simplify_eq);
      [apply serializable_dict|eapply IHm; [|eassumption]];
      apply dict_set_serializable; eauto.
Qed.

Lemma loads_serializable s v : loads s = Return v → serializable v.
Proof.
  unfold loads. intros H. repeat (case_match; simplify_eq).
  eapply (proj1 (scan_serializable _)); eassumption.
Qed.

End JsonFacts.

(** ** Dispatcher: the answer to each kind of request *)

Module RequestFacts.
Import Json FinanceMCPServer CacheKeyProps JsonFacts.

Lemma request_id_serializable s items :
  loads s = Return (PyDict items) → serializable (dict_get items "id" PyNone).
Proof.
  intros H%loads_serializable. apply serializable_dict in H.
  by apply dict_get_serializable.
Qed.

Lemma dumps_error_response request_id message code :
  serializable request_id →
  ∃ out, dumps false (error_response request_id message code) = Return out.
Proof.
  intros H. apply dumps_serializable. simpl. done.
Qed.


Lemma dumps_success_response request_id result :
  serializable request_id →
  match dumps false result with
  | Return _ => ∃ out, dumps false (success_response request_id result) = Return out
  | Raise e => dumps false (success_response request_id result) = Raise e
  end.
Proof.
  intros [rid Hid]%(dumps_serializable false).
  unfold success_response. rewrite dumps_dict. cbv zeta. simpl.
  unfold encode_pair. simpl. rewrite Hid.
  destruct (dumps false result); simpl; [by eexists|done].
Qed.

Section Requests.
Context {St : Type} (call_handler : string → pyobj → St → outcome pyobj * St).

(** X6: A request for a name that is not registered is answered [UNKNOWN_TOOL]
    with the request's id; no handler runs and the state stays as it was. *)
Theorem unknown_tool_not_dispatched request_str items name st :
  loads request_str = Return (PyDict items) →
  dict_get items "name" PyNone = PyStr name →
  name ∉ tool_names →
  ∃ out,
    handle_request call_handler request_str st = (Return out, st) ∧
    dumps false (error_response (dict_get items "id" PyNone)
                   ("Unknown tool: " +:+ name) "UNKNOWN_TOOL") = Return out.
Proof.
  intros Hloads Hname Hnot.
  destruct (dumps_error_response (dict_get items "id" PyNone)
              ("Unknown tool: " +:+ name) "UNKNOWN_TOOL") as [out Hout];
    [by eapply request_id_serializable|].
  exists out. split; [|done].
  unfold handle_request. rewrite Hloads. unfold dispatch. rewrite Hname.
  unfold find_handler. rewrite bool_decide_eq_false_2 by done.
  by rewrite Hout.
Qed.

Lemma handler_outcome_answered request_str items name st result st' :
  loads request_str = Return (PyDict items) →
  dict_get items "name" PyNone = PyStr name →
  name ∈ tool_names →
  call_handler name (dict_get items "parameters" (PyDict [])) st = (result, st') →
  let request_id := dict_get items "id" PyNone in
  let failure e :=
    error_response request_id ("Error processing request: " +:+ exn_msg e)
      "PROCESSING_ERROR" in
  let response :=
    match result with
    | Return r =>
        match dumps false r with
        | Return _ => success_response request_id r
        | Raise e => failure e
        end
    | Raise e => failure e
    end in
  ∃ out, handle_request call_handler request_str st = (Return out, st') ∧
         dumps false response = Return out.
Proof.
  intros Hloads Hname Hin Hcall request_id failure response. subst failure response.
  assert (Hid : serializable request_id) by (by eapply request_id_serializable).
  unfold handle_request. rewrite Hloads. unfold dispatch. rewrite Hname.
  unfold find_handler. rewrite bool_decide_eq_true_2 by done.
  fold request_id. rewrite Hcall.
  destruct result as [r|e].
  - pose proof (dumps_success_response request_id r Hid) as Hs.
    destruct (dumps false r) as [c|e] eqn:Hr.
    + destruct Hs as [out Hout]. rewrite Hout. by exists out.
    + rewrite Hs.
      destruct (dumps_error_response request_id
                  ("Error processing request: " +:+ exn_msg e) "PROCESSING_ERROR" Hid)
        as [out Hout].
      rewrite Hout. by exists out.
  - destruct (dumps_error_response request_id
                ("Error processing request: " +:+ exn_msg e) "PROCESSING_ERROR" Hid)
      as [out Hout].
    rewrite Hout. by exists out.
Qed.

(** X7: A request for a registered tool runs its handler on the request's
    parameters (an empty dict when there are none) and keeps the state the
    handler leaves.  The answer carries the request's id: it is the
    handler's result, or [PROCESSING_ERROR] with the message of the
    exception when the handler raises or returns an object that cannot be
    serialised. *)
Theorem registered_tool_answer request_str items name st result st' :
  loads request_str = Return (PyDict items) →
  dict_get items "name" PyNone = PyStr name →
  name ∈ tool_names →
  call_handler name (dict_get items "parameters" (PyDict [])) st = (result, st') →
  let request_id := dict_get items "id" PyNone in
  let failure e :=
    error_response request_id ("Error processing request: " +:+ exn_msg e)
      "PROCESSING_ERROR" in
  let response :=
    match result with
    | Return r =>
        match dumps false r with
        | Return _ => success_response request_id r
        | Raise e => failure e
        end
    | Raise e => failure e
    end in
  ∃ out, handle_request call_handler request_str st = (Return out, st') ∧
         dumps false response = Return out.
Proof. exact (handler_outcome_answered request_str items name st result st'). Qed.


End Requests.


Lemma unknown_tool_not_dispatched_witness :
  ∃ out,
    handle_request echo_handler (json_text "{'id': 1, 'name': 'get_news'}") () = (Return out, ()) ∧
    dumps false (error_response (PyInt 1) "Unknown tool: get_news" "UNKNOWN_TOOL") = Return out.
Proof.
  apply (unknown_tool_not_dispatched echo_handler
           (json_text "{'id': 1, 'name': 'get_news'}")
           [("id", PyInt 1); ("name", PyStr "get_news")] "get_news" ()).
  - reflexivity.
  - reflexivity.
  - compute_done.
Defined.

Lemma registered_tool_answer_witness :
  ∃ out,
    handle_request echo_handler
      (json_text "{'id': 'a', 'name': 'get_stock_info', 'parameters': {'symbol': '600519'}}") ()
      = (Return out, ()) ∧
    dumps false (success_response (PyStr "a") (PyDict [("symbol", PyStr "600519")]))
      = Return out.
Proof.
  apply (registered_tool_answer echo_handler
           (json_text "{'id': 'a', 'name': 'get_stock_info', 'parameters': {'symbol': '600519'}}")
           [("id", PyStr "a"); ("name", PyStr "get_stock_info");
            ("parameters", PyDict [("symbol", PyStr "600519")])]
           "get_stock_info" () (Return (PyDict [("symbol", PyStr "600519")])) ()).
  - reflexivity.
  - reflexivity.
  - compute_done.
  - reflexivity.
Defined.

End RequestFacts.

(** ** The data handlers and the cache *)

Module HandlerFacts.
Import Json FinanceMCPServer CacheKeyProps JsonFacts RequestFacts.
Local Open Scope Qc_scope.

Section World.
Variable time_at : nat → Qc.
Variable adapter : adapter_call → nat → pyobj.

Abbreviation fetch := (fetch_through_cache time_at adapter).

Lemma data_handlers_fetch tool arguments handler :
  (tool, arguments, handler) ∈ data_handlers time_at adapter →
  handler = fetch tool arguments.
Proof.
  unfold data_handlers. intros H.
  repeat (apply elem_of_cons in H as [[= -> -> ->]|H]; [reflexivity|]).
  by apply elem_of_nil in H.
Qed.

Lemma live_entry_returned tool arguments handler items st key e :
  (tool, arguments, handler) ∈ data_handlers time_at adapter →
  _generate_cache_key tool (PyDict items) = Return key →
  DataCache._cache (cache st) !! key = Some e →
  truthy (DataCache.value e) = true →
  time_at (ticks st) ≤ DataCache.expiry e →
  handler (PyDict items) st =
    (Return (DataCache.value e),
     {| cache := cache st; ticks := S (ticks st); calls := calls st |}).
Proof.
  intros Hin Hkey Hk Ht Hlive. rewrite (data_handlers_fetch _ _ _ Hin).
  unfold fetch_through_cache. simpl. rewrite Hkey.
  unfold cache_get, DataCache.get. rewrite Hk. simpl.
  rewrite (proj2 (CacheProps.past_false _ _) Hlive), andb_false_r. by rewrite Ht.
Qed.

(** X9: A live, truthy cached object is returned as it is: the provider is not
    called and the store does not change. *)
Theorem cache_hit_skips_provider tool arguments handler items st key e :
  (tool, arguments, handler) ∈ data_handlers time_at adapter →
  _generate_cache_key tool (PyDict items) = Return key →
  DataCache._cache (cache st) !! key = Some e →
  truthy (DataCache.value e) = true →
  time_at (ticks st) ≤ DataCache.expiry e →
  handler (PyDict items) st =
    (Return (DataCache.value e),
     {| cache := cache st; ticks := S (ticks st); calls := calls st |}).
Proof. exact (live_entry_returned tool arguments handler items st key e). Qed.


Lemma generate_cache_key_same tool items items' :
  well_formed (PyDict items) → well_formed (PyDict items') →
  same_value (PyDict items) (PyDict items') →
  _generate_cache_key tool (PyDict items') = _generate_cache_key tool (PyDict items).
Proof.
  intros H1 H2 Hs. unfold _generate_cache_key.
  by rewrite (dumps_same_value _ _ Hs H1 H2).
Qed.

(** What the first call of a handler does when the key is not stored. *)
Lemma fetch_on_miss tool arguments items st key :
  _generate_cache_key tool (PyDict items) = Return key →
  DataCache._cache (cache st) !! key = None →
  fetch tool arguments (PyDict items) st =
    (Return (adapter (arguments items) (length (calls st))),
     {| cache := DataCache.set (cache st) key
                   (adapter (arguments items) (length (calls st)))
                   (Some (_get_ttl_for_tool tool)) (time_at (S (ticks st)));
        ticks := S (S (ticks st));
        calls := (calls st ++ [arguments items])%list |}).
Proof.
  intros Hkey Hk. unfold fetch_through_cache. simpl. rewrite Hkey.
  unfold cache_get, DataCache.get. rewrite Hk. reflexivity.
Qed.

(** X10: A request repeated while the entry is live is served from the cache:
    the first call, on a key that is not stored, asks the provider once
    and stores the answer with the TTL of the tool; a second call with the
    same parameters in any order, made before the expiry, returns that
    answer without asking the provider, provided the answer is truthy. *)
Theorem repeated_request_served_from_cache
    tool arguments handler items items' st key later :
  (tool, arguments, handler) ∈ data_handlers time_at adapter →
  well_formed (PyDict items) → well_formed (PyDict items') →
  same_value (PyDict items) (PyDict items') →
  _generate_cache_key tool (PyDict items) = Return key →
  DataCache._cache (cache st) !! key = None →
  truthy (adapter (arguments items) (length (calls st))) = true →
  time_at later ≤ time_at (S (ticks st)) + Qc_of_Z (_get_ttl_for_tool tool) →
  ∃ st1,
    handler (PyDict items) st =
      (Return (adapter (arguments items) (length (calls st))), st1) ∧
    calls st1 = (calls st ++ [arguments items])%list ∧
    handler (PyDict items') {| cache := cache st1; ticks := later; calls := calls st1 |} =
      (Return (adapter (arguments items) (length (calls st))),
       {| cache := cache st1; ticks := S later; calls := calls st1 |}).
Proof.
  intros Hin Hwf Hwf' Hsame Hkey Hmiss Htruthy Hlive.
  eexists. split; [|split].
  - rewrite (data_handlers_fetch _ _ _ Hin). by apply fetch_on_miss.
  - reflexivity.
  - simpl.
    apply (live_entry_returned tool arguments handler items'
             {| cache := _; ticks := later; calls := _ |} key
             {| DataCache.value := adapter (arguments items) (length (calls st));
                DataCache.expiry := time_at (S (ticks st))
                                    + Qc_of_Z (_get_ttl_for_tool tool) |});
      try done.
    + by rewrite (generate_cache_key_same tool items items').
    + simpl. apply lookup_insert_eq.
Qed.

(** X11: A falsy answer (an empty dict or list, [None], ...) is stored but never
    served: the next call with the same parameters asks the provider
    again, whenever it comes. *)
Theorem falsy_answer_fetched_again
    tool arguments handler items items' st key later :
  (tool, arguments, handler) ∈ data_handlers time_at adapter →
  well_formed (PyDict items) → well_formed (PyDict items') →
  same_value (PyDict items) (PyDict items') →
  _generate_cache_key tool (PyDict items) = Return key →
  DataCache._cache (cache st) !! key = None →
  truthy (adapter (arguments items) (length (calls st))) = false →
  ∃ st1 result' st2,
    handler (PyDict items) st =
      (Return (adapter (arguments items) (length (calls st))), st1) ∧
    handler (PyDict items') {| cache := cache st1; ticks := later; calls := calls st1 |} =
      (Return result', st2) ∧
    calls st2 = (calls st ++ [arguments items; arguments items'])%list.
Proof.
  intros Hin Hwf Hwf' Hsame Hkey Hmiss Hfalsy.
  rewrite (data_handlers_fetch _ _ _ Hin).
  rewrite (fetch_on_miss tool arguments items st key Hkey Hmiss).
  eexists. cbn [cache calls].
  assert (Hagain : ∃ result' st2,
             fetch tool arguments (PyDict items')
               {| cache := DataCache.set (cache st) key
                             (adapter (arguments items) (length (calls st)))
                             (Some (_get_ttl_for_tool tool)) (time_at (S (ticks st)));
                  ticks := later;
                  calls := (calls st ++ [arguments items])%list |}
             = (Return result', st2) ∧
             calls st2 = (calls st ++ [arguments items; arguments items'])%list).
  { unfold fetch_through_cache. simpl.
    rewrite (generate_cache_key_same tool items items' Hwf Hwf' Hsame), Hkey.
    unfold cache_get, DataCache.get. simpl. rewrite lookup_insert_eq. simpl.
    destruct (DataCache.truthy _ && DataCache.past _ _); simpl;
      rewrite ?Hfalsy; eexists _, _; (split; [reflexivity|]); simpl;
      by rewrite <- app_assoc. }
  destruct Hagain as (result' & st2 & Hcall & Hcalls).
  exists result', st2. split; [reflexivity|]. by split.
Qed.

(** Parameters that are not an object make a data handler raise on its
    first line, before the cache or the provider is touched. *)
Theorem non_object_parameters_raise tool arguments handler params st :
  (tool, arguments, handler) ∈ data_handlers time_at adapter →
  (∀ items, params ≠ PyDict items) →
  handler params st =
    (Raise (Exn "AttributeError"
              ("'" +:+ type_name params +:+ "' object has no attribute 'get'")), st).
Proof.
  intros Hin Hnot. rewrite (data_handlers_fetch _ _ _ Hin).
  unfold fetch_through_cache. destruct params; try done. by destruct (Hnot items).
Qed.

End World.

Lemma repeated_request_served_from_cache_witness :
  let answer := PyDict [("name", PyStr "Moutai")] in
  let first := [("symbol", PyStr "600519"); ("market", PyStr "A")] in
  let second := [("market", PyStr "A"); ("symbol", PyStr "600519")] in
  ∃ st1,
    _handle_get_stock_info seconds (answering answer) (PyDict first) fresh_server
      = (Return answer, st1) ∧
    calls st1 = [GetStockInfo (PyStr "600519") (PyStr "A")] ∧
    _handle_get_stock_info seconds (answering answer) (PyDict second)
      {| cache := cache st1; ticks := 3600; calls := calls st1 |}
      = (Return answer, {| cache := cache st1; ticks := 3601; calls := calls st1 |}).
Proof.
  intros answer first second.
  eapply (repeated_request_served_from_cache seconds (answering answer)
            "get_stock_info" stock_info_arguments _ first second fresh_server).
  - by left.
  - simpl. split; [compute_done|done].
  - simpl. split; [compute_done|done].
  - apply same_value_perm, perm_swap.
  - reflexivity.
  - reflexivity.
  - reflexivity.
  - discriminate.
Defined.

Lemma falsy_answer_fetched_again_witness :
  let params := [("industry", PyStr "bank")] in
  ∃ st1 result' st2,
    _handle_get_industry_analysis seconds (answering (PyDict [])) (PyDict params) fresh_server
      = (Return (PyDict []), st1) ∧
    _handle_get_industry_analysis seconds (answering (PyDict [])) (PyDict params)
      {| cache := cache st1; ticks := 2; calls := calls st1 |} = (Return result', st2) ∧
    calls st2 = [GetIndustryAnalysis (PyStr "bank") PyNone;
                 GetIndustryAnalysis (PyStr "bank") PyNone].
Proof.
  intros params.
  eapply (falsy_answer_fetched_again seconds (answering (PyDict []))
            "get_industry_analysis" industry_analysis_arguments _ params params fresh_server).
  - do 3 right. by left.
  - simpl. split; [compute_done|done].
  - simpl. split; [compute_done|done].
  - apply same_refl.
  - reflexivity.
  - reflexivity.
  - reflexivity.
Defined.

Lemma cache_hit_skips_provider_witness :
  let e := {| DataCache.value := PyList [PyInt 1]; DataCache.expiry := Qc_of_Z 10 |} in
  let st := {| cache := {| DataCache._cache := {["get_stock_price:{}" := e]};
                           DataCache._default_ttl := 3600 |};
               ticks := 5; calls := [] |} in
  _handle_get_stock_price seconds (answering PyNone) (PyDict []) st =
    (Return (PyList [PyInt 1]), {| cache := cache st; ticks := 6; calls := [] |}).
Proof.
  intros e st.
  apply (cache_hit_skips_provider seconds (answering PyNone)
           "get_stock_price" stock_price_arguments _ [] st "get_stock_price:{}" e).
  - right. by left.
  - reflexivity.
  - apply lookup_singleton_eq.
  - reflexivity.
  - discriminate.
Defined.

Lemma non_object_parameters_raise_witness :
  _handle_get_stock_info seconds (answering PyNone) (PyList [PyInt 1]) fresh_server =
    (Raise (Exn "AttributeError" "'list' object has no attribute 'get'"), fresh_server).
Proof.
  apply (non_object_parameters_raise seconds (answering PyNone)
           "get_stock_info" stock_info_arguments).
  - by left.
  - discriminate.
Defined.

Lemma registered_data_handler time_at adapter computing tool arguments handler :
  (tool, arguments, handler) ∈ data_handlers time_at adapter →
  registered_handler time_at adapter computing tool = handler ∧ tool ∈ tool_names.
Proof.
  unfold data_handlers. intros H.
  repeat (apply elem_of_cons in H as [[= -> -> ->]|H]; [split; [reflexivity|compute_done]|]).
  by apply elem_of_nil in H.
Qed.

(** X12: A request to a data tool whose ["parameters"] is not an object is
    answered [PROCESSING_ERROR] with the request's id; the cache is not
    read and the provider is not called. *)
Theorem non_object_parameters_answer
    time_at adapter computing request_str items tool arguments handler st :
  loads request_str = Return (PyDict items) →
  dict_get items "name" PyNone = PyStr tool →
  (tool, arguments, handler) ∈ data_handlers time_at adapter →
  (∀ fields, dict_get items "parameters" (PyDict []) ≠ PyDict fields) →
  ∃ out,
    handle_request (registered_handler time_at adapter computing) request_str st
      = (Return out, st) ∧
    dumps false
      (error_response (dict_get items "id" PyNone)
         ("Error processing request: '"
            +:+ type_name (dict_get items "parameters" (PyDict []))
            +:+ "' object has no attribute 'get'")
         "PROCESSING_ERROR") = Return out.
Proof.
  intros Hloads Hname Hin Hnot.
  destruct (registered_data_handler time_at adapter computing _ _ _ Hin) as [Hh Hreg].
  apply (handler_outcome_answered (registered_handler time_at adapter computing)
           request_str items tool st
           (Raise (Exn "AttributeError"
                     ("'" +:+ type_name (dict_get items "parameters" (PyDict []))
                          +:+ "' object has no attribute 'get'"))) st Hloads Hname Hreg).
  rewrite Hh. by apply (non_object_parameters_raise time_at adapter tool arguments).
Qed.

Lemma non_object_parameters_answer_witness :
  ∃ out,
    handle_request (registered_handler seconds (answering PyNone) no_computing)
      (json_text "{'id': 9, 'name': 'get_stock_info', 'parameters': [1]}") fresh_server
      = (Return out, fresh_server) ∧
    dumps false
      (error_response (PyInt 9)
         "Error processing request: 'list' object has no attribute 'get'"
         "PROCESSING_ERROR") = Return out.
Proof.
  apply (non_object_parameters_answer seconds (answering PyNone) no_computing
           (json_text "{'id': 9, 'name': 'get_stock_info', 'parameters': [1]}")
           [("id", PyInt 9); ("name", PyStr "get_stock_info");
            ("parameters", PyList [PyInt 1])]
           "get_stock_info" stock_info_arguments
           (_handle_get_stock_info seconds (answering PyNone)) fresh_server).
  - reflexivity.
  - reflexivity.
  - by left.
  - discriminate.
Defined.

End HandlerFacts.

(** ** Fundamental engine: what every statement gives *)

Module FundamentalFacts.
Import Float FundamentalAnalysisEngine FundamentalProps.
Local Open Scope Qc_scope.




Ltac run_plain a d :=
  let r := fresh "r" in
  let Hr := fresh "Hr" in
  destruct (ratio_returns a d) as [r Hr]; rewrite Hr; clear Hr.

Ltac keys :=
  cbv beta iota zeta; eexists; split; [reflexivity|];
  rewrite !dom_insert_L, dom_empty_L; set_solver.

Lemma categories_compute
    (balance_data income_data : period) (prev : option period) (price shares : fl) :
  (∃ m, calculate_profitability_ratios income_data = Ratios m ∧
        dom m = {["gross_margin"; "operating_margin"; "net_margin"]}) ∧
  (∃ m, calculate_liquidity_ratios balance_data = Ratios m ∧
        dom m = {["current_ratio"; "quick_ratio"; "cash_ratio"]}) ∧
  (∃ m, calculate_solvency_ratios balance_data income_data = Ratios m ∧
        dom m = {["debt_ratio"; "debt_to_equity"; "interest_coverage"]}) ∧
  (∃ m, calculate_efficiency_ratios balance_data income_data prev = Ratios m ∧
        dom m = {["inventory_turnover"; "asset_turnover"; "return_on_assets"]}) ∧
  (∃ m, calculate_market_ratios income_data balance_data price shares = Ratios m ∧
        dom m = {["eps"; "pe_ratio"; "book_value_per_share"; "pb_ratio"; "market_cap"]}).
Proof.
  split; [|split; [|split; [|split]]].
  - unfold calculate_profitability_ratios. unfold_guard.
    repeat match goal with |- context [ratio ?a ?d] => run_plain a d end. keys.
  - unfold calculate_liquidity_ratios. unfold_guard.
    repeat match goal with |- context [ratio ?a ?d] => run_plain a d end. keys.
  - unfold calculate_solvency_ratios. unfold_guard.
    repeat match goal with |- context [ratio ?a ?d] => run_plain a d end. keys.
  - unfold calculate_efficiency_ratios. unfold_guard.
    repeat match goal with |- context [ratio ?a ?d] => run_plain a d end. keys.
  - unfold calculate_market_ratios. unfold_guard.
    run_plain (get income_data "净利润") shares. cbv beta iota zeta.
    match goal with |- context [ratio price ?d] => run_plain price d end.
    cbv beta iota zeta.
    match goal with |- context [ratio ?a shares] => run_plain a shares end.
    cbv beta iota zeta.
    match goal with |- context [ratio price ?d] => run_plain price d end.
    keys.
Qed.

(** X13: Every category computes on every statement of numbers: no exception reaches the
    [except] clause, and the result has exactly the keys of the category. *)
Theorem categories_never_fail
    (balance_data income_data : period) (prev : option period) (price shares : fl) :
  (∃ m, calculate_profitability_ratios income_data = Ratios m ∧
        dom m = {["gross_margin"; "operating_margin"; "net_margin"]}) ∧
  (∃ m, calculate_liquidity_ratios balance_data = Ratios m ∧
        dom m = {["current_ratio"; "quick_ratio"; "cash_ratio"]}) ∧
  (∃ m, calculate_solvency_ratios balance_data income_data = Ratios m ∧
        dom m = {["debt_ratio"; "debt_to_equity"; "interest_coverage"]}) ∧
  (∃ m, calculate_efficiency_ratios balance_data income_data prev = Ratios m ∧
        dom m = {["inventory_turnover"; "asset_turnover"; "return_on_assets"]}) ∧
  (∃ m, calculate_market_ratios income_data balance_data price shares = Ratios m ∧
        dom m = {["eps"; "pe_ratio"; "book_value_per_share"; "pb_ratio"; "market_cap"]}).
Proof. exact (categories_compute balance_data income_data prev price shares). Qed.



(** X15: [analyze_financial_statements] answers with the one error when a
    required statement has no period; otherwise with the four categories in
    order, followed by the market ratios exactly when both the price and the
    number of shares are given (zero included), and no category is an
    error. *)
Theorem analysis_shape
    (balance_sheet income_statement : list period) (price shares : option fl) :
  match balance_sheet, income_statement with
  | [], _ | _, [] =>
      analyze_financial_statements balance_sheet income_statement price shares
      = AnalysisError "Missing required financial statements"
  | _ :: _, _ :: _ =>
      ∃ categories,
        analyze_financial_statements balance_sheet income_statement price shares
        = Analysis categories ∧
        categories.*1
        = (["profitability_ratios"; "liquidity_ratios"; "solvency_ratios";
            "efficiency_ratios"]
           ++ (if bool_decide (is_Some price ∧ is_Some shares)
               then ["market_ratios"] else []))%list ∧
        Forall (λ c, ∃ m, snd c = Ratios m) categories
  end.
Proof.
  destruct balance_sheet as [|b bs], income_statement as [|i more]; try reflexivity.
  unfold analyze_financial_statements.
  destruct (categories_compute b i (head bs) (default NaN price) (default NaN shares))
    as ((mp & Hp & _) & (ml & Hl & _) & (ms & Hs & _) & (me & He & _) & (mm & Hm & Hdom)).
  rewrite Hp, Hl, Hs, He. cbv zeta.
  destruct price as [p|], shares as [s|]; simpl in Hm.
  - rewrite Hm. rewrite bool_decide_eq_true_2 by (split; by eexists).
    assert (mm ≠ ∅) as Hne.
    { intros ->. rewrite dom_empty_L in Hdom. set_solver. }
    unfold nonempty. rewrite bool_decide_eq_false_2 by done.
    eexists. split; [reflexivity|]. split; [reflexivity|].
    repeat constructor; by eexists.
  - rewrite bool_decide_eq_false_2 by (intros [_ [? [=]]]).
    eexists. split; [reflexivity|]. split; [reflexivity|].
    repeat constructor; by eexists.
  - rewrite bool_decide_eq_false_2 by (intros [[? [=]] _]).
    eexists. split; [reflexivity|]. split; [reflexivity|].
    repeat constructor; by eexists.
  - rewrite bool_decide_eq_false_2 by (intros [[? [=]] _]).
    eexists. split; [reflexivity|]. split; [reflexivity|].
    repeat constructor; by eexists.
Qed.

(** X16: A previous period that does not report its total assets changes
    nothing: the efficiency ratios are those of the current period alone. *)
Theorem previous_period_without_total_assets
    (balance_data income_data prev : period) :
  prev !! "资产总计" = None →
  calculate_efficiency_ratios balance_data income_data (Some prev)
  = calculate_efficiency_ratios balance_data income_data None.
Proof.
  intros Hprev.
  assert (avg_total_assets balance_data (Some prev) = avg_total_assets balance_data None)
    as Havg.
  { unfold avg_total_assets. case_bool_decide; [done|]. rewrite Hprev. simpl.
    destruct (get balance_data "资产总计") as [q| | |]; try reflexivity.
    simpl. f_equal.
    assert (Qc_of_Z 2 = 1 + 1) as -> by by apply Qc_is_canon.
    field. by intros [=]. }
  unfold calculate_efficiency_ratios. by rewrite Havg.
Qed.


Lemma previous_period_without_total_assets_witness :
  calculate_efficiency_ratios example_balance example_income
    (Some (<["存货" := of_Z 70]> ∅))
  = calculate_efficiency_ratios example_balance example_income None.
Proof. apply previous_period_without_total_assets. reflexivity. Defined.

Lemma round2_100 : round2 (Fin (Qc_of_Z 1 * Qc_of_Z 100)) = of_Z 100.
Proof. unfold round2, of_Z. f_equal. by apply Qc_is_canon. Qed.

(** X17: With a revenue but neither a gross profit nor a cost of sales in the
    income statement, the gross margin comes out as 100 percent: the whole
    revenue stands in for the gross profit. *)
Theorem gross_margin_without_costs (income_data : period) (revenue : Qc) :
  total_revenue income_data = Fin revenue → revenue ≠ 0 →
  zero_or_absent income_data "毛利润" → zero_or_absent income_data "营业成本" →
  ∃ m, calculate_profitability_ratios income_data = Ratios m ∧
       m !! "gross_margin" = Some (of_Z 100).
Proof.
  intros Hrev Hnz Hgross%get_zero_or_absent Hcost%get_zero_or_absent.
  unfold calculate_profitability_ratios. unfold_guard.
  rewrite Hrev, Hgross, Hcost.
  assert (or_else (of_Z 0) (sub (Fin revenue) (of_Z 0)) = Fin revenue) as ->.
  { unfold or_else. rewrite truthy_zero. unfold sub, neg, add, of_Z. f_equal.
    assert (Qc_of_Z 0 = 0) as -> by by apply Qc_is_canon. ring. }
  assert (ratio (Fin revenue) (Fin revenue) = Return (Fin (Qc_of_Z 1))) as ->.
  { unfold ratio, py_div. simpl. rewrite bool_decide_eq_true_2 by done.
    rewrite bool_decide_eq_false_2 by done. do 2 f_equal.
    assert (Qc_of_Z 1 = 1) as -> by by apply Qc_is_canon. by field. }
  run_plain (get income_data "营业利润") (Fin revenue).
  run_plain (get income_data "净利润") (Fin revenue).
  cbv beta iota zeta. eexists. split; [reflexivity|].
  rewrite lookup_insert_eq. f_equal. exact round2_100.
Qed.

Lemma gross_margin_without_costs_witness :
  ∃ m, calculate_profitability_ratios
         (<["营业收入" := of_Z 800]> (<["净利润" := of_Z 90]> ∅)) = Ratios m ∧
       m !! "gross_margin" = Some (of_Z 100).
Proof.
  apply (gross_margin_without_costs _ (Qc_of_Z 800)).
  - reflexivity.
  - by intros [=].
  - left. reflexivity.
  - left. reflexivity.
Defined.

End FundamentalFacts.

(** ** Technical engine: the shape and the values of the series *)

Module SeriesFacts.
Import Float Pandas TechnicalAnalysisEngine SeriesProps IndicatorProps.
Local Open Scope Qc_scope.

Lemma length_prep xs : length (prep xs) = length xs.
Proof. unfold prep. by rewrite length_fmap. Qed.

Lemma length_ewm_go alpha state xs : length (ewm_go alpha state xs) = length xs.
Proof.
  revert state. induction xs as [|x xs IH]; intros state; [done|].
  cbn [ewm_go]. cbv zeta. cbn [length]. by rewrite IH.
Qed.

Lemma length_ewm_mean span xs : length (ewm_mean span xs) = length xs.
Proof.
  unfold ewm_mean. rewrite <- (length_prep xs).
  destruct (prep xs); [done|]. cbn [length]. by rewrite length_ewm_go.
Qed.

Lemma length_shift xs : length (shift xs) = length xs.
Proof.
  unfold shift. destruct xs as [|x xs]; [done|].
  cbn [length]. rewrite length_take. cbn [length]. lia.
Qed.

Lemma length_diff xs : length (diff xs) = length xs.
Proof. unfold diff. rewrite length_zip_with, length_shift. lia. Qed.

Lemma length_where cond other xs : length (where_ cond other xs) = length xs.
Proof. unfold where_. by rewrite length_fmap. Qed.

Lemma length_fillna value xs : length (fillna value xs) = length xs.
Proof. unfold fillna. by rewrite length_fmap. Qed.

Lemma length_cumsum_from acc xs : length (cumsum_from acc xs) = length xs.
Proof.
  revert acc. induction xs as [|x xs IH]; intros acc; [done|].
  cbn [cumsum_from]. cbv zeta. cbn [length]. by rewrite IH.
Qed.

Lemma length_cumsum xs : length (cumsum xs) = length xs.
Proof. apply length_cumsum_from. Qed.

Lemma length_row_max3 a b c n :
  length a = n → length b = n → length c = n → length (row_max3 a b c) = n.
Proof.
  intros. unfold row_max3. rewrite length_zip_with, length_zip. lia.
Qed.

Lemma length_rsi_of close : length (rsi_of close) = length close.
Proof.
  unfold rsi_of. rewrite length_fmap, length_zip_with, !length_rolling, length_fmap,
    !length_where, length_diff. lia.
Qed.

Lemma col_rows n df name xs : rows n df → col df name = Return xs → length xs = n.
Proof.
  intros Hrows. induction Hrows as [|[c ys] df Hc _ IH]; [done|].
  cbn [col]. destruct (String.eqb c name); [|done]. by intros [= <-].
Qed.

Lemma rename_rows n df mapping : rows n df → rows n (rename df mapping).
Proof.
  unfold rows, rename. rewrite Forall_fmap. intros H.
  eapply Forall_impl; [exact H|done].
Qed.

Ltac lengths :=
  repeat first
    [ done
    | rewrite length_fmap | rewrite length_rolling | rewrite length_ewm_mean
    | rewrite length_shift | rewrite length_diff | rewrite length_where
    | rewrite length_fillna | rewrite length_cumsum | rewrite length_rsi_of
    | apply length_row_max3 | apply length_zip_with_same ].

Ltac take_column df name :=
  let xs := fresh "xs" in
  let H := fresh "H" in
  let Hl := fresh "Hl" in
  destruct (col df name) as [xs|] eqn:H;
  [pose proof (col_rows _ _ _ _ ltac:(eassumption) H) as Hl; clear H|].

(** What a branch computes on a frame of [n] rows has [n] rows. *)
Lemma branch_aligned n df name body e :
  rows n df → (name, body) ∈ branches → body df = Return e → aligned n e.
Proof.
  intros Hrows Hin.
  unfold branches in Hin.
  repeat (apply elem_of_cons in Hin as [[= -> ->]|Hin]); [..|by apply elem_of_nil in Hin].
  all: unfold moving_averages, exponential_moving_averages, macd, rsi, bollinger, atr,
    stochastic, obv, periods; cbn [foldl];
    unfold mbind, outcome_bind, mret, outcome_ret.
  all: try case_bool_decide.
  all: repeat match goal with
       | |- context [col ?d ?name] => take_column d name; [|discriminate]
       end.
  all: intros [= <-]; cbn [aligned app].
  all: repeat (apply Forall_cons; split); try apply Forall_nil; cbn [snd].
  all: lengths.
Qed.

(** X18: Every series that [process_indicators] returns has one value per row of
    the price frame. *)
Theorem series_aligned_with_rows n price_df indicators m :
  rows n price_df →
  process_indicators price_df indicators = Indicators m →
  map_Forall (λ _ e, aligned n e) m.
Proof.
  intros Hrows. unfold process_indicators.
  destruct (size (column_mapping price_df) <? 4)%nat; [done|]. intros [= <-].
  apply (rename_rows _ _ (column_mapping price_df)) in Hrows.
  generalize dependent (rename price_df (column_mapping price_df)). intros df Hrows.
  assert (Hinit : map_Forall (λ _ e, aligned n e) (∅ : gmap string entry))
    by apply map_Forall_empty.
  revert Hinit. generalize (∅ : gmap string entry).
  induction indicators as [|i indicators IH]; intros acc Hacc; [done|].
  cbn [foldl]. apply IH. rewrite process_indicator_entry.
  unfold entry_of. destruct (select (upper i) branches) as [[key body]|] eqn:Hsel; [|done].
  apply select_Some in Hsel as [_ Hin].
  destruct (body df) as [e|err] eqn:Hbody.
  - apply map_Forall_insert_2; [|done]. by eapply branch_aligned.
  - by apply map_Forall_insert_2.
Qed.

Lemma series_aligned_with_rows_witness :
  ∃ m, process_indicators example_frame ["OBV"; "macd"; "Stochastic"] = Indicators m ∧
       map_Forall (λ _ e, aligned 3 e) m.
Proof.
  destruct (process_indicators example_frame ["OBV"; "macd"; "Stochastic"])
    as [error|m] eqn:E.
  - vm_compute in E. discriminate.
  - exists m. split; [reflexivity|].
    apply (series_aligned_with_rows 3 example_frame ["OBV"; "macd"; "Stochastic"] m).
    + repeat constructor.
    + exact E.
Defined.

Lemma foldl_process_indicator_lookup_inv df indicators m key e :
  foldl (process_indicator df) m indicators !! key = Some e →
  m !! key = Some e ∨ ∃ i, i ∈ indicators ∧ entry_of df i = Some (key, e).
Proof.
  revert m. induction indicators as [|i indicators IH]; intros m; [by left|].
  cbn [foldl]. intros [H|(j & Hj & He)]%IH.
  - rewrite process_indicator_entry in H.
    destruct (entry_of df i) as [[k e']|] eqn:Hi; [|by left].
    apply lookup_insert_Some in H as [[<- <-]|[_ H]]; [|by left].
    right. exists i. split; [constructor|done].
  - right. exists j. split; [by constructor|done].
Qed.

(** X19: The answer depends on which indicators are requested, not on their
    order or on how often one is named. *)
Theorem request_order_irrelevant price_df indicators indicators' :
  (∀ i, i ∈ indicators ↔ i ∈ indicators') →
  process_indicators price_df indicators = process_indicators price_df indicators'.
Proof.
  intros Hsame. unfold process_indicators.
  destruct (size (column_mapping price_df) <? 4)%nat; [done|]. cbv zeta. f_equal.
  generalize (rename price_df (column_mapping price_df)). intros df.
  assert (Hsub : ∀ l l' : list string, (∀ i, i ∈ l → i ∈ l') → ∀ key e,
            foldl (process_indicator df) ∅ l !! key = Some e →
            foldl (process_indicator df) ∅ l' !! key = Some e).
  { intros l l' Hin key e [H|(i & Hi & He)]%foldl_process_indicator_lookup_inv.
    - by rewrite lookup_empty in H.
    - eapply foldl_process_indicator_lookup; [apply Hin, Hi|done]. }
  apply map_eq. intros key. apply option_eq. intros e. split; apply Hsub; intros i; apply Hsame.
Qed.

Lemma request_order_irrelevant_witness :
  process_indicators example_frame ["OBV"; "rsi"; "OBV"; "vwap"]
  = process_indicators example_frame ["vwap"; "rsi"; "OBV"].
Proof.
  apply request_order_irrelevant. intros i. rewrite !elem_of_cons, !elem_of_nil. tauto.
Defined.


Lemma prep_lookup_NaN xs j : xs !! j = Some NaN → prep xs !! j = Some NaN.
Proof. intros H. unfold prep. by rewrite list_lookup_fmap, H. Qed.

Lemma finite_values_missing xs j : xs !! j = Some NaN → finite_values xs = None.
Proof.
  intros H. unfold finite_values.
  destruct (mapM _ xs) as [qs|] eqn:E; [|done].
  apply mapM_Some in E.
  destruct (Forall2_lookup_l _ _ _ _ _ E H) as (q & _ & Hq). done.
Qed.

(** A window that holds a missing value gives a missing value. *)
Lemma rolling_missing w agg xs i j :
  (i < length xs)%nat → (i + 1 - w ≤ j ≤ i)%nat → xs !! j = Some NaN →
  rolling w agg xs !! i = Some NaN.
Proof.
  intros Hi Hj Hnan. unfold rolling. rewrite list_lookup_imap.
  destruct (prep xs !! i) eqn:Hl; simpl.
  - destruct (i + 1 <? w)%nat eqn:Hw; [done|]. apply Nat.ltb_ge in Hw.
    rewrite (finite_values_missing _ (j - (i + 1 - w))); [done|].
    unfold window. rewrite lookup_take_lt by lia. rewrite lookup_drop.
    replace (i + 1 - w + (j - (i + 1 - w)))%nat with j by lia.
    by apply prep_lookup_NaN.
  - apply lookup_ge_None in Hl. rewrite length_prep in Hl. lia.
Qed.

Lemma rsi_row_NaN : rsi_row NaN = NaN.
Proof. reflexivity. Qed.

Lemma lookup_zip_with_Some' {A B C} (f : A → B → C) a b i x y :
  a !! i = Some x → b !! i = Some y → zip_with f a b !! i = Some (f x y).
Proof. intros Ha Hb. rewrite lookup_zip_with, Ha. simpl. by rewrite Hb. Qed.

Lemma lookup_lt_is_Some' {A} (l : list A) i : (i < length l)%nat → ∃ x, l !! i = Some x.
Proof. intros H. by apply lookup_lt_is_Some in H as [x Hx]; exists x. Qed.

Lemma mul_NaN_r x : mul x NaN = NaN.
Proof. destruct x as [q| | |]; try reflexivity. unfold mul. simpl. by destruct (q ?= 0). Qed.

Lemma mul_NaN_l y : mul NaN y = NaN.
Proof. destruct y as [q| | |]; try reflexivity. unfold mul. simpl. by destruct (q ?= 0). Qed.

Lemma add_NaN_r x : add x NaN = NaN.
Proof. by destruct x. Qed.

Lemma sub_NaN_r x : sub x NaN = NaN.
Proof. by destruct x. Qed.

(** X20: The rows before an indicator has its full window are missing: 13 rows
    of RSI, ATR and the stochastic K line, 15 of the D line and 19 of the
    three Bollinger bands. *)
Theorem warm_up_rows (n : nat) df close high low :
  col df "close" = Return close → col df "high" = Return high →
  col df "low" = Return low →
  length close = n → length high = n → length low = n →
  (∃ xs, rsi df = Return (Series xs) ∧
         ∀ i, (i < 13)%nat → (i < n)%nat → xs !! i = Some NaN) ∧
  (∃ xs, atr df = Return (Series xs) ∧
         ∀ i, (i < 13)%nat → (i < n)%nat → xs !! i = Some NaN) ∧
  (∃ k d, stochastic df = Return (Lines [("k_line", k); ("d_line", d)]) ∧
          (∀ i, (i < 13)%nat → (i < n)%nat → k !! i = Some NaN) ∧
          (∀ i, (i < 15)%nat → (i < n)%nat → d !! i = Some NaN)) ∧
  (∃ middle upper lower,
     bollinger df = Return (Lines [("middle_band", middle); ("upper_band", upper);
                                   ("lower_band", lower)]) ∧
     ∀ i, (i < 19)%nat → (i < n)%nat →
          middle !! i = Some NaN ∧ upper !! i = Some NaN ∧ lower !! i = Some NaN).
Proof.
  intros Hc Hh Hl Hnc Hnh Hnl.
  split; [|split; [|split]].
  - eexists. split; [by apply rsi_eq|]. intros i Hi Hin.
    unfold rsi_of. rewrite list_lookup_fmap.
    rewrite (lookup_zip_with_Some' _ _ _ _ NaN NaN).
    + reflexivity.
    + apply rolling_warmup; [lia|]. rewrite length_where, length_diff. lia.
    + apply rolling_warmup; [lia|]. rewrite length_fmap, length_where, length_diff. lia.
  - unfold atr, mbind, outcome_bind, mret, outcome_ret. rewrite Hh, Hl, Hc.
    eexists. split; [reflexivity|]. intros i Hi Hin.
    apply rolling_warmup; [lia|].
    rewrite (length_row_max3 _ _ _ n); lengths.
  - unfold stochastic, mbind, outcome_bind, mret, outcome_ret. rewrite Hh, Hl, Hc.
    eexists _, _. split; [reflexivity|].
    assert (Hk : ∀ i, (i < 13)%nat → (i < n)%nat →
              (mul (of_Z 100) <$>
                 zip_with div (zip_with sub close (rolling 14 least low))
                   (zip_with sub (rolling 14 greatest high) (rolling 14 least low)))
              !! i = Some NaN).
    { intros i Hi Hin. rewrite list_lookup_fmap.
      destruct (lookup_lt_is_Some' close i) as [c Hci]; [lia|].
      rewrite (lookup_zip_with_Some' _ _ _ _ NaN NaN).
      - reflexivity.
      - rewrite (lookup_zip_with_Some' _ _ _ _ c NaN); [by rewrite sub_NaN_r|done|].
        apply rolling_warmup; lia.
      - rewrite (lookup_zip_with_Some' _ _ _ _ NaN NaN); [done| |];
          apply rolling_warmup; lia. }
    split; [exact Hk|]. intros i Hi Hin.
    destruct (decide (i < 2)%nat).
    + apply rolling_warmup; [lia|].
      rewrite length_fmap, !length_zip_with, !length_rolling. lia.
    + apply (rolling_missing _ _ _ _ (i - 2)); [|lia|apply Hk; lia].
      rewrite length_fmap, !length_zip_with, !length_rolling. lia.
  - unfold bollinger, mbind, outcome_bind, mret, outcome_ret. rewrite Hc.
    eexists _, _, _. split; [reflexivity|]. intros i Hi Hin.
    assert (rolling 20 mean close !! i = Some NaN) as Hm by (apply rolling_warmup; lia).
    assert (rolling 20 std close !! i = Some NaN) as Hs by (apply rolling_warmup; lia).
    split; [done|].
    split; (rewrite (lookup_zip_with_Some' _ _ _ _ NaN (mul NaN (of_Z 2)));
            [done|done|by rewrite list_lookup_fmap, Hs]).
Qed.

Lemma warm_up_rows_witness :
  let df := rename example_frame (column_mapping example_frame) in
  ∃ xs, rsi df = Return (Series xs) ∧
        ∀ i, (i < 13)%nat → (i < 3)%nat → xs !! i = Some NaN.
Proof.
  exact (proj1 (warm_up_rows 3 (rename example_frame (column_mapping example_frame))
                  (of_Z <$> [11; 12; 11]%Z) (of_Z <$> [12; 13; 13]%Z)
                  (of_Z <$> [9; 10; 11]%Z)
                  eq_refl eq_refl eq_refl eq_refl eq_refl eq_refl)).
Defined.


Import SeriesClaims.

Lemma loss_numbers_any (q : Qc) (qs : list Qc) :
  neg <$> where_ (λ d, ltb d (of_Z 0)) (of_Z 0) (diff (Fin <$> q :: qs))
  = Fin <$> losses (q :: qs).
Proof.
  rewrite diff_numbers. unfold where_, losses. rewrite !fmap_cons. f_equal.
  rewrite <- !list_fmap_compose. apply list_fmap_ext. intros i d _. simpl.
  by destruct (bool_decide _).
Qed.

Lemma losses_nonneg closes : Forall (λ l, 0 ≤ l) (losses closes).
Proof.
  unfold losses. rewrite Z2Qc_inj_0. constructor; [done|].
  apply Forall_fmap, Forall_true. intros d. simpl.
  case_bool_decide as Hd; [|done].
  apply (Qcplus_le_mono_l _ _ d). rewrite Qcplus_opp_r, Qcplus_0_r.
  by apply Qclt_le_weak.
Qed.

Lemma length_gains closes : closes ≠ [] → length (gains closes) = length closes.
Proof.
  destruct closes as [|q qs]; [done|]. intros _.
  unfold gains, deltas. simpl. rewrite length_fmap, length_zip_with. simpl. lia.
Qed.

Lemma length_losses closes : closes ≠ [] → length (losses closes) = length closes.
Proof.
  destruct closes as [|q qs]; [done|]. intros _.
  unfold losses, deltas. simpl. rewrite length_fmap, length_zip_with. simpl. lia.
Qed.


Lemma rsi_row_on_scale (g l : Qc) : 0 ≤ g → 0 ≤ l → on_scale (rsi_row (div (Fin g) (Fin l))).
Proof.
  intros Hg Hl. destruct (decide (l = 0)) as [->|Hnz].
  - destruct (rsi_value_no_loss g Hg) as [-> | ->]; [|by left].
    right. eexists. split; [reflexivity|]. split; [done|]. apply Qcle_refl.
  - right. unfold rsi_row, div. rewrite bool_decide_eq_false_2 by done.
    assert (Hrs : 0 ≤ g / l).
    { apply Qcmult_nonneg_nonneg; [done|]. apply Qclt_le_weak, Qcinv_pos.
      destruct (Qcle_lt_or_eq _ _ Hl) as [?|?]; [done|]. by destruct Hnz. }
    set (rs := g / l) in *. clearbody rs.
    assert (Hpos : 0 < Qc_of_Z 1 + rs).
    { rewrite Z2Qc_inj_1. by apply Qcplus_pos_nonneg. }
    unfold of_Z, add. rewrite bool_decide_eq_false_2 by (by apply Qclt_not_eq in Hpos).
    unfold sub, neg, add. eexists. split; [reflexivity|].
    set (t := Qc_of_Z 1 + rs) in *.
    assert (Hh : ∀ h, h = Qc_of_Z 100 → 0 ≤ h / t ∧ h / t ≤ h).
    { intros h ->. assert (0 ≤ Qc_of_Z 100) as H100 by done. split.
      - apply Qcmult_nonneg_nonneg; [done|]. by apply Qclt_le_weak, Qcinv_pos.
      - rewrite <- (Qcmult_1_r (Qc_of_Z 100)) at 2.
        apply Qcmult_le_mono_nonneg_l; [done|].
        apply (Qcmult_le_mono_pos_r _ _ t); [done|].
        rewrite Qcmult_inv_l, Qcmult_1_l by (by apply Qclt_not_eq in Hpos).
        unfold t. rewrite Z2Qc_inj_1.
        rewrite <- (Qcplus_0_r 1) at 1. by apply Qcplus_le_mono_l. }
    destruct (Hh _ eq_refl) as [H1 H2]. generalize dependent (Qc_of_Z 100 / t).
    intros x H1 H2. split.
    + apply (Qcplus_le_mono_r _ _ x).
      rewrite Qcplus_0_l, <- Qcplus_assoc, (Qcplus_comm (- x)), Qcplus_opp_r, Qcplus_0_r.
      done.
    + apply (Qcplus_le_mono_r _ _ x).
      rewrite <- Qcplus_assoc, (Qcplus_comm (- x)), Qcplus_opp_r, Qcplus_0_r.
      rewrite <- (Qcplus_0_r (Qc_of_Z 100)) at 1. by apply Qcplus_le_mono_l.
Qed.

(** X21: On a close column of numbers, every row of the RSI is a number between
    0 and 100 or a missing value. *)
Theorem rsi_on_scale df (closes : list Qc) :
  col df "close" = Return (Fin <$> closes) →
  ∃ xs, rsi df = Return (Series xs) ∧ length xs = length closes ∧
        Forall on_scale xs.
Proof.
  intros Hcol. rewrite (rsi_eq df _ Hcol). eexists. split; [reflexivity|].
  split; [by rewrite length_rsi_of, length_fmap|].
  destruct closes as [|q qs]; [by constructor|].
  unfold rsi_of. rewrite gain_numbers, loss_numbers_any.
  assert (Hg := length_gains (q :: qs) ltac:(done)).
  assert (Hl := length_losses (q :: qs) ltac:(done)).
  apply Forall_lookup_2. intros i x Hx.
  assert (Hi : (i < length (q :: qs))%nat).
  { apply lookup_lt_Some in Hx.
    rewrite length_fmap, length_zip_with, !length_rolling, !length_fmap in Hx. lia. }
  revert Hx. rewrite list_lookup_fmap, lookup_zip_with.
  destruct (decide (i + 1 < 14)%nat) as [Hw|Hw].
  - rewrite !rolling_warmup by (rewrite ?length_fmap; lia). simpl. intros [= <-]. by left.
  - rewrite !rolling_full by lia.
    rewrite !mean_14 by (apply length_window; lia). simpl option_map.
    cbn [mbind option_bind fmap option_fmap option_map].
    intros [= <-]. apply rsi_row_on_scale.
    + apply Qcmult_nonneg_nonneg.
      * apply total_nonneg, Forall_take, Forall_drop, gains_nonneg.
      * apply Qclt_le_weak, Qcinv_pos. done.
    + apply Qcmult_nonneg_nonneg.
      * apply total_nonneg, Forall_take, Forall_drop, losses_nonneg.
      * apply Qclt_le_weak, Qcinv_pos. done.
Qed.

Lemma rsi_on_scale_witness :
  let df := rename example_frame (column_mapping example_frame) in
  ∃ xs, rsi df = Return (Series xs) ∧ length xs = 3%nat ∧ Forall on_scale xs.
Proof.
  exact (rsi_on_scale (rename example_frame (column_mapping example_frame))
           (Qc_of_Z <$> [11; 12; 11]%Z) eq_refl).
Defined.


Lemma cumsum_from_numbers (acc : Qc) (xs : list Qc) :
  cumsum_from (Fin acc) (Fin <$> xs) = Fin <$> running acc xs.
Proof.
  revert acc. induction xs as [|x xs IH]; intros acc; [done|].
  rewrite fmap_cons. cbn [cumsum_from running]. cbv zeta. rewrite fmap_cons.
  cbn [add]. by rewrite IH.
Qed.

Lemma length_running acc xs : length (running acc xs) = length xs.
Proof. revert acc. induction xs as [|x xs IH]; intros acc; simpl; [done|]. by rewrite IH. Qed.

Lemma running_step acc xs i y x :
  running acc xs !! i = Some y → xs !! S i = Some x →
  running acc xs !! S i = Some (y + x).
Proof.
  revert acc i. induction xs as [|x0 xs IH]; intros acc i; [done|].
  destruct i as [|i].
  - cbn [running]. intros [= <-]. destruct xs as [|x1 xs]; [done|].
    by intros [= <-].
  - cbn [running]. intros Hy Hx. exact (IH _ _ Hy Hx).
Qed.

Lemma col_Return_elem df name xs : col df name = Return xs → name ∈ column_names df.
Proof.
  unfold column_names. induction df as [|[c ys] df IH]; [done|].
  cbn [col]. rewrite fmap_cons. destruct (String.eqb_spec c name) as [->|_].
  - intros _. constructor.
  - intros H. constructor. by apply IH.
Qed.

Lemma signed_volume_numbers (q : Qc) (qs vs : list Qc) :
  length vs = length (q :: qs) →
  fillna (of_Z 0) (zip_with mul (sign <$> diff (Fin <$> q :: qs)) (Fin <$> vs))
  = Fin <$> signed_volume (q :: qs) vs.
Proof.
  destruct vs as [|v vs]; [done|]. intros _.
  rewrite diff_numbers. unfold signed_volume. rewrite !fmap_cons.
  cbn [zip_with fillna fmap list_fmap tail].
  change (sign NaN) with NaN. rewrite mul_NaN_l. cbn [is_nan]. f_equal.
  unfold fillna. generalize (deltas (q :: qs)). intros ds. revert vs.
  induction ds as [|d ds IH]; intros [|v' vs]; try done.
  rewrite !fmap_cons. cbn [zip_with]. rewrite !fmap_cons, IH. f_equal.
  unfold sign, sgn. by destruct (d ?= 0).
Qed.

(** X22: On-balance volume on columns of numbers starts at 0, and from one row
    to the next it rises by the volume of the day when the close rose,
    falls by it when the close fell, and stays when the close did not
    move. *)
Theorem obv_follows_direction df (closes volumes : list Qc) :
  col df "close" = Return (Fin <$> closes) →
  col df "volume" = Return (Fin <$> volumes) →
  length volumes = length closes →
  ∃ ys, obv df = Return (Series (Fin <$> ys)) ∧
        length ys = length closes ∧
        (∀ y, ys !! 0%nat = Some y → y = 0) ∧
        ∀ i c c' v y,
          closes !! i = Some c → closes !! S i = Some c' → volumes !! S i = Some v →
          ys !! i = Some y →
          (c < c' → ys !! S i = Some (y + v)) ∧
          (c' < c → ys !! S i = Some (y - v)) ∧
          (c' = c → ys !! S i = Some y).
Proof.
  intros Hc Hv Hlen. unfold obv.
  rewrite bool_decide_eq_true_2 by (by eapply col_Return_elem).
  unfold mbind, outcome_bind, mret, outcome_ret. rewrite Hc, Hv.
  destruct closes as [|q qs].
  { destruct volumes; [|done]. exists []. by repeat split. }
  rewrite signed_volume_numbers by done. unfold cumsum, of_Z.
  rewrite cumsum_from_numbers.
  eexists. split; [reflexivity|].
  assert (Hsv : length (signed_volume (q :: qs) volumes) = length (q :: qs)).
  { unfold signed_volume, deltas. destruct volumes as [|v vs]; [done|].
    simpl in *. rewrite !length_zip_with. simpl. lia. }
  split; [by rewrite length_running|]. split.
  - intros y. unfold signed_volume. cbn [running]. intros [= <-].
    rewrite Z2Qc_inj_0. ring.
  - intros i c c' v y Hi HSi Hvol Hy.
    assert (Hflow : signed_volume (q :: qs) volumes !! S i
                    = Some (match (c' + - c ?= 0) with
                            | Gt => Qc_of_Z 1 * v
                            | Lt => Qc_of_Z (-1) * v
                            | Eq => Qc_of_Z 0 * v
                            end)).
    { unfold signed_volume.
      change ((?a :: ?l) !! S i) with (l !! i).
      rewrite (lookup_zip_with_Some' _ _ _ _ (c' + - c) v); [reflexivity| |].
      - unfold deltas. rewrite (lookup_zip_with_Some' _ _ _ _ c' c); [done| |done].
        by rewrite lookup_tail.
      - by rewrite lookup_tail. }
    pose proof (running_step _ _ _ _ _ Hy Hflow) as Hstep.
    rewrite Hstep. clear Hstep Hflow.
    split; [|split].
    + intros Hup.
      assert ((c' + - c ?= 0) = Gt) as ->.
      { apply Qcgt_alt. by apply Qclt_minus_iff in Hup. }
      apply f_equal. rewrite Z2Qc_inj_1. ring.
    + intros Hdown.
      assert ((c' + - c ?= 0) = Lt) as ->.
      { apply Qclt_alt. apply (Qcplus_lt_mono_r _ _ c).
        by rewrite <- Qcplus_assoc, (Qcplus_comm (- c)), Qcplus_opp_r, Qcplus_0_r,
          Qcplus_0_l. }
      apply f_equal.
      assert (Qc_of_Z (-1) = - (1)) as -> by by apply Qc_is_canon. ring.
    + intros ->.
      assert ((c + - c ?= 0) = Eq) as ->.
      { apply Qceq_alt. apply Qcplus_opp_r. }
      apply f_equal. rewrite Z2Qc_inj_0. ring.
Qed.

Lemma obv_follows_direction_witness :
  let df := rename example_frame (column_mapping example_frame) in
  ∃ ys, obv df = Return (Series (Fin <$> ys)) ∧ length ys = 3%nat.
Proof.
  destruct (obv_follows_direction
              (rename example_frame (column_mapping example_frame))
              (Qc_of_Z <$> [11; 12; 11]%Z) (Qc_of_Z <$> [500; 700; 600]%Z))
    as (ys & Hobv & Hlen & _); [reflexivity..|].
  exists ys. split; [exact Hobv|exact Hlen].
Defined.


Lemma ewm_step_smoothed alpha (w c : Qc) :
  ewm_step alpha (Fin w, Qc_of_Z 1) (Fin c)
  = (Fin (alpha * c + (1 - alpha) * w), Qc_of_Z 1).
Proof.
  unfold ewm_step. cbn [is_nan mul add div].
  assert (Hone : Qc_of_Z 1 * (Qc_of_Z 1 - alpha) + alpha = 1)
    by (rewrite Z2Qc_inj_1; ring).
  rewrite Hone. rewrite bool_decide_eq_false_2 by done.
  do 2 f_equal. rewrite Z2Qc_inj_1. field. done.
Qed.

Lemma ewm_go_smoothed alpha (w : Qc) (qs : list Qc) :
  ewm_go alpha (Fin w, Qc_of_Z 1) (Fin <$> qs) = Fin <$> smoothed alpha w qs.
Proof.
  revert w. induction qs as [|c qs IH]; intros w; [done|].
  rewrite fmap_cons. cbn [ewm_go smoothed]. rewrite ewm_step_smoothed.
  cbv zeta. cbn [fst]. rewrite fmap_cons. by rewrite IH.
Qed.

Lemma ewm_mean_smoothed span (q : Qc) (qs : list Qc) :
  ewm_mean span (Fin <$> q :: qs) = Fin <$> q :: smoothed (smoothing span) q qs.
Proof.
  unfold ewm_mean. rewrite prep_numbers, !fmap_cons. cbv zeta.
  by rewrite ewm_go_smoothed.
Qed.

(** X23: Each EMA line on a close column of numbers is the textbook recursion:
    it starts at the first close, and every later row is
    [alpha * close + (1 - alpha) * previous] with [alpha = 2 / (period + 1)]. *)
Theorem ema_is_the_recursion df (first : Qc) (rest : list Qc) :
  col df "close" = Return (Fin <$> first :: rest) →
  exponential_moving_averages df =
  Return (Lines ((λ period, ("EMA" +:+ pretty period,
                              Fin <$> first :: smoothed (smoothing period) first rest))
                   <$> periods)).
Proof.
  intros Hcol. rewrite (exponential_moving_averages_eq _ _ Hcol).
  by rewrite !ewm_mean_smoothed.
Qed.

Lemma ema_is_the_recursion_witness :
  let df := rename example_frame (column_mapping example_frame) in
  exponential_moving_averages df =
  Return (Lines ((λ period, ("EMA" +:+ pretty period,
                              Fin <$> Qc_of_Z 11
                                      :: smoothed (smoothing period) (Qc_of_Z 11)
                                           (Qc_of_Z <$> [12; 11]%Z)))
                   <$> periods)).
Proof.
  exact (ema_is_the_recursion (rename example_frame (column_mapping example_frame))
           (Qc_of_Z 11) (Qc_of_Z <$> [12; 11]%Z) eq_refl).
Defined.

End SeriesFacts.

(** ** Provider adapter: symbols and services *)

Module AdapterFacts.
Import AKShareAdapter.

Lemma startswith_longer s a b :
  startswith s (String a (String b EmptyString)) = true →
  startswith s (String a EmptyString) = true.
Proof.
  destruct s as [|x s]; [done|]. cbn [startswith].
  destruct (Ascii.eqb a x); [|done]. by destruct s.
Qed.

Lemma standardize_None (symbol : string) :
  _standardize_symbol symbol None
  = (if startswith (clean_symbol symbol) "0" || startswith (clean_symbol symbol) "3"
     then "SZ" else "SH") +:+ clean_symbol symbol.
Proof.
  unfold _standardize_symbol. cbv zeta.
  destruct (startswith (clean_symbol symbol) "0") eqn:H0; [done|].
  destruct (startswith (clean_symbol symbol) "3"); [done|]. cbn [orb].
  destruct (startswith (clean_symbol symbol) "6"); [done|].
  destruct (startswith (clean_symbol symbol) "00") eqn:H00.
  { apply startswith_longer in H00. congruence. }
  destruct (startswith (clean_symbol symbol) "08") eqn:H08; [|done].
  apply startswith_longer in H08. congruence.
Qed.

(** X24: Without a market, the symbol always comes back with an exchange prefix:
    SZ when the cleaned symbol starts with 0 or 3, else SH.  The branch
    that would return a Hong Kong code as it is cannot be reached. *)
Theorem standardize_symbol_without_market (symbol : string) :
  _standardize_symbol symbol None
  = (if startswith (clean_symbol symbol) "0" || startswith (clean_symbol symbol) "3"
     then "SZ" else "SH") +:+ clean_symbol symbol.
Proof. exact (standardize_None symbol). Qed.


Lemma len_prefixed a b s :
  (N_of_ascii a < 128)%N → (N_of_ascii b < 128)%N →
  len (String a (String b s)) = S (S (len s)).
Proof.
  intros Ha Hb. cbn [len]. cbv zeta.
  rewrite (proj2 (N.leb_gt _ _) Ha), (proj2 (N.leb_gt _ _) Hb). done.
Qed.

(** X25: [get_stock_price] asks the Hong Kong service exactly when the cleaned
    symbol has three characters; a five-digit Hong Kong code goes to the
    A-share service, with an exchange prefix in front. *)
Theorem stock_price_service_choice (symbol : string) :
  stock_price_service symbol
  = (if bool_decide (len (clean_symbol symbol) = 3) then HongKong else AShare)
      (_standardize_symbol symbol None).
Proof.
  unfold stock_price_service. cbv zeta. rewrite standardize_None.
  set (c := clean_symbol symbol).
  destruct (startswith c "0" || startswith c "3").
  - change ("SZ" +:+ c) with (String "S" (String "Z" c)).
    rewrite len_prefixed by done.
    change (startswith (String "S" (String "Z" c)) "00") with false. cbn [orb].
    repeat case_bool_decide; try done; lia.
  - change ("SH" +:+ c) with (String "S" (String "H" c)).
    rewrite len_prefixed by done.
    change (startswith (String "S" (String "H" c)) "00") with false. cbn [orb].
    repeat case_bool_decide; try done; lia.
Qed.

(** X26: The conversion of the symbol in [get_financial_report] changes
    nothing: the financial services get the standardized symbol. *)
Theorem fin_symbol_is_standardized (symbol : string) :
  fin_symbol symbol = _standardize_symbol symbol None.
Proof.
  unfold fin_symbol. cbv zeta. rewrite standardize_None.
  generalize (clean_symbol symbol). intros c.
  by destruct (startswith c "0" || startswith c "3").
Qed.

(** X27: When [get_stock_info] decides for the Hong Kong service without being
    told the market, the symbol it passes carries an A-share prefix. *)
Theorem hong_kong_info_gets_prefixed_symbol (symbol passed : string) :
  stock_info_service symbol None = HongKong passed →
  passed = "SZ" +:+ clean_symbol symbol ∨ passed = "SH" +:+ clean_symbol symbol.
Proof.
  unfold stock_info_service. cbv zeta. rewrite standardize_None.
  destruct (startswith symbol "00" || bool_decide (len symbol = 5)); [|done].
  destruct (startswith (clean_symbol symbol) "0" || startswith (clean_symbol symbol) "3");
    intros [= <-]; [by left|by right].
Qed.

Lemma hong_kong_info_gets_prefixed_symbol_witness :
  "SZ00700" = "SZ" +:+ clean_symbol "00700" ∨ "SZ00700" = "SH" +:+ clean_symbol "00700".
Proof. apply (hong_kong_info_gets_prefixed_symbol "00700" "SZ00700"). reflexivity. Defined.

Lemma remove_other a b x tail :
  x ≠ a → remove a b (String x tail) = String x (remove a b tail).
Proof.
  intros Hx. destruct tail as [|y rest]; [done|].
  change (remove a b (String x (String y rest)))
    with (if (Ascii.eqb x a && Ascii.eqb y b)%bool then remove a b rest
          else String x (remove a b (String y rest))).
  by rewrite (proj2 (Ascii.eqb_neq x a) Hx).
Qed.

Lemma remove_absent a b s :
  (∀ rest, s ≠ String a rest) →
  (∀ x rest, s = String x rest → remove a b rest = rest) →
  remove a b s = s.
Proof.
  intros Hhead Htail. destruct s as [|x tail]; [done|].
  rewrite remove_other.
  - f_equal. by apply (Htail x).
  - intros ->. by destruct (Hhead tail).
Qed.

Lemma remove_digits a b s :
  (N_of_ascii a < 48 ∨ 57 < N_of_ascii a)%N → digits s = true → remove a b s = s.
Proof.
  intros Ha. induction s as [|x s IH]; [done|]. cbn [digits]. cbv zeta.
  intros [[H1 H2]%andb_prop Hs]%andb_prop.
  apply N.leb_le in H1, H2.
  apply remove_absent.
  - intros rest [= -> _]. lia.
  - intros ? ? [= _ <-]. by apply IH.
Qed.

Lemma clean_symbol_digits code : digits code = true → clean_symbol code = code.
Proof.
  intros H. unfold clean_symbol.
  rewrite (remove_digits "S" "H" code), (remove_digits "S" "Z" code),
    (remove_digits "s" "h" code), (remove_digits "s" "z" code);
    first [done | right; vm_compute; done].
Qed.

Lemma remove_pair a b p1 p2 code :
  digits code = true → (N_of_ascii a < 48 ∨ 57 < N_of_ascii a)%N → p2 ≠ a →
  remove a b (String p1 (String p2 code))
  = if (Ascii.eqb p1 a && Ascii.eqb p2 b)%bool then code
    else String p1 (String p2 code).
Proof.
  intros Hd Ha Hp2.
  change (remove a b (String p1 (String p2 code)))
    with (if (Ascii.eqb p1 a && Ascii.eqb p2 b)%bool then remove a b code
          else String p1 (remove a b (String p2 code))).
  rewrite remove_other by done. by rewrite remove_digits.
Qed.

(** X28: A code of digits is standardized the same with or without an exchange
    prefix in front, in either case of the letters. *)
Theorem exchange_prefix_dropped (code pre : string) (market : option string) :
  digits code = true → pre ∈ exchange_prefixes →
  market = None ∨ market = Some "A" ∨ market = Some "HK" →
  clean_symbol (pre +:+ code) = code ∧
  _standardize_symbol (pre +:+ code) market = _standardize_symbol code market.
Proof.
  intros Hd Hpre Hm.
  assert (Hclean : clean_symbol (pre +:+ code) = code).
  { unfold exchange_prefixes in Hpre.
    repeat (apply elem_of_cons in Hpre as [->|Hpre]); [..|by apply elem_of_nil in Hpre];
      unfold clean_symbol;
      match goal with
      | |- context [String.append (String ?p1 (String ?p2 EmptyString)) code] =>
          change (String.append (String p1 (String p2 EmptyString)) code)
            with (String p1 (String p2 code))
      end;
      repeat first
        [ reflexivity
        | rewrite (remove_digits _ _ code) by first [done | right; vm_compute; done]
        | rewrite (remove_pair _ _ _ _ code Hd) by first [done | right; vm_compute; done];
          cbn [Ascii.eqb Bool.eqb andb] ]. }
  split; [done|].
  unfold _standardize_symbol. cbv zeta.
  rewrite Hclean, (clean_symbol_digits code Hd).
  by destruct Hm as [-> | [-> | ->]].
Qed.

Lemma exchange_prefix_dropped_witness :
  clean_symbol ("sh" +:+ "600519") = "600519" ∧
  _standardize_symbol ("sh" +:+ "600519") None = _standardize_symbol "600519" None.
Proof.
  apply exchange_prefix_dropped.
  - reflexivity.
  - unfold exchange_prefixes. rewrite !elem_of_cons. tauto.
  - by left.
Defined.

End AdapterFacts.
